(** * smalloc: external array data attached to JavaScript objects

    A shallow embedding of [src/smalloc.cc] (namespace [node::smalloc]) and
    the properties of its allocation, disposal, weak-callback, copy and
    slice operations.

    The C++ functions are written in a small state-and-outcome monad over an
    [Environment] that gathers what the code reads and writes: the objects
    with their external array data and hidden values, the [CallbackInfo]
    records on the native heap, the weak persistent handles, the isolate's
    external-memory counter, native memory, and a trace of the calls made to
    [malloc], [free], [new], [delete], the user's free callback and
    [AdjustAmountOfExternalAllocatedMemory]. *)

From stdpp Require Import gmap strings list.
From Stdlib Require Import ZArith Lia.

Local Open Scope string_scope.
Local Open Scope list_scope.
Local Open Scope Z_scope.

(** ** Element kinds *)

(** [v8::ExternalArrayType]. The enumeration has nine members; a value
    obtained by [static_cast] from an integer outside them is
    [kExternalOther]. *)
Inductive ExternalArrayType : Type :=
| kExternalByteArray
| kExternalUnsignedByteArray
| kExternalShortArray
| kExternalUnsignedShortArray
| kExternalIntArray
| kExternalUnsignedIntArray
| kExternalFloatArray
| kExternalDoubleArray
| kExternalPixelArray
| kExternalOther (tag : Z).

(** return size of external array type, or 0 if unrecognized *)
Definition ExternalArraySize (type : ExternalArrayType) : Z :=
  match type with
  | kExternalUnsignedByteArray => 1
  | kExternalByteArray => 1
  | kExternalShortArray => 2
  | kExternalUnsignedShortArray => 2
  | kExternalIntArray => 4
  | kExternalUnsignedIntArray => 4
  | kExternalFloatArray => 4
  | kExternalDoubleArray => 8
  | kExternalPixelArray => 1
  | kExternalOther _ => 0
  end.

(** ** Objects, handles and the environment *)

(** The external array a [v8::Object] presents as its indexed properties:
    the pointer ([0] is [NULL]), the element kind and the number of
    elements. *)
Record ExternalArrayData : Type := {
  ea_data : Z;
  ea_type : ExternalArrayType;
  ea_length : Z
}.

(** A [v8::Object] as far as this file uses it: its external array data, if
    any, and the hidden value stored under [env->smalloc_p_string()] (the
    address wrapped by the [v8::External]). *)
Record JSObject : Type := {
  elements : option ExternalArrayData;
  smalloc_p : option Z
}.

Definition plain_object : JSObject :=
  {| elements := None; smalloc_p := None |}.

(** [struct CallbackInfo]. [p_obj] is the persistent handle: the object it
    refers to, or [None] once [Reset()]. *)
Record CallbackInfo : Type := {
  hint : Z;
  cb : Z;
  p_obj : option positive
}.

(** A persistent handle made weak by [SetWeak(parameter, callback)]: the two
    callbacks of the file, each with the parameter it was registered with. *)
Inductive weak_handle : Type :=
| WeakTarget (obj : positive) (info : Z)
| WeakTargetFree (obj : positive) (cb_info : Z).

#[global] Instance weak_handle_eq_dec : EqDecision weak_handle.
Proof. solve_decision. Defined.

Definition weak_object (h : weak_handle) : positive :=
  match h with
  | WeakTarget obj _ => obj
  | WeakTargetFree obj _ => obj
  end.

(** Calls that leave the module. *)
Inductive event : Type :=
| EvMalloc (size : Z) (result : Z)
| EvNewArray (size : Z) (result : Z)
| EvNewInfo (result : Z)
| EvFree (ptr : Z)
| EvDeleteInfo (ptr : Z)
| EvFreeCallback (fn : Z) (data : Z) (hint : Z)
| EvAdjust (change_in_bytes : Z).

Record Environment : Type := {
  objects : gmap positive JSObject;
  callback_infos : gmap Z CallbackInfo;
  weak_handles : list weak_handle;
  external_memory : Z;
  using_smalloc_alloc_cb : bool;
  memory : Z -> Z;
  trace : list event
}.

Definition set_objects (f : gmap positive JSObject -> gmap positive JSObject)
    (env : Environment) : Environment :=
  {| objects := f (objects env);
     callback_infos := callback_infos env;
     weak_handles := weak_handles env;
     external_memory := external_memory env;
     using_smalloc_alloc_cb := using_smalloc_alloc_cb env;
     memory := memory env;
     trace := trace env |}.

Definition set_callback_infos (f : gmap Z CallbackInfo -> gmap Z CallbackInfo)
    (env : Environment) : Environment :=
  {| objects := objects env;
     callback_infos := f (callback_infos env);
     weak_handles := weak_handles env;
     external_memory := external_memory env;
     using_smalloc_alloc_cb := using_smalloc_alloc_cb env;
     memory := memory env;
     trace := trace env |}.

Definition set_weak_handles (f : list weak_handle -> list weak_handle)
    (env : Environment) : Environment :=
  {| objects := objects env;
     callback_infos := callback_infos env;
     weak_handles := f (weak_handles env);
     external_memory := external_memory env;
     using_smalloc_alloc_cb := using_smalloc_alloc_cb env;
     memory := memory env;
     trace := trace env |}.

Definition set_external_memory (f : Z -> Z) (env : Environment) : Environment :=
  {| objects := objects env;
     callback_infos := callback_infos env;
     weak_handles := weak_handles env;
     external_memory := f (external_memory env);
     using_smalloc_alloc_cb := using_smalloc_alloc_cb env;
     memory := memory env;
     trace := trace env |}.

Definition set_using_smalloc_alloc_cb (b : bool) (env : Environment) : Environment :=
  {| objects := objects env;
     callback_infos := callback_infos env;
     weak_handles := weak_handles env;
     external_memory := external_memory env;
     using_smalloc_alloc_cb := b;
     memory := memory env;
     trace := trace env |}.

Definition set_memory (f : (Z -> Z) -> Z -> Z) (env : Environment) : Environment :=
  {| objects := objects env;
     callback_infos := callback_infos env;
     weak_handles := weak_handles env;
     external_memory := external_memory env;
     using_smalloc_alloc_cb := using_smalloc_alloc_cb env;
     memory := f (memory env);
     trace := trace env |}.

Definition log (e : event) (env : Environment) : Environment :=
  {| objects := objects env;
     callback_infos := callback_infos env;
     weak_handles := weak_handles env;
     external_memory := external_memory env;
     using_smalloc_alloc_cb := using_smalloc_alloc_cb env;
     memory := memory env;
     trace := trace env ++ [e] |}.

(** ** Outcomes *)

(** The JavaScript exceptions the file schedules with [env->Throw...]. *)
Inductive exception : Type :=
| TypeError (message : string)
| RangeError (message : string)
| Error (message : string).

(** How a call ends: it returns; it returns with an exception scheduled; an
    [assert] fails; [FatalError] ends the process; [new] fails with
    [std::bad_alloc], which nothing in the file catches; or the behaviour is
    not defined by C++ (a deleted record is read, a division by zero). *)
Inductive outcome (A : Type) : Type :=
| Ok (a : A)
| Throw (e : exception)
| AssertFail (condition : string)
| Fatal (location message : string)
| BadAlloc
| Undefined (what : string).

Arguments Ok {A} a.
Arguments Throw {A} e.
Arguments AssertFail {A} condition.
Arguments Fatal {A} location message.
Arguments BadAlloc {A}.
Arguments Undefined {A} what.

Definition M (A : Type) : Type := Environment -> outcome A * Environment.

Definition ret {A : Type} (a : A) : M A := fun env => (Ok a, env).

Definition bind {A B : Type} (m : M A) (k : A -> M B) : M B :=
  fun env =>
    match m env with
    | (Ok a, env') => k a env'
    | (Throw e, env') => (Throw e, env')
    | (AssertFail c, env') => (AssertFail c, env')
    | (Fatal l s, env') => (Fatal l s, env')
    | (BadAlloc, env') => (BadAlloc, env')
    | (Undefined s, env') => (Undefined s, env')
    end.

Declare Scope smalloc_scope.
Delimit Scope smalloc_scope with smalloc.
Notation "x <- c1 ;; c2" := (bind c1 (fun x => c2))
  (at level 100, c1 at next level, right associativity) : smalloc_scope.
Notation "c1 ;; c2" := (bind c1 (fun _ => c2))
  (at level 100, right associativity) : smalloc_scope.
Local Open Scope smalloc_scope.

Definition get_env : M Environment := fun env => (Ok env, env).
Definition modify (f : Environment -> Environment) : M unit :=
  fun env => (Ok tt, f env).
Definition throw {A : Type} (e : exception) : M A := fun env => (Throw e, env).
Definition ThrowTypeError {A : Type} (s : string) : M A := throw (TypeError s).
Definition ThrowRangeError {A : Type} (s : string) : M A := throw (RangeError s).
Definition ThrowError {A : Type} (s : string) : M A := throw (Error s).

(** [assert(c)], with the text of the condition; assertions are taken as
    compiled in. *)
Definition assert (c : bool) (condition : string) : M unit :=
  fun env => if c then (Ok tt, env) else (AssertFail condition, env).

(** [FatalError(location, message)] does not return. *)
Definition FatalError {A : Type} (location message : string) : M A :=
  fun env => (Fatal location message, env).

Definition undefined {A : Type} (what : string) : M A :=
  fun env => (Undefined what, env).


(** ** The embedder's interface

    [smalloc.cc] calls into the managed-object system ([v8.h]) and the C
    library, which are not among the sources. The definitions of this
    section stand for those calls. *)

(** Modelled from the spec: the call arguments, which the binding glue
    marshals ("all five arguments are taken as unsigned 32-bit integers at
    the boundary"). [args[i]] of a [FunctionCallbackInfo] is undefined, an
    integral number or an object. *)
Inductive Value : Type :=
| JSUndefined
| JSNumber (n : Z)
| JSObjectRef (obj : positive).

Definition IsObject (v : Value) : bool :=
  match v with JSObjectRef _ => true | _ => false end.

(** Modelled from the spec: [Uint32Value()], the argument "taken as unsigned
    32-bit integer": an integral number modulo 2^32. Undefined and an object
    (objects here have no conversion of their own) convert to NaN and so
    to 0. *)
Definition Uint32Value (v : Value) : Z :=
  match v with
  | JSNumber n => n mod 2 ^ 32
  | _ => 0
  end.

(** An object never written to is a plain object. *)
Definition get_object (env : Environment) (obj : positive) : JSObject :=
  default plain_object (objects env !! obj).

Definition the_object (obj : positive) : M JSObject :=
  fun env => (Ok (get_object env obj), env).

(** [args[i].As<Object>()], a cast without a test. *)
Definition As_Object (v : Value) : M positive :=
  match v with
  | JSObjectRef obj => ret obj
  | _ => undefined "As<Object>() of a value that is no object"
  end.

(** Modelled from the spec: the query of the managed-object system behind
    [hasExternalData], "true only if value is an object-like wrapper with an
    attached buffer". *)
Definition HasIndexedPropertiesInExternalArrayData (o : JSObject) : bool :=
  match elements o with Some _ => true | None => false end.

(** Modelled from the spec: the [data] of the attached buffer, "raw pointer
    to the native block, or null"; [NULL] without a buffer. *)
Definition GetIndexedPropertiesExternalArrayData (o : JSObject) : Z :=
  match elements o with Some e => ea_data e | None => 0 end.

(** Modelled from the spec: the number of elements of the attached buffer
    (its byte length is the "element count x element width"). The call
    returns an [int]; without a buffer the model returns -1. *)
Definition GetIndexedPropertiesExternalArrayDataLength (o : JSObject) : Z :=
  match elements o with Some e => ea_length e | None => -1 end.

(** Modelled from the spec: the [elementKind] of the attached buffer;
    without a buffer a value outside the enumeration. *)
Definition GetIndexedPropertiesExternalArrayDataType (o : JSObject)
    : ExternalArrayType :=
  match elements o with Some e => ea_type e | None => kExternalOther (-1) end.

(** Modelled from the spec: attaching a buffer to a wrapper.
    [obj->SetIndexedPropertiesToExternalArrayData(data, type, length)]
    makes the indexed properties of [obj] the [length] elements of kind
    [type] at [data]; the hidden value stays. *)
Definition SetIndexedPropertiesToExternalArrayData
    (obj : positive) (data : Z) (type : ExternalArrayType) (length : Z) : M unit :=
  modify (fun env =>
    set_objects
      <[obj := {| elements := Some {| ea_data := data; ea_type := type;
                                      ea_length := length |};
                  smalloc_p := smalloc_p (get_object env obj) |}]> env).

(** Modelled from the spec: "a hidden/private slot mechanism for attaching
    opaque native state to a managed object". [GetHiddenValue] yields the
    address held by the [External] stored under [smalloc_p_string()], if
    there is one. *)
Definition GetHiddenValue (o : JSObject) : option Z := smalloc_p o.

Definition SetHiddenValue (obj : positive) (external : Z) : M unit :=
  modify (fun env =>
    set_objects
      <[obj := {| elements := elements (get_object env obj);
                  smalloc_p := Some external |}]> env).

(** [static_cast<int64_t>] of an unsigned value. *)
Definition int64 (z : Z) : Z := (z + 2 ^ 63) mod 2 ^ 64 - 2 ^ 63.

(** Modelled from the spec: the accountant's [adjust(deltaBytes)], which
    "adds deltaBytes (signed) to the running total";
    [isolate->AdjustAmountOfExternalAllocatedMemory(change_in_bytes)]. *)
Definition AdjustAmountOfExternalAllocatedMemory (change_in_bytes : Z) : M unit :=
  modify (fun env =>
    log (EvAdjust change_in_bytes)
        (set_external_memory (fun total => total + change_in_bytes) env)).

(** Modelled from the spec: "weak-reference registration with a release
    callback"; [p_obj.SetWeak(parameter, callback)] adds the registration. *)
Definition SetWeak (h : weak_handle) : M unit :=
  modify (set_weak_handles (fun hs => hs ++ [h])).

(** [malloc(size)]: [result] is the pointer the C library hands back, [0]
    when it fails. *)
Definition malloc (size : Z) (result : Z) : M Z :=
  fun env => (Ok result, log (EvMalloc size result) env).

Definition free (ptr : Z) : M unit := modify (log (EvFree ptr)).

(** [new char[size]] and [new CallbackInfo]: the address, or [None] when the
    allocation fails and [std::bad_alloc] leaves the function. *)
Definition new_array (size : Z) (result : option Z) : M Z :=
  fun env =>
    match result with
    | Some p => (Ok p, log (EvNewArray size p) env)
    | None => (BadAlloc, env)
    end.

Definition new_CallbackInfo (result : option Z) : M Z :=
  fun env =>
    match result with
    | Some p => (Ok p, log (EvNewInfo p) env)
    | None => (BadAlloc, env)
    end.

(** [memmove(dest, src, n)]: the [n] bytes at [src], as they were before the
    call, now also stand at [dest]. *)
Definition memmove (dest src n : Z) : M unit :=
  modify (set_memory (fun m a =>
    if (dest <=? a) && (a <? dest + n) then m (src + (a - dest)) else m a)).

(** ** The functions of [smalloc.cc] *)

Section Smalloc.

(** The width of [size_t], the constant [kMaxLength] of [smalloc.h] and
    [sizeof(CallbackInfo)] depend on the platform and on headers outside the
    file. *)
Variable size_bits : Z.
Variable kMaxLength : Z.
Variable sizeof_cb_info : Z.

(** Conversion to [size_t], and [size_t] arithmetic, wrap modulo
    [2 ^ size_bits]. *)
Definition size_t (z : Z) : Z := z mod 2 ^ size_bits.

(** copyOnto(source, source_start, dest, dest_start, copy_length):
    the block under "optimization for Uint8 arrays (i.e. Buffers)". It
    yields [source_length], [copy_length] and [dest_length] as the rest of
    the function sees them. *)
Definition CopyOnto_scale
    (source_size dest_size source_length copy_length dest_length : Z)
    : M (Z * Z * Z) :=
  if negb (source_size =? 1) && negb (dest_size =? 1) then
    if source_size =? 0 then
      ThrowTypeError "unknown source external array type"
    else if dest_size =? 0 then
      ThrowTypeError "unknown dest external array type"
    else if size_t (source_length * source_size) <? source_length then
      ThrowRangeError "source_length * source_size overflow"
    else if size_t (copy_length * source_size) <? copy_length then
      ThrowRangeError "copy_length * source_size overflow"
    else if size_t (dest_length * dest_size) <? dest_length then
      ThrowRangeError "dest_length * dest_size overflow"
    else
      ret (size_t (source_length * source_size),
           size_t (copy_length * source_size),
           size_t (dest_length * dest_size))
  else
    ret (source_length, copy_length, dest_length).

(** The six range checks of [CopyOnto], in the order of the source. *)
Definition CopyOnto_check
    (source_start dest_start source_length copy_length dest_length : Z)
    : M unit :=
  if copy_length >? source_length then
    ThrowRangeError "copy_length > source_length"
  else if copy_length >? dest_length then
    ThrowRangeError "copy_length > dest_length"
  else if source_start >? source_length then
    ThrowRangeError "source_start > source_length"
  else if dest_start >? dest_length then
    ThrowRangeError "dest_start > dest_length"
  else if size_t (source_start + copy_length) >? source_length then
    ThrowRangeError "source_start + copy_length > source_length"
  else if size_t (dest_start + copy_length) >? dest_length then
    ThrowRangeError "dest_start + copy_length > dest_length"
  else
    ret tt.

Definition CopyOnto (args0 args1 args2 args3 args4 : Value) : M unit :=
  if negb (IsObject args0) then
    ThrowTypeError "source must be an object"
  else if negb (IsObject args2) then
    ThrowTypeError "dest must be an object"
  else
    source <- As_Object args0 ;;
    dest <- As_Object args2 ;;
    source_o <- the_object source ;;
    dest_o <- the_object dest ;;
    if negb (HasIndexedPropertiesInExternalArrayData source_o) then
      ThrowError "source has no external array data"
    else if negb (HasIndexedPropertiesInExternalArrayData dest_o) then
      ThrowError "dest has no external array data"
    else
      let source_start := size_t (Uint32Value args1) in
      let dest_start := size_t (Uint32Value args3) in
      let copy_length := size_t (Uint32Value args4) in
      let source_data := GetIndexedPropertiesExternalArrayData source_o in
      let dest_data := GetIndexedPropertiesExternalArrayData dest_o in
      let source_length :=
        size_t (GetIndexedPropertiesExternalArrayDataLength source_o) in
      let source_size :=
        ExternalArraySize (GetIndexedPropertiesExternalArrayDataType source_o) in
      let dest_length :=
        size_t (GetIndexedPropertiesExternalArrayDataLength dest_o) in
      let dest_size :=
        ExternalArraySize (GetIndexedPropertiesExternalArrayDataType dest_o) in
      lengths <- CopyOnto_scale source_size dest_size
                   source_length copy_length dest_length ;;
      let '(source_length, copy_length, dest_length) := lengths in
      CopyOnto_check source_start dest_start
        source_length copy_length dest_length ;;
      memmove (dest_data + dest_start) (source_data + source_start) copy_length.

(** dest will always be same type as source.
    for internal use: dest._data = sliceOnto(source, dest, start, end).
    [args[0]] and [args[1]] are cast to objects without a test. *)
Definition SliceOnto (source dest : positive) (args2 args3 : Value) : M positive :=
  source_o <- the_object source ;;
  dest_o <- the_object dest ;;
  assert (HasIndexedPropertiesInExternalArrayData source_o)
    "source->HasIndexedPropertiesInExternalArrayData()" ;;
  assert (negb (HasIndexedPropertiesInExternalArrayData dest_o))
    "!dest->HasIndexedPropertiesInExternalArrayData()" ;;
  let source_data := GetIndexedPropertiesExternalArrayData source_o in
  let source_len :=
    size_t (GetIndexedPropertiesExternalArrayDataLength source_o) in
  let source_type := GetIndexedPropertiesExternalArrayDataType source_o in
  let source_size := ExternalArraySize source_type in
  assert (negb (source_size =? 0)) "source_size != 0" ;;
  let start := size_t (Uint32Value args2) in
  let end_ := size_t (Uint32Value args3) in
  let length := size_t (end_ - start) in
  length <- (if source_size >? 1 then
               assert (size_t (length * source_size) >=? length)
                 "length * source_size >= length" ;;
               ret (size_t (length * source_size))
             else ret length) ;;
  assert (negb (source_data =? 0) || (length =? 0))
    "source_data != NULL || length == 0" ;;
  assert (end_ <=? source_len) "end <= source_len" ;;
  assert (start <=? end_) "start <= end" ;;
  SetIndexedPropertiesToExternalArrayData dest (source_data + start)
    source_type length ;;
  ret source.

(** Alloc(env, obj, data, length, type) *)
Definition Alloc_data (obj : positive) (data length : Z)
    (type : ExternalArrayType) : M unit :=
  obj_o <- the_object obj ;;
  assert (negb (HasIndexedPropertiesInExternalArrayData obj_o))
    "!obj->HasIndexedPropertiesInExternalArrayData()" ;;
  AdjustAmountOfExternalAllocatedMemory (int64 length) ;;
  SetWeak (WeakTarget obj data) ;;
  if ExternalArraySize type =? 0 then undefined "division by zero"
  else
    let size := length / ExternalArraySize type in
    SetIndexedPropertiesToExternalArrayData obj data type size.

(** Alloc(env, obj, length, type); [malloc_result] is what [malloc] returns
    if it is called. *)
Definition Alloc_length (obj : positive) (length : Z)
    (type : ExternalArrayType) (malloc_result : Z) : M unit :=
  let type_size := ExternalArraySize type in
  assert (length <=? kMaxLength) "length <= kMaxLength" ;;
  assert (type_size >? 0) "type_size > 0" ;;
  if length =? 0 then Alloc_data obj 0 length type
  else
    data <- malloc length malloc_result ;;
    (if data =? 0 then
       FatalError
         "node::smalloc::Alloc(v8::Handle<v8::Object>, size_t, v8::ExternalArrayType)"
         "Out Of Memory"
     else ret tt) ;;
    Alloc_data obj data length type.

(** for internal use: alloc(obj, n[, type]).
    [args2] is [None] for an undefined third argument and otherwise the
    [ExternalArrayType] its [Uint32Value] is cast to. *)
Definition Alloc (obj : positive) (args1 : Value)
    (args2 : option ExternalArrayType) (malloc_result : Z) : M unit :=
  obj_o <- the_object obj ;;
  if HasIndexedPropertiesInExternalArrayData obj_o then
    ThrowTypeError "object already has external array data"
  else
    let length := size_t (Uint32Value args1) in
    sized <- match args2 with
             | None => ret (length, kExternalUnsignedByteArray)
             | Some array_type =>
                 let type_length := ExternalArraySize array_type in
                 assert (size_t (type_length * length) >=? length)
                   "type_length * length >= length" ;;
                 ret (size_t (length * type_length), array_type)
             end ;;
    let '(length, array_type) := sized in
    Alloc_length obj length array_type malloc_result.

(** TargetCallback(data): [obj] is [data.GetValue()], [info] is
    [data.GetParameter()]. *)
Definition TargetCallback (obj : positive) (info : Z) : M unit :=
  obj_o <- the_object obj ;;
  let len := size_t (GetIndexedPropertiesExternalArrayDataLength obj_o) in
  let array_type := GetIndexedPropertiesExternalArrayDataType obj_o in
  let array_size := ExternalArraySize array_type in
  assert (array_size >? 0) "array_size > 0" ;;
  assert (size_t (array_size * len) >=? len) "array_size * len >= len" ;;
  let len := size_t (len * array_size) in
  if negb (info =? 0) && (len >? 0) then
    AdjustAmountOfExternalAllocatedMemory (- int64 len) ;;
    free info
  else ret tt.

(** TargetFreeCallback(isolate, target, cb_info), where [target] is
    [&cb_info->p_obj] at both call sites. The user's callback is recorded
    in the trace; what it does is outside the file. *)
Definition TargetFreeCallback (cb_info : Z) : M unit :=
  env <- get_env ;;
  match callback_infos env !! cb_info with
  | None => undefined "cb_info read after delete"
  | Some info =>
      match p_obj info with
      | None => undefined "empty persistent handle"
      | Some obj =>
          obj_o <- the_object obj ;;
          let data := GetIndexedPropertiesExternalArrayData obj_o in
          let len := size_t (GetIndexedPropertiesExternalArrayDataLength obj_o) in
          let array_type := GetIndexedPropertiesExternalArrayDataType obj_o in
          let array_size := ExternalArraySize array_type in
          assert (array_size >? 0) "array_size > 0" ;;
          len <- (if array_size >? 1 then
                    assert (size_t (len * array_size) >? len)
                      "len * array_size > len" ;;
                    ret (size_t (len * array_size))
                  else ret len) ;;
          let change_in_bytes := - int64 (size_t (len + sizeof_cb_info)) in
          AdjustAmountOfExternalAllocatedMemory change_in_bytes ;;
          (* cb_info->p_obj.Reset() *)
          modify (fun env =>
                    set_callback_infos
                      <[cb_info := {| hint := hint info; cb := cb info;
                                      p_obj := None |}]>
                      (set_weak_handles
                         (filter (fun h => h <> WeakTargetFree obj cb_info))
                         env)) ;;
          (* cb_info->cb(data, cb_info->hint) *)
          modify (log (EvFreeCallback (cb info) data (hint info))) ;;
          (* delete cb_info *)
          modify (fun env =>
                    log (EvDeleteInfo cb_info)
                        (set_callback_infos (delete cb_info) env))
      end
  end.

(** TargetFreeCallback(data): the weak callback of the callback path. *)
Definition TargetFreeCallback_weak (cb_info : Z) : M unit :=
  TargetFreeCallback cb_info.

(** for internal use: dispose(obj); AllocDispose(env, obj). *)
Definition AllocDispose (obj : positive) : M unit :=
  env <- get_env ;;
  obj_o <- the_object obj ;;
  match (if using_smalloc_alloc_cb env then GetHiddenValue obj_o else None) with
  | Some cb_info => TargetFreeCallback cb_info
  | None =>
      let data := GetIndexedPropertiesExternalArrayData obj_o in
      let length := size_t (GetIndexedPropertiesExternalArrayDataLength obj_o) in
      let array_type := GetIndexedPropertiesExternalArrayDataType obj_o in
      let array_size := ExternalArraySize array_type in
      assert (array_size >? 0) "array_size > 0" ;;
      assert (size_t (length * array_size) >=? length)
        "length * array_size >= length" ;;
      let length := size_t (length * array_size) in
      (if negb (data =? 0) then
         SetIndexedPropertiesToExternalArrayData obj 0
           kExternalUnsignedByteArray 0 ;;
         free data
       else ret tt) ;;
      if negb (length =? 0) then
        AdjustAmountOfExternalAllocatedMemory (- int64 length)
      else ret tt
  end.

(** Alloc(env, obj, data, length, fn, hint, type); [new_info] is what
    [new CallbackInfo] yields. *)
Definition Alloc_data_cb (obj : positive) (data length : Z) (fn hint_ : Z)
    (type : ExternalArrayType) (new_info : option Z) : M unit :=
  obj_o <- the_object obj ;;
  assert (negb (HasIndexedPropertiesInExternalArrayData obj_o))
    "!obj->HasIndexedPropertiesInExternalArrayData()" ;;
  modify (set_using_smalloc_alloc_cb true) ;;
  cb_info <- new_CallbackInfo new_info ;;
  modify (set_callback_infos
            <[cb_info := {| hint := hint_; cb := fn; p_obj := Some obj |}]>) ;;
  SetHiddenValue obj cb_info ;;
  AdjustAmountOfExternalAllocatedMemory
    (int64 (size_t (length + sizeof_cb_info))) ;;
  SetWeak (WeakTargetFree obj cb_info) ;;
  if ExternalArraySize type =? 0 then undefined "division by zero"
  else
    let size := length / ExternalArraySize type in
    SetIndexedPropertiesToExternalArrayData obj data type size.

(** Alloc(env, obj, length, fn, hint, type); [new_data] is what
    [new char[length]] yields. *)
Definition Alloc_length_cb (obj : positive) (length : Z) (fn hint_ : Z)
    (type : ExternalArrayType) (new_data new_info : option Z) : M unit :=
  assert (length <=? kMaxLength) "length <= kMaxLength" ;;
  let type_size := ExternalArraySize type in
  assert (type_size >? 0) "type_size > 0" ;;
  assert (size_t (length * type_size) >=? length)
    "length * type_size >= length" ;;
  let length := size_t (length * type_size) in
  data <- new_array length new_data ;;
  Alloc_data_cb obj data length fn hint_ type new_info.

Definition HasExternalData (obj : positive) : M bool :=
  obj_o <- the_object obj ;;
  ret (HasIndexedPropertiesInExternalArrayData obj_o).

(** hasExternalData(value) *)
Definition HasExternalData_args (args0 : Value) : M bool :=
  match args0 with
  | JSObjectRef obj => HasExternalData obj
  | _ => ret false
  end.

(** ** The collector *)

Definition run_weak_callback (h : weak_handle) : M unit :=
  match h with
  | WeakTarget obj info => TargetCallback obj info
  | WeakTargetFree _ cb_info => TargetFreeCallback_weak cb_info
  end.

Fixpoint run_weak_callbacks (hs : list weak_handle) : M unit :=
  match hs with
  | [] => ret tt
  | h :: hs' => run_weak_callback h ;; run_weak_callbacks hs'
  end.

(** Modelled from the spec: the collector, which is outside the file,
    provides "weak-reference registration with a release callback invoked at
    most once per registration". When the wrapper [obj] is found
    unreachable, the registrations on it leave the registry and their
    callbacks run. *)
Definition onWrapperUnreachable (obj : positive) : M unit :=
  env <- get_env ;;
  let due := filter (fun h => weak_object h = obj) (weak_handles env) in
  modify (set_weak_handles (filter (fun h => weak_object h <> obj))) ;;
  run_weak_callbacks due.

End Smalloc.

Arguments size_t : simpl never.
Arguments int64 : simpl never.

(** ** Allocation requests and what the trace shows *)

(** An allocation through the default policy ([alloc(obj, n[, type])]) or
    with a caller-supplied free callback. *)
Inductive request : Type :=
| ReqAlloc (obj : positive) (args1 : Value)
    (args2 : option ExternalArrayType) (malloc_result : Z)
| ReqAllocCb (obj : positive) (length fn hint_ : Z)
    (type : ExternalArrayType) (new_data new_info : option Z).

Definition request_object (r : request) : positive :=
  match r with
  | ReqAlloc obj _ _ _ => obj
  | ReqAllocCb obj _ _ _ _ _ _ => obj
  end.

Definition allocate (size_bits kMaxLength sizeof_cb_info : Z) (r : request)
    : M unit :=
  match r with
  | ReqAlloc obj args1 args2 malloc_result =>
      Alloc size_bits kMaxLength obj args1 args2 malloc_result
  | ReqAllocCb obj length fn hint_ type new_data new_info =>
      Alloc_length_cb size_bits kMaxLength sizeof_cb_info
        obj length fn hint_ type new_data new_info
  end.

(** One allocation and the disposal of the same wrapper. *)
Definition allocate_dispose (size_bits kMaxLength sizeof_cb_info : Z)
    (r : request) : M unit :=
  allocate size_bits kMaxLength sizeof_cb_info r ;;
  AllocDispose size_bits sizeof_cb_info (request_object r).

Fixpoint allocate_dispose_pairs (size_bits kMaxLength sizeof_cb_info : Z)
    (rs : list request) : M unit :=
  match rs with
  | [] => ret tt
  | r :: rs' =>
      allocate_dispose size_bits kMaxLength sizeof_cb_info r ;;
      allocate_dispose_pairs size_bits kMaxLength sizeof_cb_info rs'
  end.

(** Allocations and disposals in any order. *)
Inductive operation : Type :=
| OpAllocate (r : request)
| OpDispose (obj : positive).

Definition run_operation (size_bits kMaxLength sizeof_cb_info : Z)
    (op : operation) : M unit :=
  match op with
  | OpAllocate r => allocate size_bits kMaxLength sizeof_cb_info r
  | OpDispose obj => AllocDispose size_bits sizeof_cb_info obj
  end.

Fixpoint run_operations (size_bits kMaxLength sizeof_cb_info : Z)
    (ops : list operation) : M unit :=
  match ops with
  | [] => ret tt
  | op :: ops' =>
      run_operation size_bits kMaxLength sizeof_cb_info op ;;
      run_operations size_bits kMaxLength sizeof_cb_info ops'
  end.

(** A sequence of allocate/dispose pairs, as operations. *)
Definition operations_of_pairs (rs : list request) : list operation :=
  flat_map (fun r => [OpAllocate r; OpDispose (request_object r)]) rs.

(** The address [new CallbackInfo] hands to a request, if it makes a
    record. *)
Definition request_record (r : request) : option Z :=
  match r with
  | ReqAlloc _ _ _ _ => None
  | ReqAllocCb _ _ _ _ _ _ new_info => new_info
  end.

(** Allocate/dispose pairs without a leaked wrapper. [live] lists the
    wrappers allocated and not yet disposed, each with the address of its
    callback record if it has one. Every disposal is of a live wrapper,
    [new] does not hand out the address of a record that is still live, and
    at the end no wrapper is live. *)
Fixpoint paired (live : list (positive * option Z)) (ops : list operation)
    : Prop :=
  match ops with
  | [] => live = []
  | OpAllocate r :: ops' =>
      (forall cb_info : Z,
         request_record r = Some cb_info -> Some cb_info ∉ (snd <$> live)) /\
      paired ((request_object r, request_record r) :: live) ops'
  | OpDispose obj :: ops' =>
      obj ∈ (fst <$> live) /\
      paired (filter (fun e => fst e <> obj) live) ops'
  end.

(** The release policy ran: [free], or the user's callback. *)
Definition is_release (e : event) : bool :=
  match e with
  | EvFree _ => true
  | EvFreeCallback _ _ _ => true
  | _ => false
  end.

(** The accountant was decremented. *)
Definition is_decrement (e : event) : bool :=
  match e with
  | EvAdjust change_in_bytes => change_in_bytes <? 0
  | _ => false
  end.

Definition count_releases (tr : list event) : nat :=
  length (List.filter is_release tr).

Definition count_decrements (tr : list event) : nat :=
  length (List.filter is_decrement tr).

(** ** Assumptions on the platform and on environments *)

(** [size_t] has 32 to 64 bits, [kMaxLength] and a [CallbackInfo] beside a
    block of [kMaxLength] bytes stay below half its range. *)
Definition platform (size_bits kMaxLength sizeof_cb_info : Z) : Prop :=
  32 <= size_bits <= 64 /\
  0 <= kMaxLength /\
  0 < sizeof_cb_info /\
  kMaxLength + sizeof_cb_info < 2 ^ (size_bits - 1).

(** A wrapper no allocation has touched: no hidden callback record and no
    weak handle on it. *)
Definition fresh_wrapper (env : Environment) (obj : positive) : Prop :=
  smalloc_p (get_object env obj) = None /\
  Forall (fun h => weak_object h <> obj) (weak_handles env).

(** [Alloc_data_cb] stores the hidden callback record on objects it gives
    external array data to, and nothing removes either. *)
Definition well_formed (env : Environment) : Prop :=
  forall obj : positive,
    smalloc_p (get_object env obj) <> None ->
    elements (get_object env obj) <> None.

(** The bytes an object's external array data covers. *)
Definition byte_length (buffer : ExternalArrayData) : Z :=
  ea_length buffer * ExternalArraySize (ea_type buffer).

(** What the accountant holds for a live wrapper: the bytes of its buffer,
    and the callback record with them when it has one. *)
Definition owed (size_bits sizeof_cb_info : Z) (env : Environment)
    (e : positive * option Z) : Z :=
  match elements (get_object env (fst e)) with
  | None => 0
  | Some buffer =>
      match snd e with
      | None => byte_length buffer
      | Some _ => int64 (size_t size_bits (byte_length buffer + sizeof_cb_info))
      end
  end.

Fixpoint total_owed (size_bits sizeof_cb_info : Z) (env : Environment)
    (live : list (positive * option Z)) : Z :=
  match live with
  | [] => 0
  | e :: live' =>
      owed size_bits sizeof_cb_info env e
      + total_owed size_bits sizeof_cb_info env live'
  end.

(** The state of a live wrapper: a buffer of a recognised kind and no hidden
    value, or a buffer and the hidden address of a record that names the
    wrapper. *)
Definition live_ok (size_bits : Z) (env : Environment)
    (e : positive * option Z) : Prop :=
  exists buffer : ExternalArrayData,
    get_object env (fst e) = {| elements := Some buffer; smalloc_p := snd e |} /\
    0 < ExternalArraySize (ea_type buffer) /\
    0 <= ea_length buffer /\
    match snd e with
    | None => byte_length buffer < 2 ^ (size_bits - 1)
    | Some cb_info =>
        byte_length buffer < 2 ^ size_bits /\
        using_smalloc_alloc_cb env = true /\
        exists info : CallbackInfo,
          callback_infos env !! cb_info = Some info /\
          p_obj info = Some (fst e)
    end.

(** ** The range checks of copy, in the words of the specification *)

(** "validates in order: length <= sourceByteLength, length <=
    destByteLength, sourceStart <= sourceByteLength, destStart <=
    destByteLength, sourceStart + length <= sourceByteLength, destStart +
    length <= destByteLength", over the integers, each with the message that
    names it. *)
Definition copy_inequalities
    (sourceStart destStart sourceByteLength length destByteLength : Z)
    : list (bool * string) :=
  [ (length <=? sourceByteLength, "copy_length > source_length");
    (length <=? destByteLength, "copy_length > dest_length");
    (sourceStart <=? sourceByteLength, "source_start > source_length");
    (destStart <=? destByteLength, "dest_start > dest_length");
    (sourceStart + length <=? sourceByteLength,
       "source_start + copy_length > source_length");
    (destStart + length <=? destByteLength,
       "dest_start + copy_length > dest_length") ].

Definition first_violated (checks : list (bool * string)) : option string :=
  snd <$> List.find (fun c => negb (fst c)) checks.

(** The release policy of a request, for the block [data]: [free], or the
    caller's callback with its hint. *)
Definition release_event (r : request) (data : Z) : event :=
  match r with
  | ReqAlloc _ _ _ _ => EvFree data
  | ReqAllocCb _ _ fn hint_ _ _ _ => EvFreeCallback fn data hint_
  end.

(** What a request accounts for beside the bytes of the block: the callback
    record, when there is one. *)
Definition overhead (sizeof_cb_info : Z) (r : request) : Z :=
  match r with
  | ReqAlloc _ _ _ _ => 0
  | ReqAllocCb _ _ _ _ _ _ _ => sizeof_cb_info
  end.

(** A computation that never ends with a scheduled exception. *)
Definition never_throws {A : Type} (m : M A) : Prop :=
  forall (env : Environment) (e : exception) (env' : Environment),
    m env <> (Throw e, env').

(** ** Environments used in the examples *)

Definition no_memory : Z -> Z := fun _ => 0.

Definition empty_environment : Environment :=
  {| objects := ∅;
     callback_infos := ∅;
     weak_handles := [];
     external_memory := 0;
     using_smalloc_alloc_cb := false;
     memory := no_memory;
     trace := [] |}.

Definition external_array (data : Z) (type : ExternalArrayType) (length : Z)
    : JSObject :=
  {| elements := Some {| ea_data := data; ea_type := type; ea_length := length |};
     smalloc_p := None |}.

(** Object 1 has ten 32-bit elements at 1000, object 2 has forty bytes at
    2000, object 3 has ten bytes at 3000, object 4 is a plain object. The
    bytes at 1000..1039 are 1..40, all others are 0. *)
Definition sample_environment : Environment :=
  {| objects :=
       <[1%positive := external_array 1000 kExternalIntArray 10]>
       (<[2%positive := external_array 2000 kExternalUnsignedByteArray 40]>
       (<[3%positive := external_array 3000 kExternalUnsignedByteArray 10]> ∅));
     callback_infos := ∅;
     weak_handles := [];
     external_memory := 0;
     using_smalloc_alloc_cb := false;
     memory := fun a => if (1000 <=? a) && (a <? 1040) then a - 999 else 0;
     trace := [] |}.

(** The value of [kMaxLength] in the examples. *)
Definition kMaxLength_node : Z := 0x3fffffff.

(** The outcome and the environment of a run. *)
Definition outcome_of {A : Type} (r : outcome A * Environment) : outcome A := fst r.
Definition env_of {A : Type} (r : outcome A * Environment) : Environment := snd r.

(** Wrapper 1 with five 32-bit elements from [alloc] on the empty
    environment, [malloc] having returned 1000; the same after the
    collector's pass; the same after [dispose]. *)
Definition allocated_wrapper : Environment :=
  env_of (Alloc 64 kMaxLength_node 1 (JSNumber 5) (Some kExternalIntArray) 1000
            empty_environment).

Definition collected_wrapper : Environment :=
  env_of (onWrapperUnreachable 64 24 1 allocated_wrapper).

Definition disposed_wrapper : Environment :=
  env_of (AllocDispose 64 24 1 allocated_wrapper).

(** Wrapper 1 with five 32-bit elements and the free callback 700 with hint
    800, the block at 1000 and the record at 7000; the same after
    [dispose]. *)
Definition allocated_cb_wrapper : Environment :=
  env_of (Alloc_length_cb 64 kMaxLength_node 24 1 5 700 800 kExternalIntArray
            (Some 1000) (Some 7000) empty_environment).

Definition disposed_cb_wrapper : Environment :=
  env_of (AllocDispose 64 24 1 allocated_cb_wrapper).


(** The length [CopyOnto] hands to [memmove] for [args4] elements: scaled by
    the source width when neither side has single-byte elements. *)
Definition moved_length (size_bits : Z) (source_buffer dest_buffer : ExternalArrayData)
    (args4 : Value) : Z :=
  if negb (ExternalArraySize (ea_type source_buffer) =? 1)
     && negb (ExternalArraySize (ea_type dest_buffer) =? 1)
  then size_t size_bits
         (Uint32Value args4 * ExternalArraySize (ea_type source_buffer))
  else Uint32Value args4.

(** ** The heap profiler's view of a wrapper *)

Section Retained.

(** The address of the static array [RetainedAllocInfo::label_]. *)
Variable label_ : Z.

(** The private fields of [class RetainedAllocInfo]. *)
Record RetainedAllocInfo : Type := {
  data_ : Z;
  length_ : Z
}.

(** A [RetainedObjectInfo*] handed to [IsEquivalent]: an object of this
    class, or one of another class, which answers [GetLabel()] with its own
    label. [label_] is private to this class, so no other class answers
    with it. *)
Inductive RetainedObjectInfo : Type :=
| SmallocInfo (info : RetainedAllocInfo)
| OtherInfo (label : Z).

(** RetainedAllocInfo::RetainedAllocInfo(wrapper), on the object
    [wrapper->ToObject()]. *)
Definition RetainedAllocInfo_new (obj_o : JSObject) : RetainedAllocInfo :=
  {| length_ := GetIndexedPropertiesExternalArrayDataLength obj_o;
     data_ := GetIndexedPropertiesExternalArrayData obj_o |}.

Definition GetLabel (info : RetainedObjectInfo) : Z :=
  match info with
  | SmallocInfo _ => label_
  | OtherInfo label => label
  end.

(** [label_ == other->GetLabel() && data_ == static_cast<...>(other)->data_];
    the cast is reached only with an object of this class. *)
Definition IsEquivalent (this : RetainedAllocInfo) (other : RetainedObjectInfo)
    : bool :=
  (label_ =? GetLabel other) &&
  match other with
  | SmallocInfo o => data_ this =? data_ o
  | OtherInfo _ => false
  end.

Definition GetHash (this : RetainedAllocInfo) : Z := data_ this.

Definition GetSizeInBytes (this : RetainedAllocInfo) : Z := length_ this.

(** WrapperInfo(class_id, wrapper), for a wrapper that is an object. *)
Definition WrapperInfo (class_id : Z) (wrapper : positive)
    : M RetainedAllocInfo :=
  obj_o <- the_object wrapper ;;
  ret (RetainedAllocInfo_new obj_o).

End Retained.

(** Object 2 of the sample environment sliced from 4 to 12 onto object 4. *)
Definition sliced_environment : Environment :=
  env_of (SliceOnto 64 2 4 (JSNumber 4) (JSNumber 12) sample_environment).

(** The sample environment with a fifth object that presents four elements
    of an unrecognised kind at 4000. *)
Definition unknown_kind_environment : Environment :=
  set_objects <[5%positive := external_array 4000 (kExternalOther 42) 4]>
    sample_environment.

(** * Properties *)

(** ** Arithmetic of [size_t] and [int64_t] *)

Lemma size_t_range (size_bits z : Z) :
  0 <= size_bits -> 0 <= size_t size_bits z < 2 ^ size_bits.
Proof.
  intros Hw. unfold size_t. apply Z.mod_pos_bound. apply Z.pow_pos_nonneg; lia.
Qed.

Lemma size_t_small (size_bits z : Z) :
  0 <= z < 2 ^ size_bits -> size_t size_bits z = z.
Proof. intros Hz. unfold size_t. apply Z.mod_small. exact Hz. Qed.

Lemma int64_small (z : Z) : - 2 ^ 63 <= z < 2 ^ 63 -> int64 z = z.
Proof.
  intros Hz. unfold int64.
  rewrite Z.mod_small; lia.
Qed.

Lemma pow2_32_le (size_bits : Z) : 32 <= size_bits -> 2 ^ 32 <= 2 ^ size_bits.
Proof. intros Hw. apply Z.pow_le_mono_r; lia. Qed.

Lemma pow2_half (size_bits : Z) :
  1 <= size_bits -> 2 ^ size_bits = 2 * 2 ^ (size_bits - 1).
Proof.
  intros Hw. replace size_bits with (Z.succ (size_bits - 1)) at 1 by lia.
  rewrite Z.pow_succ_r; lia.
Qed.

Lemma pow2_le_63 (size_bits : Z) :
  1 <= size_bits <= 64 -> 2 ^ (size_bits - 1) <= 2 ^ 63.
Proof. intros Hw. apply Z.pow_le_mono_r; lia. Qed.

Lemma Uint32Value_range (v : Value) : 0 <= Uint32Value v < 2 ^ 32.
Proof.
  destruct v; simpl; try lia.
  apply Z.mod_pos_bound. lia.
Qed.

Lemma size_t_Uint32Value (size_bits : Z) (v : Value) :
  32 <= size_bits -> size_t size_bits (Uint32Value v) = Uint32Value v.
Proof.
  intros Hw. apply size_t_small.
  pose proof (Uint32Value_range v). pose proof (pow2_32_le size_bits Hw). lia.
Qed.

(** Every recognised element width divides the range of [size_t]. *)
Lemma ExternalArraySize_cases (type : ExternalArrayType) :
  ExternalArraySize type = 0 \/ ExternalArraySize type = 1 \/
  ExternalArraySize type = 2 \/ ExternalArraySize type = 4 \/
  ExternalArraySize type = 8.
Proof. destruct type; simpl; auto. Qed.

Lemma ExternalArraySize_divides (size_bits : Z) (type : ExternalArrayType) :
  32 <= size_bits -> 0 < ExternalArraySize type ->
  (ExternalArraySize type | 2 ^ size_bits).
Proof.
  intros Hw Hpos.
  assert (H8 : (8 | 2 ^ size_bits)).
  { exists (2 ^ (size_bits - 3)).
    change 8 with (2 ^ 3). rewrite <- Z.pow_add_r by lia. f_equal. lia. }
  destruct (ExternalArraySize_cases type) as [H | [H | [H | [H | H]]]];
    rewrite H in *; try lia.
  - apply Z.divide_1_l.
  - apply Z.divide_trans with 8; [exists 4; lia | exact H8].
  - apply Z.divide_trans with 8; [exists 2; lia | exact H8].
  - exact H8.
Qed.

(** A length scaled by an element width is a multiple of the width, also
    when the product wrapped. *)
Lemma size_t_scaled_multiple (size_bits n : Z) (type : ExternalArrayType) :
  32 <= size_bits -> 0 < ExternalArraySize type ->
  let s := ExternalArraySize type in
  size_t size_bits (n * s) / s * s = size_t size_bits (n * s).
Proof.
  intros Hw Hpos s.
  assert (Hdiv : (s | size_t size_bits (n * s))).
  { pose proof (ExternalArraySize_divides size_bits type Hw Hpos) as H2.
    unfold size_t. rewrite Z.mod_eq by (apply Z.pow_nonzero; lia).
    apply Z.divide_sub_r.
    - apply Z.divide_factor_r.
    - apply Z.divide_mul_l. exact H2. }
  destruct Hdiv as [q Hq]. rewrite Hq.
  rewrite Z.div_mul by (subst s; lia). reflexivity.
Qed.

(** ** Running the monad *)

Lemma bind_Ok {A B : Type} (m : M A) (k : A -> M B) env a env' :
  m env = (Ok a, env') -> bind m k env = k a env'.
Proof. intros H. unfold bind. rewrite H. reflexivity. Qed.

Lemma bind_Ok_inv {A B : Type} (m : M A) (k : A -> M B) env b env'' :
  bind m k env = (Ok b, env'') ->
  exists a env', m env = (Ok a, env') /\ k a env' = (Ok b, env'').
Proof.
  unfold bind. destruct (m env) as [[a | e | c | l s | | s] env'];
    intros H; try discriminate.
  exists a, env'. auto.
Qed.

Lemma assert_Ok_inv (c : bool) (s : string) env u env' :
  assert c s env = (Ok u, env') -> c = true /\ env' = env.
Proof.
  unfold assert. destruct c; intros H; [| discriminate].
  inversion H. auto.
Qed.

Lemma the_object_run env obj : the_object obj env = (Ok (get_object env obj), env).
Proof. reflexivity. Qed.

Lemma has_elements_None (o : JSObject) :
  elements o = None -> HasIndexedPropertiesInExternalArrayData o = false.
Proof. unfold HasIndexedPropertiesInExternalArrayData. intros ->. reflexivity. Qed.

Lemma has_elements_Some (o : JSObject) e :
  elements o = Some e -> HasIndexedPropertiesInExternalArrayData o = true.
Proof. unfold HasIndexedPropertiesInExternalArrayData. intros ->. reflexivity. Qed.

(** ** Allocation on an attached wrapper, with an unknown kind, above
       [kMaxLength] *)

(** C7. [alloc] on a wrapper that has external array data throws the type
    error "object already has external array data" before anything else:
    the environment, and so the attached data, its length and its kind, the
    accountant and native memory, is the one it started from. *)
Theorem Alloc_rejects_attached_wrapper
    (size_bits kMaxLength : Z) (env : Environment) (obj : positive)
    (args1 : Value) (args2 : option ExternalArrayType) (malloc_result : Z)
    (buffer : ExternalArrayData) :
  elements (get_object env obj) = Some buffer ->
  Alloc size_bits kMaxLength obj args1 args2 malloc_result env
    = (Throw (TypeError "object already has external array data"), env)
  /\ elements (get_object
                 (env_of (Alloc size_bits kMaxLength obj args1 args2
                            malloc_result env)) obj) = Some buffer.
Proof.
  intros Hbuf.
  assert (Hrun : Alloc size_bits kMaxLength obj args1 args2 malloc_result env
                 = (Throw (TypeError "object already has external array data"), env)).
  { unfold Alloc. rewrite (bind_Ok _ _ _ _ _ (the_object_run env obj)).
    rewrite (has_elements_Some _ _ Hbuf). reflexivity. }
  split; [exact Hrun |]. rewrite Hrun. exact Hbuf.
Qed.

Lemma Alloc_rejects_attached_wrapper_witness :
  Alloc 64 kMaxLength_node 1 (JSNumber 8) (Some kExternalIntArray) 5000
    sample_environment
    = (Throw (TypeError "object already has external array data"),
       sample_environment)
  /\ elements (get_object
                 (env_of (Alloc 64 kMaxLength_node 1 (JSNumber 8)
                            (Some kExternalIntArray) 5000 sample_environment))
                 1)
     = Some {| ea_data := 1000; ea_type := kExternalIntArray; ea_length := 10 |}.
Proof.
  apply (Alloc_rejects_attached_wrapper 64 kMaxLength_node sample_environment 1).
  reflexivity.
Defined.

(** C9, as the code has it. [alloc] with an element kind of width 0 on a
    wrapper without external array data stops at a failed [assert], with the
    environment untouched: nothing was allocated, attached or accounted. *)
Theorem Alloc_unknown_kind_asserts
    (size_bits kMaxLength : Z) (env : Environment) (obj : positive)
    (args1 : Value) (type : ExternalArrayType) (malloc_result : Z) :
  32 <= size_bits ->
  ExternalArraySize type = 0 ->
  elements (get_object env obj) = None ->
  exists condition : string,
    Alloc size_bits kMaxLength obj args1 (Some type) malloc_result env
      = (AssertFail condition, env).
Proof.
  intros Hw Hsize Hnone.
  unfold Alloc. rewrite (bind_Ok _ _ _ _ _ (the_object_run env obj)).
  rewrite (has_elements_None _ Hnone).
  rewrite Hsize, size_t_Uint32Value by exact Hw.
  rewrite Z.mul_0_l, Z.mul_0_r.
  rewrite (size_t_small size_bits 0)
    by (split; [lia | apply Z.pow_pos_nonneg; lia]).
  pose proof (Uint32Value_range args1) as Hn.
  unfold bind at 1. unfold bind at 1.
  destruct (0 >=? Uint32Value args1) eqn:Hge; simpl.
  - unfold Alloc_length. rewrite Hsize.
    unfold bind. destruct (0 <=? kMaxLength); simpl; eauto.
  - eauto.
Qed.

Lemma Alloc_unknown_kind_asserts_witness :
  exists condition : string,
    Alloc 64 kMaxLength_node 4 (JSNumber 16) (Some (kExternalOther 0)) 5000
      sample_environment
      = (AssertFail condition, sample_environment).
Proof.
  apply Alloc_unknown_kind_asserts; [lia | reflexivity | reflexivity].
Defined.

(** C9 as stated fails: the request with an unknown kind does not end in a
    type error the caller can handle, it ends in a failed assertion. *)
Lemma Alloc_unknown_kind_not_thrown :
  outcome_of (Alloc 64 kMaxLength_node 4 (JSNumber 16)
                (Some (kExternalOther 0)) 5000 sample_environment)
    = AssertFail "type_length * length >= length"
  /\ ~ (exists e : exception,
          outcome_of (Alloc 64 kMaxLength_node 4 (JSNumber 16)
                        (Some (kExternalOther 0)) 5000 sample_environment)
            = Throw e).
Proof.
  assert (H : outcome_of (Alloc 64 kMaxLength_node 4 (JSNumber 16)
                (Some (kExternalOther 0)) 5000 sample_environment)
              = AssertFail "type_length * length >= length")
    by (vm_compute; reflexivity).
  split; [exact H |]. intros [e He]. rewrite H in He. discriminate.
Qed.

(** C6, as the code has it. A request on a wrapper without external array
    data whose byte length (element count times the width of a recognised
    kind) exceeds [kMaxLength] stops at a failed [assert] with the
    environment untouched, when the product fits [size_t] or the wrapped
    product is smaller than the element count. *)
Theorem Alloc_above_kMaxLength_asserts
    (size_bits kMaxLength : Z) (env : Environment) (obj : positive)
    (args1 : Value) (args2 : option ExternalArrayType) (malloc_result : Z) :
  32 <= size_bits ->
  elements (get_object env obj) = None ->
  let width := ExternalArraySize (default kExternalUnsignedByteArray args2) in
  0 < width ->
  kMaxLength < Uint32Value args1 * width ->
  Uint32Value args1 * width < 2 ^ size_bits \/
    size_t size_bits (Uint32Value args1 * width) < Uint32Value args1 ->
  exists condition : string,
    Alloc size_bits kMaxLength obj args1 args2 malloc_result env
      = (AssertFail condition, env).
Proof.
  intros Hw Hnone width Hpos Hmax Hfit.
  pose proof (Uint32Value_range args1) as Hn.
  pose proof (pow2_32_le size_bits Hw) as H32.
  unfold Alloc. rewrite (bind_Ok _ _ _ _ _ (the_object_run env obj)).
  rewrite (has_elements_None _ Hnone).
  rewrite size_t_Uint32Value by exact Hw.
  destruct args2 as [type |]; simpl in width.
  - fold width. rewrite (Z.mul_comm width).
    unfold bind at 1. unfold bind at 1.
    destruct (size_t size_bits (Uint32Value args1 * width) >=? Uint32Value args1)
      eqn:Hge; simpl; [| eauto].
    destruct Hfit as [Hfit | Hfit]; [| lia].
    rewrite size_t_small by nia.
    unfold Alloc_length, bind.
    replace (Uint32Value args1 * width <=? kMaxLength) with false by lia.
    simpl. eauto.
  - unfold bind at 1. simpl.
    unfold Alloc_length, bind. subst width.
    replace (Uint32Value args1 <=? kMaxLength) with false by lia.
    simpl. eauto.
Qed.

Lemma Alloc_above_kMaxLength_asserts_witness :
  exists condition : string,
    Alloc 32 kMaxLength_node 4 (JSNumber kMaxLength_node)
      (Some kExternalIntArray) 5000 sample_environment
      = (AssertFail condition, sample_environment).
Proof.
  apply Alloc_above_kMaxLength_asserts.
  - lia.
  - reflexivity.
  - reflexivity.
  - vm_compute. reflexivity.
  - left. vm_compute. reflexivity.
Defined.

(** C6 as stated fails: [kMaxLength] elements of a 4-byte kind do not end in
    a length error the caller can handle, they end in a failed assertion. *)
Lemma Alloc_kMaxLength_ints_not_thrown :
  outcome_of (Alloc 64 kMaxLength_node 4 (JSNumber kMaxLength_node)
                (Some kExternalIntArray) 5000 sample_environment)
    = AssertFail "length <= kMaxLength"
  /\ ~ (exists e : exception,
          outcome_of (Alloc 64 kMaxLength_node 4 (JSNumber kMaxLength_node)
                        (Some kExternalIntArray) 5000 sample_environment)
            = Throw e).
Proof.
  assert (H : outcome_of (Alloc 64 kMaxLength_node 4 (JSNumber kMaxLength_node)
                (Some kExternalIntArray) 5000 sample_environment)
              = AssertFail "length <= kMaxLength")
    by (vm_compute; reflexivity).
  split; [exact H |]. intros [e He]. rewrite H in He. discriminate.
Qed.

(** What the theorem above leaves out: with a 32-bit [size_t] the product of
    0x25000000 elements of 8 bytes wraps to 0x28000000, which is neither
    below the element count nor above [kMaxLength], and [alloc] goes on to
    [malloc] that many bytes. *)
Example Alloc_wrapped_product_32 :
  outcome_of (Alloc 32 kMaxLength_node 4 (JSNumber 0x25000000)
                (Some kExternalDoubleArray) 5000 sample_environment) = Ok tt
  /\ trace (env_of (Alloc 32 kMaxLength_node 4 (JSNumber 0x25000000)
                      (Some kExternalDoubleArray) 5000 sample_environment))
     = [EvMalloc 0x28000000 5000; EvAdjust 0x28000000].
Proof. vm_compute. split; reflexivity. Qed.

(** ** The range checks of [CopyOnto] *)

(** With lengths below half the range of [size_t], the six checks of the
    code pick the first inequality of the specification that fails. *)
Lemma CopyOnto_check_first_violated
    (size_bits source_start dest_start sl cl dl : Z) (message : string)
    (env : Environment) :
  1 <= size_bits ->
  0 <= source_start -> 0 <= dest_start -> 0 <= cl ->
  sl < 2 ^ (size_bits - 1) -> dl < 2 ^ (size_bits - 1) ->
  first_violated (copy_inequalities source_start dest_start sl cl dl)
    = Some message ->
  CopyOnto_check size_bits source_start dest_start sl cl dl env
    = (Throw (RangeError message), env).
Proof.
  intros Hw Hss Hds Hcl Hsl Hdl.
  pose proof (pow2_half size_bits Hw) as Hhalf.
  unfold first_violated, copy_inequalities, CopyOnto_check. simpl.
  destruct (cl <=? sl) eqn:H1; simpl.
  2:{ intros [= <-]. replace (cl >? sl) with true by lia. reflexivity. }
  replace (cl >? sl) with false by lia.
  destruct (cl <=? dl) eqn:H2; simpl.
  2:{ intros [= <-]. replace (cl >? dl) with true by lia. reflexivity. }
  replace (cl >? dl) with false by lia.
  destruct (source_start <=? sl) eqn:H3; simpl.
  2:{ intros [= <-]. replace (source_start >? sl) with true by lia. reflexivity. }
  replace (source_start >? sl) with false by lia.
  destruct (dest_start <=? dl) eqn:H4; simpl.
  2:{ intros [= <-]. replace (dest_start >? dl) with true by lia. reflexivity. }
  replace (dest_start >? dl) with false by lia.
  rewrite (size_t_small size_bits (source_start + cl)) by lia.
  rewrite (size_t_small size_bits (dest_start + cl)) by lia.
  destruct (source_start + cl <=? sl) eqn:H5; simpl.
  2:{ intros [= <-]. replace (source_start + cl >? sl) with true by lia.
      reflexivity. }
  replace (source_start + cl >? sl) with false by lia.
  destruct (dest_start + cl <=? dl) eqn:H6; simpl.
  2:{ intros [= <-]. replace (dest_start + cl >? dl) with true by lia.
      reflexivity. }
  discriminate.
Qed.

(** When no inequality fails the checks pass. *)
Lemma CopyOnto_check_none_violated
    (size_bits source_start dest_start sl cl dl : Z) (env : Environment) :
  1 <= size_bits ->
  0 <= source_start -> 0 <= dest_start -> 0 <= cl ->
  sl < 2 ^ (size_bits - 1) -> dl < 2 ^ (size_bits - 1) ->
  first_violated (copy_inequalities source_start dest_start sl cl dl) = None ->
  CopyOnto_check size_bits source_start dest_start sl cl dl env = (Ok tt, env).
Proof.
  intros Hw Hss Hds Hcl Hsl Hdl.
  pose proof (pow2_half size_bits Hw) as Hhalf.
  unfold first_violated, copy_inequalities, CopyOnto_check. simpl.
  destruct (cl <=? sl) eqn:H1; simpl; [| discriminate].
  destruct (cl <=? dl) eqn:H2; simpl; [| discriminate].
  destruct (source_start <=? sl) eqn:H3; simpl; [| discriminate].
  destruct (dest_start <=? dl) eqn:H4; simpl; [| discriminate].
  destruct (source_start + cl <=? sl) eqn:H5; simpl; [| discriminate].
  destruct (dest_start + cl <=? dl) eqn:H6; simpl; [| discriminate].
  intros _.
  rewrite (size_t_small size_bits (source_start + cl)) by lia.
  rewrite (size_t_small size_bits (dest_start + cl)) by lia.
  replace (cl >? sl) with false by lia.
  replace (cl >? dl) with false by lia.
  replace (source_start >? sl) with false by lia.
  replace (dest_start >? dl) with false by lia.
  replace (source_start + cl >? sl) with false by lia.
  replace (dest_start + cl >? dl) with false by lia.
  reflexivity.
Qed.

(** X25. The six range checks of [CopyOnto] are made on the lengths as the
    scaling block leaves them. Source and destination have external array
    data, the scaling block has produced the lengths [sl], [cl] and [dl],
    both buffer lengths below half the range of [size_t]. If one of the six
    inequalities fails on these lengths, [CopyOnto] throws the range error
    that names the first that fails, and the environment (memory, objects,
    accountant) is the one it started from. With a single-byte element on
    one side the lengths are element counts, not bytes. *)
Theorem CopyOnto_rejects_out_of_range
    (size_bits : Z) (env : Environment) (source dest : positive)
    (args1 args3 args4 : Value) (source_buffer dest_buffer : ExternalArrayData)
    (sl cl dl : Z) (message : string) :
  32 <= size_bits ->
  elements (get_object env source) = Some source_buffer ->
  elements (get_object env dest) = Some dest_buffer ->
  CopyOnto_scale size_bits
    (ExternalArraySize (ea_type source_buffer))
    (ExternalArraySize (ea_type dest_buffer))
    (size_t size_bits (ea_length source_buffer))
    (Uint32Value args4)
    (size_t size_bits (ea_length dest_buffer)) env
    = (Ok (sl, cl, dl), env) ->
  sl < 2 ^ (size_bits - 1) ->
  dl < 2 ^ (size_bits - 1) ->
  first_violated
    (copy_inequalities (Uint32Value args1) (Uint32Value args3) sl cl dl)
    = Some message ->
  CopyOnto size_bits (JSObjectRef source) args1 (JSObjectRef dest) args3 args4 env
    = (Throw (RangeError message), env).
Proof.
  intros Hw Hsrc Hdst Hscale Hsl Hdl Hviol.
  assert (Hcl : 0 <= cl).
  { pose proof (Uint32Value_range args4) as Hr.
    pose proof (size_t_range size_bits (Uint32Value args4 *
                  ExternalArraySize (ea_type source_buffer)) ltac:(lia)) as Hr'.
    revert Hscale.
    unfold CopyOnto_scale, ThrowTypeError, ThrowRangeError, throw, ret.
    repeat match goal with
           | |- context [if ?c then _ else _] => destruct c
           end; intros H; inversion H; subst; lia. }
  unfold CopyOnto. simpl.
  rewrite (bind_Ok _ _ _ _ _ (eq_refl : As_Object (JSObjectRef source) env = _)).
  rewrite (bind_Ok _ _ _ _ _ (eq_refl : As_Object (JSObjectRef dest) env = _)).
  rewrite (bind_Ok _ _ _ _ _ (the_object_run env source)).
  rewrite (bind_Ok _ _ _ _ _ (the_object_run env dest)).
  rewrite (has_elements_Some _ _ Hsrc), (has_elements_Some _ _ Hdst). simpl.
  rewrite !size_t_Uint32Value by exact Hw.
  unfold GetIndexedPropertiesExternalArrayDataLength,
    GetIndexedPropertiesExternalArrayDataType,
    GetIndexedPropertiesExternalArrayData.
  rewrite Hsrc, Hdst.
  rewrite (bind_Ok _ _ _ _ _ Hscale).
  pose proof (Uint32Value_range args1). pose proof (Uint32Value_range args3).
  unfold bind.
  rewrite (CopyOnto_check_first_violated size_bits _ _ sl cl dl message env)
    by (assumption || lia).
  reflexivity.
Qed.

Lemma CopyOnto_rejects_out_of_range_witness :
  CopyOnto 64 (JSObjectRef 2) (JSNumber 0) (JSObjectRef 3) (JSNumber 5)
    (JSNumber 8) sample_environment
    = (Throw (RangeError "dest_start + copy_length > dest_length"),
       sample_environment).
Proof.
  apply (CopyOnto_rejects_out_of_range 64 sample_environment 2 3
           (JSNumber 0) (JSNumber 5) (JSNumber 8)
           {| ea_data := 2000; ea_type := kExternalUnsignedByteArray;
              ea_length := 40 |}
           {| ea_data := 3000; ea_type := kExternalUnsignedByteArray;
              ea_length := 10 |}
           40 8 10).
  - lia.
  - reflexivity.
  - reflexivity.
  - reflexivity.
  - reflexivity.
  - reflexivity.
  - reflexivity.
Defined.

(** C2. A call of copy that violates one of the six inequalities over byte
    lengths and is not rejected. Object 1 has ten 32-bit elements (40
    bytes), object 3 has ten bytes. For [copyOnto(1, 0, 3, 0, 5)] the length
    is 5 elements of 4 bytes, 20 bytes, and the first inequality violated
    over byte lengths is [length <= destByteLength] (20 > 10). [CopyOnto]
    does not scale, since the destination has single-byte elements, checks
    5 against 10 and 10, returns normally and overwrites the first five
    bytes of the destination. *)
Theorem CopyOnto_byte_inequality_unchecked :
  elements (get_object sample_environment 1)
    = Some {| ea_data := 1000; ea_type := kExternalIntArray; ea_length := 10 |}
  /\ elements (get_object sample_environment 3)
      = Some {| ea_data := 3000; ea_type := kExternalUnsignedByteArray;
                ea_length := 10 |}
  /\ first_violated
       (copy_inequalities 0 0
          (byte_length {| ea_data := 1000; ea_type := kExternalIntArray;
                          ea_length := 10 |})
          (5 * ExternalArraySize kExternalIntArray)
          (byte_length {| ea_data := 3000; ea_type := kExternalUnsignedByteArray;
                          ea_length := 10 |}))
     = Some "copy_length > dest_length"
  /\ outcome_of (CopyOnto 64 (JSObjectRef 1) (JSNumber 0) (JSObjectRef 3)
                   (JSNumber 0) (JSNumber 5) sample_environment) = Ok tt
  /\ map (memory sample_environment) [3000; 3001; 3002; 3003; 3004]
     = [0; 0; 0; 0; 0]
  /\ map (memory (env_of (CopyOnto 64 (JSObjectRef 1) (JSNumber 0)
                            (JSObjectRef 3) (JSNumber 0) (JSNumber 5)
                            sample_environment)))
         [3000; 3001; 3002; 3003; 3004]
     = [1; 2; 3; 4; 5].
Proof. vm_compute. repeat split; reflexivity. Qed.

(** When none of the six inequalities fails, [CopyOnto] moves [cl] bytes
    from [source_data + source_start] to [dest_data + dest_start] and changes
    nothing else. *)
Lemma CopyOnto_copies
    (size_bits : Z) (env : Environment) (source dest : positive)
    (args1 args3 args4 : Value) (source_buffer dest_buffer : ExternalArrayData)
    (sl cl dl : Z) :
  32 <= size_bits ->
  elements (get_object env source) = Some source_buffer ->
  elements (get_object env dest) = Some dest_buffer ->
  CopyOnto_scale size_bits
    (ExternalArraySize (ea_type source_buffer))
    (ExternalArraySize (ea_type dest_buffer))
    (size_t size_bits (ea_length source_buffer))
    (Uint32Value args4)
    (size_t size_bits (ea_length dest_buffer)) env
    = (Ok (sl, cl, dl), env) ->
  sl < 2 ^ (size_bits - 1) ->
  dl < 2 ^ (size_bits - 1) ->
  first_violated
    (copy_inequalities (Uint32Value args1) (Uint32Value args3) sl cl dl)
    = None ->
  CopyOnto size_bits (JSObjectRef source) args1 (JSObjectRef dest) args3 args4 env
    = memmove (ea_data dest_buffer + Uint32Value args3)
        (ea_data source_buffer + Uint32Value args1) cl env.
Proof.
  intros Hw Hsrc Hdst Hscale Hsl Hdl Hviol.
  assert (Hcl : 0 <= cl).
  { pose proof (Uint32Value_range args4) as Hr.
    pose proof (size_t_range size_bits (Uint32Value args4 *
                  ExternalArraySize (ea_type source_buffer)) ltac:(lia)) as Hr'.
    revert Hscale.
    unfold CopyOnto_scale, ThrowTypeError, ThrowRangeError, throw, ret.
    repeat match goal with
           | |- context [if ?c then _ else _] => destruct c
           end; intros H; inversion H; subst; lia. }
  unfold CopyOnto. simpl.
  rewrite (bind_Ok _ _ _ _ _ (eq_refl : As_Object (JSObjectRef source) env = _)).
  rewrite (bind_Ok _ _ _ _ _ (eq_refl : As_Object (JSObjectRef dest) env = _)).
  rewrite (bind_Ok _ _ _ _ _ (the_object_run env source)).
  rewrite (bind_Ok _ _ _ _ _ (the_object_run env dest)).
  rewrite (has_elements_Some _ _ Hsrc), (has_elements_Some _ _ Hdst). simpl.
  rewrite !size_t_Uint32Value by exact Hw.
  unfold GetIndexedPropertiesExternalArrayDataLength,
    GetIndexedPropertiesExternalArrayDataType,
    GetIndexedPropertiesExternalArrayData.
  rewrite Hsrc, Hdst.
  rewrite (bind_Ok _ _ _ _ _ Hscale).
  pose proof (Uint32Value_range args1). pose proof (Uint32Value_range args3).
  unfold bind.
  rewrite (CopyOnto_check_none_violated size_bits _ _ sl cl dl env)
    by (assumption || lia).
  reflexivity.
Qed.

(** A copy that passes the checks, in a memory where every byte holds its
    own address: 8 bytes from the start of object 2 (at 2000) to offset 2 of
    the ten bytes of object 3 (at 3000). The bytes 3002..3009 now hold
    2000..2007, the others are as before. *)
Example CopyOnto_sample_copy :
  outcome_of (CopyOnto 64 (JSObjectRef 2) (JSNumber 0) (JSObjectRef 3)
                (JSNumber 2) (JSNumber 8)
                (set_memory (fun _ a => a) sample_environment)) = Ok tt
  /\ map (memory (env_of (CopyOnto 64 (JSObjectRef 2) (JSNumber 0)
                            (JSObjectRef 3) (JSNumber 2) (JSNumber 8)
                            (set_memory (fun _ a => a) sample_environment))))
         [3000; 3001; 3002; 3003; 3009; 3010; 2000]
     = [3000; 3001; 2000; 2001; 2007; 3010; 2000].
Proof. vm_compute. split; reflexivity. Qed.

(** ** Element widths in [CopyOnto] *)

(** The scaling block is entered only when neither width is 1: with a
    single-byte element on one side the lengths stay element counts,
    whatever the width on the other side. *)
Lemma CopyOnto_scale_one_byte_side
    (size_bits source_size dest_size sl cl dl : Z) (env : Environment) :
  source_size = 1 \/ dest_size = 1 ->
  CopyOnto_scale size_bits source_size dest_size sl cl dl env
    = (Ok (sl, cl, dl), env).
Proof.
  intros [-> | ->]; unfold CopyOnto_scale; simpl.
  - reflexivity.
  - rewrite andb_false_r. reflexivity.
Qed.

(** When neither width is 1 and no product wraps, every length is scaled by
    its width. *)
Lemma CopyOnto_scale_wide
    (size_bits source_size dest_size sl cl dl : Z) (env : Environment) :
  1 < source_size -> 1 < dest_size ->
  0 <= sl -> 0 <= cl -> 0 <= dl ->
  sl * source_size < 2 ^ size_bits ->
  cl * source_size < 2 ^ size_bits ->
  dl * dest_size < 2 ^ size_bits ->
  CopyOnto_scale size_bits source_size dest_size sl cl dl env
    = (Ok (sl * source_size, cl * source_size, dl * dest_size), env).
Proof.
  intros Hs Hd Hsl Hcl Hdl H1 H2 H3. unfold CopyOnto_scale.
  rewrite !size_t_small by nia.
  replace (source_size =? 1) with false by lia.
  replace (dest_size =? 1) with false by lia.
  replace (source_size =? 0) with false by lia.
  replace (dest_size =? 0) with false by lia.
  replace (sl * source_size <? sl) with false by nia.
  replace (cl * source_size <? cl) with false by nia.
  replace (dl * dest_size <? dl) with false by nia.
  reflexivity.
Qed.

(** C4 fails on the code. Object 1 has ten 4-byte elements, objects 2 and 3
    have forty and ten single-byte elements. A copy of 5 elements from
    object 1 is not checked against 20 bytes: into the ten bytes of object 3
    it is accepted, and into object 2 it moves 5 bytes, not 20. *)
Theorem CopyOnto_mixed_widths_unscaled :
  outcome_of (CopyOnto 64 (JSObjectRef 1) (JSNumber 0) (JSObjectRef 3)
                (JSNumber 0) (JSNumber 5) sample_environment) = Ok tt
  /\ outcome_of (CopyOnto 64 (JSObjectRef 1) (JSNumber 0) (JSObjectRef 2)
                   (JSNumber 0) (JSNumber 5) sample_environment) = Ok tt
  /\ map (memory (env_of (CopyOnto 64 (JSObjectRef 1) (JSNumber 0)
                            (JSObjectRef 2) (JSNumber 0) (JSNumber 5)
                            sample_environment)))
         [2000; 2001; 2002; 2003; 2004; 2005; 2006; 2019]
     = [1; 2; 3; 4; 5; 0; 0; 0].
Proof. vm_compute. repeat split; reflexivity. Qed.

(** ** [SliceOnto] *)

(** A slice of a source with single-byte elements: the destination gets the
    source's kind, the pointer [source_data + start] and [end - start]
    elements; memory and the accountant are not touched. *)
Lemma SliceOnto_single_byte
    (size_bits : Z) (env : Environment) (source dest : positive)
    (args2 args3 : Value) (buffer : ExternalArrayData) :
  32 <= size_bits ->
  elements (get_object env source) = Some buffer ->
  elements (get_object env dest) = None ->
  ExternalArraySize (ea_type buffer) = 1 ->
  Uint32Value args2 <= Uint32Value args3 <= ea_length buffer ->
  ea_length buffer < 2 ^ size_bits ->
  ea_data buffer <> 0 ->
  SliceOnto size_bits source dest args2 args3 env
    = (Ok source,
       set_objects
         <[dest := {| elements :=
                        Some {| ea_data := ea_data buffer + Uint32Value args2;
                                ea_type := ea_type buffer;
                                ea_length := Uint32Value args3 - Uint32Value args2 |};
                      smalloc_p := smalloc_p (get_object env dest) |}]> env).
Proof.
  intros Hw Hsrc Hdst Hsize Hrange Hlen Hdata.
  pose proof (Uint32Value_range args2) as H2.
  pose proof (Uint32Value_range args3) as H3.
  unfold SliceOnto.
  rewrite (bind_Ok _ _ _ _ _ (the_object_run env source)).
  rewrite (bind_Ok _ _ _ _ _ (the_object_run env dest)).
  rewrite (has_elements_Some _ _ Hsrc), (has_elements_None _ Hdst).
  unfold GetIndexedPropertiesExternalArrayDataLength,
    GetIndexedPropertiesExternalArrayDataType,
    GetIndexedPropertiesExternalArrayData.
  rewrite Hsrc, Hsize. rewrite !size_t_Uint32Value by exact Hw.
  rewrite (size_t_small size_bits (ea_length buffer)) by lia.
  rewrite (size_t_small size_bits (Uint32Value args3 - Uint32Value args2)) by lia.
  unfold bind, assert, ret. simpl.
  replace (ea_data buffer =? 0) with false by lia. simpl.
  replace (Uint32Value args3 <=? ea_length buffer) with true by lia.
  replace (Uint32Value args2 <=? Uint32Value args3) with true by lia.
  reflexivity.
Qed.

(** C5 fails on the code. Object 1 has ten 4-byte elements at 1000. The
    slice from element 2 to element 6 onto the plain object 4 starts at
    1002, not at 1008, and has 16 elements of 4 bytes, not 16 bytes: it
    ends at 1066, beyond the forty bytes of the source. *)
Theorem SliceOnto_wide_elements_misplaced :
  outcome_of (SliceOnto 64 1 4 (JSNumber 2) (JSNumber 6) sample_environment)
    = Ok 1%positive
  /\ elements (get_object
                 (env_of (SliceOnto 64 1 4 (JSNumber 2) (JSNumber 6)
                            sample_environment)) 4)
     = Some {| ea_data := 1002; ea_type := kExternalIntArray; ea_length := 16 |}.
Proof. vm_compute. split; reflexivity. Qed.

(** ** Failure of the native allocation *)

(** In the default path a failed [malloc] ends in [FatalError], naming the
    function; nothing is attached or accounted. *)
Lemma Alloc_length_out_of_memory
    (kMaxLength : Z) (env : Environment) (obj : positive)
    (length : Z) (type : ExternalArrayType) :
  0 < length <= kMaxLength ->
  0 < ExternalArraySize type ->
  Alloc_length kMaxLength obj length type 0 env
    = (Fatal
         "node::smalloc::Alloc(v8::Handle<v8::Object>, size_t, v8::ExternalArrayType)"
         "Out Of Memory",
       log (EvMalloc length 0) env).
Proof.
  intros Hlen Hsize. unfold Alloc_length, bind, assert, malloc.
  replace (length <=? kMaxLength) with true by lia.
  replace (ExternalArraySize type >? 0) with true by lia.
  replace (length =? 0) with false by lia.
  reflexivity.
Qed.

(** The callback path never calls [FatalError], whatever [new] does. *)
Lemma Alloc_length_cb_never_fatal
    (size_bits kMaxLength sizeof_cb_info : Z) (obj : positive)
    (length fn hint_ : Z) (type : ExternalArrayType)
    (new_data new_info : option Z) (env env' : Environment)
    (location message : string) :
  Alloc_length_cb size_bits kMaxLength sizeof_cb_info obj length fn hint_ type
    new_data new_info env <> (Fatal location message, env').
Proof.
  unfold Alloc_length_cb, Alloc_data_cb, bind, assert, new_array,
    new_CallbackInfo, the_object, modify, SetHiddenValue, SetWeak,
    AdjustAmountOfExternalAllocatedMemory,
    SetIndexedPropertiesToExternalArrayData, undefined.
  repeat match goal with
         | |- context [if ?c then _ else _] => destruct c
         | |- context [match ?x with Some _ => _ | None => _ end] => destruct x
         end; simpl;
    repeat match goal with
           | |- context [if ?c then _ else _] => destruct c
           end; discriminate.
Qed.

(** When [new char[length]] fails the outcome is the uncaught
    [std::bad_alloc], or a failed assertion before it, and the environment
    is untouched. *)
Lemma Alloc_length_cb_out_of_memory
    (size_bits kMaxLength sizeof_cb_info : Z) (obj : positive)
    (length fn hint_ : Z) (type : ExternalArrayType)
    (new_info : option Z) (env : Environment) :
  Alloc_length_cb size_bits kMaxLength sizeof_cb_info obj length fn hint_ type
    None new_info env = (BadAlloc, env)
  \/ exists condition : string,
       Alloc_length_cb size_bits kMaxLength sizeof_cb_info obj length fn hint_
         type None new_info env = (AssertFail condition, env).
Proof.
  unfold Alloc_length_cb, bind, assert, new_array.
  repeat match goal with
         | |- context [if ?c then _ else _] => destruct c
         end; eauto.
Qed.

(** C10 fails on the code in the callback path. When [new char[length]]
    fails, [Alloc] with a free callback ends with the uncaught
    [std::bad_alloc] and no call to [FatalError]; the default path with a
    failed [malloc] on the same wrapper ends in [FatalError]. Neither
    attaches anything. *)
Theorem Alloc_length_cb_out_of_memory_no_diagnostic :
  Alloc_length_cb 64 kMaxLength_node 24 4 16 700 800
    kExternalUnsignedByteArray None (Some 7000) sample_environment
    = (BadAlloc, sample_environment)
  /\ outcome_of (Alloc 64 kMaxLength_node 4 (JSNumber 16) None 0
                   sample_environment)
     = Fatal
         "node::smalloc::Alloc(v8::Handle<v8::Object>, size_t, v8::ExternalArrayType)"
         "Out Of Memory"
  /\ elements (get_object
                 (env_of (Alloc 64 kMaxLength_node 4 (JSNumber 16) None 0
                            sample_environment)) 4) = None.
Proof. vm_compute. repeat split; reflexivity. Qed.

(** ** The default path: what each function does to the environment *)

Lemma get_object_log (e : event) (env : Environment) (obj : positive) :
  get_object (log e env) obj = get_object env obj.
Proof. reflexivity. Qed.

Lemma Alloc_data_run (obj : positive) (data length : Z)
    (type : ExternalArrayType) (env : Environment) :
  elements (get_object env obj) = None ->
  ExternalArraySize type <> 0 ->
  Alloc_data obj data length type env
    = (Ok tt,
       {| objects :=
            <[obj := {| elements :=
                          Some {| ea_data := data; ea_type := type;
                                  ea_length := length / ExternalArraySize type |};
                        smalloc_p := smalloc_p (get_object env obj) |}]>
              (objects env);
          callback_infos := callback_infos env;
          weak_handles := weak_handles env ++ [WeakTarget obj data];
          external_memory := external_memory env + int64 length;
          using_smalloc_alloc_cb := using_smalloc_alloc_cb env;
          memory := memory env;
          trace := trace env ++ [EvAdjust (int64 length)] |}).
Proof.
  intros Hnone Hsize. unfold Alloc_data.
  rewrite (bind_Ok _ _ _ _ _ (the_object_run env obj)).
  rewrite (has_elements_None _ Hnone).
  replace (ExternalArraySize type =? 0) with false by lia.
  reflexivity.
Qed.

(** A successful [alloc(obj, n[, type])]: the wrapper had no external array
    data, the byte length is a multiple of a recognised width and at most
    [kMaxLength], the block is [NULL] exactly when the length is 0, and the
    environment has gained the attachment, the weak handle and the
    accounting of [Alloc_data]. *)
Lemma Alloc_Ok_inv
    (size_bits kMaxLength : Z) (obj : positive) (args1 : Value)
    (args2 : option ExternalArrayType) (malloc_result : Z)
    (env env1 : Environment) :
  32 <= size_bits ->
  Alloc size_bits kMaxLength obj args1 args2 malloc_result env = (Ok tt, env1) ->
  exists (data length : Z) (type : ExternalArrayType),
    elements (get_object env obj) = None /\
    type = default kExternalUnsignedByteArray args2 /\
    0 < ExternalArraySize type /\
    0 <= length <= kMaxLength /\
    length / ExternalArraySize type * ExternalArraySize type = length /\
    (length = 0 -> data = 0) /\
    (length <> 0 -> data <> 0 /\ data = malloc_result) /\
    env1 = {| objects :=
                <[obj := {| elements :=
                              Some {| ea_data := data; ea_type := type;
                                      ea_length := length / ExternalArraySize type |};
                            smalloc_p := smalloc_p (get_object env obj) |}]>
                  (objects env);
              callback_infos := callback_infos env;
              weak_handles := weak_handles env ++ [WeakTarget obj data];
              external_memory := external_memory env + int64 length;
              using_smalloc_alloc_cb := using_smalloc_alloc_cb env;
              memory := memory env;
              trace := (trace env ++
                        (if length =? 0 then []
                         else [EvMalloc length malloc_result])) ++
                       [EvAdjust (int64 length)] |}.
Proof.
  intros Hw Hrun. unfold Alloc in Hrun.
  rewrite (bind_Ok _ _ _ _ _ (the_object_run env obj)) in Hrun.
  destruct (elements (get_object env obj)) as [b |] eqn:Hel.
  { rewrite (has_elements_Some _ _ Hel) in Hrun. discriminate. }
  rewrite (has_elements_None _ Hel) in Hrun.
  apply bind_Ok_inv in Hrun as ([length type] & env0 & Hsized & Hrun).
  assert (Hfacts : env0 = env /\
                   type = default kExternalUnsignedByteArray args2 /\
                   0 <= length /\
                   (0 < ExternalArraySize type ->
                    length / ExternalArraySize type * ExternalArraySize type
                      = length)).
  { destruct args2 as [t |]; simpl.
    - apply bind_Ok_inv in Hsized as (u & env0' & Hassert & Hret).
      apply assert_Ok_inv in Hassert as [_ ->].
      inversion Hret; subst. repeat split.
      + apply size_t_range. lia.
      + intros Hpos. apply size_t_scaled_multiple; assumption.
    - inversion Hsized; subst. repeat split.
      + apply size_t_range. lia.
      + intros _. simpl. rewrite Z.div_1_r. lia. }
  destruct Hfacts as (-> & Htype & Hlen0 & Hmult).
  unfold Alloc_length in Hrun.
  apply bind_Ok_inv in Hrun as (u1 & e1 & Ha1 & Hrun).
  apply assert_Ok_inv in Ha1 as [Hmax ->].
  apply bind_Ok_inv in Hrun as (u2 & e2 & Ha2 & Hrun).
  apply assert_Ok_inv in Ha2 as [Hpos ->].
  assert (Hpos' : 0 < ExternalArraySize type) by lia.
  destruct (length =? 0) eqn:Hz.
  - rewrite Alloc_data_run in Hrun by (assumption || lia).
    inversion Hrun; subst env1. clear Hrun.
    exists 0, length, type. rewrite Hz, app_nil_r.
    repeat split; auto; lia.
  - unfold bind at 1 in Hrun. unfold malloc in Hrun.
    unfold bind at 1 in Hrun.
    destruct (malloc_result =? 0) eqn:Hm; [discriminate |].
    simpl in Hrun.
    rewrite Alloc_data_run in Hrun by (assumption || lia).
    inversion Hrun; subst env1. clear Hrun.
    exists malloc_result, length, type. rewrite Hz.
    repeat split; auto; lia.
Qed.

(** The default path of [AllocDispose], on a wrapper without a hidden
    callback record: the block, if not [NULL], is freed and the wrapper
    re-pointed at the [NULL] block of length 0; the byte length, if not 0, is
    taken off the accountant. No exception is thrown on the way. *)
Lemma AllocDispose_default_run
    (size_bits sizeof_cb_info : Z) (env : Environment) (obj : positive)
    (buffer : ExternalArrayData) :
  32 <= size_bits <= 64 ->
  elements (get_object env obj) = Some buffer ->
  smalloc_p (get_object env obj) = None ->
  0 < ExternalArraySize (ea_type buffer) ->
  0 <= ea_length buffer ->
  byte_length buffer < 2 ^ (size_bits - 1) ->
  AllocDispose size_bits sizeof_cb_info obj env
    = (Ok tt,
       {| objects :=
            if ea_data buffer =? 0 then objects env
            else <[obj := {| elements :=
                               Some {| ea_data := 0;
                                       ea_type := kExternalUnsignedByteArray;
                                       ea_length := 0 |};
                             smalloc_p := None |}]> (objects env);
          callback_infos := callback_infos env;
          weak_handles := weak_handles env;
          external_memory :=
            if byte_length buffer =? 0 then external_memory env
            else external_memory env + - byte_length buffer;
          using_smalloc_alloc_cb := using_smalloc_alloc_cb env;
          memory := memory env;
          trace := (trace env ++
                    (if ea_data buffer =? 0 then [] else [EvFree (ea_data buffer)]))
                   ++ (if byte_length buffer =? 0 then []
                       else [EvAdjust (- byte_length buffer)]) |}).
Proof.
  intros Hw Hel Hhid Hsize Hcount Hbytes. unfold byte_length in *.
  pose proof (pow2_half size_bits ltac:(lia)) as Hhalf.
  pose proof (pow2_le_63 size_bits ltac:(lia)) as H63.
  set (s := ExternalArraySize (ea_type buffer)) in *.
  assert (Hc : ea_length buffer <= ea_length buffer * s) by nia.
  unfold AllocDispose. unfold bind at 1. unfold get_env.
  rewrite (bind_Ok _ _ _ _ _ (the_object_run env obj)).
  unfold GetHiddenValue. rewrite Hhid.
  replace (if using_smalloc_alloc_cb env then None else None) with (@None Z)
    by (destruct (using_smalloc_alloc_cb env); reflexivity).
  unfold GetIndexedPropertiesExternalArrayDataLength,
    GetIndexedPropertiesExternalArrayDataType,
    GetIndexedPropertiesExternalArrayData.
  rewrite Hel. fold s.
  rewrite (size_t_small size_bits (ea_length buffer)) by lia.
  rewrite (size_t_small size_bits (ea_length buffer * s)) by lia.
  rewrite int64_small by lia.
  replace (s >? 0) with true by lia.
  replace (ea_length buffer * s >=? ea_length buffer) with true by lia.
  unfold bind, assert, SetIndexedPropertiesToExternalArrayData, free,
    AdjustAmountOfExternalAllocatedMemory, modify, ret.
  destruct env as [objs infos hs total ucb mem tr]. simpl in *.
  unfold get_object in Hhid. simpl in Hhid.
  destruct (ea_data buffer =? 0); destruct (ea_length buffer * s =? 0); simpl;
    unfold get_object; simpl; rewrite ?Hhid, ?app_nil_r; reflexivity.
Qed.

(** [TargetCallback] on a wrapper with external array data: the parameter,
    if not [NULL], is freed and the byte length taken off the accountant
    when the wrapper still presents a non-empty buffer; otherwise nothing
    happens. *)
Lemma TargetCallback_run
    (size_bits : Z) (env : Environment) (obj : positive) (info : Z)
    (buffer : ExternalArrayData) :
  32 <= size_bits <= 64 ->
  elements (get_object env obj) = Some buffer ->
  0 < ExternalArraySize (ea_type buffer) ->
  0 <= ea_length buffer ->
  byte_length buffer < 2 ^ (size_bits - 1) ->
  TargetCallback size_bits obj info env
    = (Ok tt,
       if negb (info =? 0) && (byte_length buffer >? 0) then
         {| objects := objects env;
            callback_infos := callback_infos env;
            weak_handles := weak_handles env;
            external_memory := external_memory env + - byte_length buffer;
            using_smalloc_alloc_cb := using_smalloc_alloc_cb env;
            memory := memory env;
            trace := (trace env ++ [EvAdjust (- byte_length buffer)])
                     ++ [EvFree info] |}
       else env).
Proof.
  intros Hw Hel Hsize Hcount Hbytes. unfold byte_length in *.
  pose proof (pow2_half size_bits ltac:(lia)) as Hhalf.
  pose proof (pow2_le_63 size_bits ltac:(lia)) as H63.
  set (s := ExternalArraySize (ea_type buffer)) in *.
  assert (Hc : ea_length buffer <= ea_length buffer * s) by nia.
  unfold TargetCallback.
  rewrite (bind_Ok _ _ _ _ _ (the_object_run env obj)).
  unfold GetIndexedPropertiesExternalArrayDataLength,
    GetIndexedPropertiesExternalArrayDataType.
  rewrite Hel. fold s.
  rewrite (size_t_small size_bits (ea_length buffer)) by lia.
  rewrite (Z.mul_comm s).
  rewrite (size_t_small size_bits (ea_length buffer * s)) by lia.
  rewrite int64_small by lia.
  replace (s >? 0) with true by lia.
  replace (ea_length buffer * s >=? ea_length buffer) with true by lia.
  unfold bind, assert.
  destruct (negb (info =? 0) && (ea_length buffer * s >? 0)); reflexivity.
Qed.

(** ** The collector's pass over the weak handles of a wrapper *)

Lemma filter_none {A : Type} (P : A -> Prop) `{forall x, Decision (P x)}
    (l : list A) :
  Forall (fun x => ~ P x) l -> filter P l = [].
Proof.
  induction 1 as [| x l Hx _ IH]; [reflexivity |].
  rewrite filter_cons_False by exact Hx. exact IH.
Qed.

Lemma filter_all {A : Type} (P : A -> Prop) `{forall x, Decision (P x)}
    (l : list A) :
  Forall P l -> filter P l = l.
Proof.
  induction 1 as [| x l Hx _ IH]; [reflexivity |].
  rewrite filter_cons_True by exact Hx. rewrite IH. reflexivity.
Qed.

Lemma onWrapperUnreachable_run
    (size_bits sizeof_cb_info : Z) (obj : positive) (env : Environment) :
  onWrapperUnreachable size_bits sizeof_cb_info obj env
    = run_weak_callbacks size_bits sizeof_cb_info
        (filter (fun h => weak_object h = obj) (weak_handles env))
        (set_weak_handles (filter (fun h => weak_object h <> obj)) env).
Proof. reflexivity. Qed.

(** Without a weak handle on the wrapper the pass does nothing. *)
Lemma onWrapperUnreachable_no_handle
    (size_bits sizeof_cb_info : Z) (obj : positive) (env : Environment) :
  Forall (fun h => weak_object h <> obj) (weak_handles env) ->
  onWrapperUnreachable size_bits sizeof_cb_info obj env = (Ok tt, env).
Proof.
  intros Hfresh. rewrite onWrapperUnreachable_run.
  rewrite (filter_none (fun h => weak_object h = obj)) by exact Hfresh.
  unfold set_weak_handles. rewrite filter_all by exact Hfresh.
  destruct env; reflexivity.
Qed.

(** ** The callback path *)

(** [TargetFreeCallback] on a live record whose wrapper presents [buffer]:
    the byte length and the size of the record leave the accountant, the
    weak handle is reset, the user's callback is called with the data and
    the hint, the record is deleted. With elements wider than a byte and an
    empty buffer the assertion [len * array_size > len] fails first. *)
Lemma TargetFreeCallback_run
    (size_bits sizeof_cb_info : Z) (env : Environment) (cb_info : Z)
    (info : CallbackInfo) (obj : positive) (buffer : ExternalArrayData) :
  32 <= size_bits ->
  callback_infos env !! cb_info = Some info ->
  p_obj info = Some obj ->
  elements (get_object env obj) = Some buffer ->
  0 < ExternalArraySize (ea_type buffer) ->
  0 <= ea_length buffer ->
  byte_length buffer < 2 ^ size_bits ->
  TargetFreeCallback size_bits sizeof_cb_info cb_info env
    = if (ExternalArraySize (ea_type buffer) >? 1) && (ea_length buffer =? 0)
      then (AssertFail "len * array_size > len", env)
      else
        (Ok tt,
         {| objects := objects env;
            callback_infos := delete cb_info (callback_infos env);
            weak_handles :=
              filter (fun h => h <> WeakTargetFree obj cb_info) (weak_handles env);
            external_memory :=
              external_memory env
              + - int64 (size_t size_bits (byte_length buffer + sizeof_cb_info));
            using_smalloc_alloc_cb := using_smalloc_alloc_cb env;
            memory := memory env;
            trace :=
              ((trace env ++
                [EvAdjust
                   (- int64 (size_t size_bits
                               (byte_length buffer + sizeof_cb_info)))])
               ++ [EvFreeCallback (cb info) (ea_data buffer) (hint info)])
              ++ [EvDeleteInfo cb_info] |}).
Proof.
  intros Hw Hinfo Hobj Hel Hsize Hcount Hbytes. unfold byte_length in *.
  set (s := ExternalArraySize (ea_type buffer)) in *.
  assert (Hc : ea_length buffer <= ea_length buffer * s) by nia.
  unfold TargetFreeCallback. unfold bind at 1. unfold get_env.
  rewrite Hinfo, Hobj.
  rewrite (bind_Ok _ _ _ _ _ (the_object_run env obj)).
  unfold GetIndexedPropertiesExternalArrayDataLength,
    GetIndexedPropertiesExternalArrayDataType,
    GetIndexedPropertiesExternalArrayData.
  rewrite Hel. fold s.
  rewrite (size_t_small size_bits (ea_length buffer)) by lia.
  rewrite (size_t_small size_bits (ea_length buffer * s)) by lia.
  replace (s >? 0) with true by lia.
  unfold bind at 1. unfold assert at 1.
  destruct (s >? 1) eqn:Hwide; simpl.
  - destruct (ea_length buffer =? 0) eqn:Hempty.
    + replace (ea_length buffer * s >? ea_length buffer) with false by nia.
      reflexivity.
    + replace (ea_length buffer * s >? ea_length buffer) with true by nia.
      unfold bind, assert, ret, modify, AdjustAmountOfExternalAllocatedMemory,
        log, set_callback_infos, set_weak_handles, set_external_memory.
      simpl. rewrite delete_insert_eq. reflexivity.
  - replace s with 1 by lia. rewrite Z.mul_1_r.
    unfold bind, assert, ret, modify, AdjustAmountOfExternalAllocatedMemory,
      log, set_callback_infos, set_weak_handles, set_external_memory.
    simpl. rewrite delete_insert_eq. reflexivity.
Qed.

(** With the callback flag set and a hidden record on the wrapper,
    [AllocDispose] is [TargetFreeCallback] on that record. *)
Lemma AllocDispose_callback_run
    (size_bits sizeof_cb_info : Z) (env : Environment) (obj : positive)
    (cb_info : Z) :
  using_smalloc_alloc_cb env = true ->
  smalloc_p (get_object env obj) = Some cb_info ->
  AllocDispose size_bits sizeof_cb_info obj env
    = TargetFreeCallback size_bits sizeof_cb_info cb_info env.
Proof.
  intros Hflag Hhid. unfold AllocDispose. unfold bind at 1. unfold get_env.
  rewrite (bind_Ok _ _ _ _ _ (the_object_run env obj)).
  rewrite Hflag. unfold GetHiddenValue. rewrite Hhid. reflexivity.
Qed.

(** A successful [Alloc(env, obj, length, fn, hint, type)]: both [new]
    succeeded, the wrapper had no external array data, and the environment
    has gained the record, the hidden value, the weak handle, the attachment
    and the accounting of the bytes plus the record. *)
Lemma Alloc_length_cb_Ok_inv
    (size_bits kMaxLength sizeof_cb_info : Z) (obj : positive)
    (length fn hint_ : Z) (type : ExternalArrayType)
    (new_data new_info : option Z) (env env1 : Environment) :
  32 <= size_bits ->
  Alloc_length_cb size_bits kMaxLength sizeof_cb_info obj length fn hint_ type
    new_data new_info env = (Ok tt, env1) ->
  exists (data cb_info bytes : Z),
    new_data = Some data /\ new_info = Some cb_info /\
    elements (get_object env obj) = None /\
    0 < ExternalArraySize type /\
    bytes = size_t size_bits (length * ExternalArraySize type) /\
    bytes / ExternalArraySize type * ExternalArraySize type = bytes /\
    env1 = {| objects :=
                <[obj := {| elements :=
                              Some {| ea_data := data; ea_type := type;
                                      ea_length := bytes / ExternalArraySize type |};
                            smalloc_p := Some cb_info |}]>
                  (<[obj := {| elements := None; smalloc_p := Some cb_info |}]>
                     (objects env));
              callback_infos :=
                <[cb_info := {| hint := hint_; cb := fn; p_obj := Some obj |}]>
                  (callback_infos env);
              weak_handles := weak_handles env ++ [WeakTargetFree obj cb_info];
              external_memory :=
                external_memory env
                + int64 (size_t size_bits (bytes + sizeof_cb_info));
              using_smalloc_alloc_cb := true;
              memory := memory env;
              trace :=
                ((trace env ++ [EvNewArray bytes data]) ++ [EvNewInfo cb_info])
                ++ [EvAdjust (int64 (size_t size_bits (bytes + sizeof_cb_info)))] |}.
Proof.
  intros Hw Hrun. unfold Alloc_length_cb in Hrun.
  apply bind_Ok_inv in Hrun as (u1 & e1 & Ha1 & Hrun).
  apply assert_Ok_inv in Ha1 as [Hmax ->].
  apply bind_Ok_inv in Hrun as (u2 & e2 & Ha2 & Hrun).
  apply assert_Ok_inv in Ha2 as [Hpos ->].
  apply bind_Ok_inv in Hrun as (u3 & e3 & Ha3 & Hrun).
  apply assert_Ok_inv in Ha3 as [Hge ->].
  assert (Hpos' : 0 < ExternalArraySize type) by lia.
  destruct new_data as [data |]; [| discriminate].
  unfold bind at 1 in Hrun. unfold new_array in Hrun.
  unfold Alloc_data_cb in Hrun.
  rewrite (bind_Ok _ _ _ _ _ (the_object_run _ obj)) in Hrun.
  rewrite get_object_log in Hrun.
  destruct (elements (get_object env obj)) as [b |] eqn:Hel.
  { rewrite (has_elements_Some _ _ Hel) in Hrun. discriminate. }
  rewrite (has_elements_None _ Hel) in Hrun.
  destruct new_info as [cb_info |]; [| discriminate].
  replace (ExternalArraySize type =? 0) with false in Hrun by lia.
  unfold bind, assert, new_CallbackInfo, SetHiddenValue,
    AdjustAmountOfExternalAllocatedMemory, SetWeak,
    SetIndexedPropertiesToExternalArrayData, modify in Hrun.
  simpl in Hrun. unfold get_object in Hrun. simpl in Hrun.
  rewrite lookup_insert_eq in Hrun. simpl in Hrun.
  unfold get_object in Hel. rewrite Hel in Hrun.
  inversion Hrun; subst env1. clear Hrun.
  exists data, cb_info, (size_t size_bits (length * ExternalArraySize type)).
  repeat split; auto.
  apply size_t_scaled_multiple; assumption.
Qed.

(** ** Allocation, disposal, then the collector *)

Lemma platform_bounds (size_bits kMaxLength sizeof_cb_info : Z) :
  platform size_bits kMaxLength sizeof_cb_info ->
  32 <= size_bits <= 64 /\
  2 ^ size_bits = 2 * 2 ^ (size_bits - 1) /\
  2 ^ (size_bits - 1) <= 2 ^ 63 /\
  0 <= kMaxLength /\ 0 < sizeof_cb_info /\
  kMaxLength + sizeof_cb_info < 2 ^ (size_bits - 1).
Proof.
  intros (Hw & Hmax & Hcb & Hhalf).
  pose proof (pow2_half size_bits ltac:(lia)).
  pose proof (pow2_le_63 size_bits ltac:(lia)).
  repeat split; lia.
Qed.

Lemma get_object_lookup (env : Environment) (obj : positive) (o : JSObject) :
  objects env !! obj = Some o -> get_object env obj = o.
Proof. intros H. unfold get_object. rewrite H. reflexivity. Qed.

(** Reading the object that was written last. *)
Ltac read_object :=
  apply get_object_lookup; simpl; apply lookup_insert_eq.

Ltac read_elements :=
  match goal with
  | |- elements (get_object ?env ?obj) = _ =>
      erewrite (get_object_lookup env obj) by (simpl; apply lookup_insert_eq);
      reflexivity
  | |- smalloc_p (get_object ?env ?obj) = _ =>
      erewrite (get_object_lookup env obj) by (simpl; apply lookup_insert_eq);
      simpl; try reflexivity
  end.

(** The default path, start to end: a successful [alloc] of a non-empty
    buffer on a fresh wrapper, [dispose], then the collector finding the
    wrapper unreachable. *)
Lemma Alloc_dispose_unreachable
    (size_bits kMaxLength sizeof_cb_info : Z) (env env1 : Environment)
    (obj : positive) (args1 : Value) (args2 : option ExternalArrayType)
    (malloc_result : Z) (buffer : ExternalArrayData) :
  platform size_bits kMaxLength sizeof_cb_info ->
  fresh_wrapper env obj ->
  Alloc size_bits kMaxLength obj args1 args2 malloc_result env = (Ok tt, env1) ->
  elements (get_object env1 obj) = Some buffer ->
  0 < byte_length buffer ->
  exists env2 env3 : Environment,
    AllocDispose size_bits sizeof_cb_info obj env1 = (Ok tt, env2) /\
    external_memory env1 = external_memory env + byte_length buffer /\
    external_memory env2 = external_memory env /\
    trace env2 = (trace env1 ++ [EvFree (ea_data buffer)])
                 ++ [EvAdjust (- byte_length buffer)] /\
    get_object env2 obj
      = {| elements := Some {| ea_data := 0;
                               ea_type := kExternalUnsignedByteArray;
                               ea_length := 0 |};
           smalloc_p := None |} /\
    onWrapperUnreachable size_bits sizeof_cb_info obj env2 = (Ok tt, env3) /\
    trace env3 = trace env2 /\
    external_memory env3 = external_memory env2 /\
    objects env3 = objects env2 /\
    memory env3 = memory env2.
Proof.
  intros Hplat [Hhid Hfresh] Hrun Hbuf Hnonempty.
  destruct (platform_bounds _ _ _ Hplat) as (Hw & Hhalf & H63 & Hmax & Hcb & Hsum).
  assert (Hw32 : 32 <= size_bits) by lia.
  destruct (Alloc_Ok_inv _ _ _ _ _ _ _ _ Hw32 Hrun)
    as (data & length & type & Hnone & _ & Hsize & Hlen & Hmult & Hzero & Hnz & ->).
  erewrite get_object_lookup in Hbuf by (simpl; apply lookup_insert_eq).
  simpl in Hbuf. injection Hbuf as <-. unfold byte_length in *. simpl in *.
  rewrite Hmult in Hnonempty.
  destruct (Hnz ltac:(lia)) as [Hdata _].
  rewrite int64_small by lia.
  eexists. eexists.
  split.
  { erewrite AllocDispose_default_run.
    - reflexivity.
    - lia.
    - read_elements.
    - read_elements. exact Hhid.
    - simpl. exact Hsize.
    - simpl. apply Z.div_pos; lia.
    - unfold byte_length. simpl. rewrite Hmult. lia. }
  unfold byte_length. simpl. rewrite Hmult.
  replace (data =? 0) with false by lia.
  replace (length =? 0) with false by lia.
  split; [reflexivity |].
  split; [lia |].
  split; [reflexivity |].
  split; [read_object |].
  rewrite onWrapperUnreachable_run. simpl.
  rewrite filter_app.
  rewrite (filter_none (fun h => weak_object h = obj)) by exact Hfresh.
  rewrite filter_cons_True by reflexivity. rewrite filter_nil.
  simpl. unfold bind.
  erewrite (TargetCallback_run size_bits _ obj data
              {| ea_data := 0; ea_type := kExternalUnsignedByteArray;
                 ea_length := 0 |}).
  - unfold byte_length. simpl. rewrite andb_false_r.
    unfold ret. split; [reflexivity |]. simpl. auto.
  - lia.
  - read_elements.
  - simpl. lia.
  - simpl. lia.
  - unfold byte_length. simpl. lia.
Qed.

Lemma fresh_no_callback_handle (hs : list weak_handle) (obj : positive)
    (cb_info : Z) :
  Forall (fun h => weak_object h <> obj) hs ->
  filter (fun h => h <> WeakTargetFree obj cb_info)
    (hs ++ [WeakTargetFree obj cb_info]) = hs.
Proof.
  intros Hfresh. rewrite filter_app.
  rewrite filter_cons_False by (intros H; apply H; reflexivity).
  rewrite filter_nil, app_nil_r.
  apply filter_all. eapply Forall_impl; [exact Hfresh |].
  intros h Hh ->. apply Hh. reflexivity.
Qed.

(** The callback path, start to end: a successful allocation with a free
    callback of a non-empty buffer of at most [kMaxLength] bytes on a fresh
    wrapper, [dispose], then the collector. *)
Lemma Alloc_length_cb_dispose_unreachable
    (size_bits kMaxLength sizeof_cb_info : Z) (env env1 : Environment)
    (obj : positive) (length fn hint_ : Z) (type : ExternalArrayType)
    (new_data new_info : option Z) (buffer : ExternalArrayData) :
  platform size_bits kMaxLength sizeof_cb_info ->
  fresh_wrapper env obj ->
  Alloc_length_cb size_bits kMaxLength sizeof_cb_info obj length fn hint_ type
    new_data new_info env = (Ok tt, env1) ->
  elements (get_object env1 obj) = Some buffer ->
  0 < byte_length buffer <= kMaxLength ->
  exists (env2 : Environment) (cb_info : Z),
    AllocDispose size_bits sizeof_cb_info obj env1 = (Ok tt, env2) /\
    external_memory env1
      = external_memory env + (byte_length buffer + sizeof_cb_info) /\
    external_memory env2 = external_memory env /\
    trace env2
      = ((trace env1 ++ [EvAdjust (- (byte_length buffer + sizeof_cb_info))])
         ++ [EvFreeCallback fn (ea_data buffer) hint_])
        ++ [EvDeleteInfo cb_info] /\
    onWrapperUnreachable size_bits sizeof_cb_info obj env2 = (Ok tt, env2).
Proof.
  intros Hplat [_ Hfresh] Hrun Hbuf Hbytes.
  destruct (platform_bounds _ _ _ Hplat) as (Hw & Hhalf & H63 & Hmax & Hcb & Hsum).
  assert (Hw32 : 32 <= size_bits) by lia.
  destruct (Alloc_length_cb_Ok_inv _ _ _ _ _ _ _ _ _ _ _ _ Hw32 Hrun)
    as (data & cb_info & bytes & -> & -> & Hnone & Hsize & Hb & Hmult & ->).
  erewrite get_object_lookup in Hbuf by (simpl; apply lookup_insert_eq).
  simpl in Hbuf. injection Hbuf as <-. unfold byte_length in Hbytes.
  simpl in Hbytes. rewrite Hmult in Hbytes.
  assert (Hcount : 0 < bytes / ExternalArraySize type) by nia.
  set (env1 := {| objects := _ |}) in *.
  assert (Hdispose :
    AllocDispose size_bits sizeof_cb_info obj env1
      = TargetFreeCallback size_bits sizeof_cb_info cb_info env1).
  { apply AllocDispose_callback_run; [reflexivity |]. subst env1. read_elements. }
  rewrite Hdispose.
  rewrite (TargetFreeCallback_run size_bits sizeof_cb_info env1 cb_info
             {| hint := hint_; cb := fn; p_obj := Some obj |} obj
             {| ea_data := data; ea_type := type;
                ea_length := bytes / ExternalArraySize type |});
    [ | lia | subst env1; simpl; apply lookup_insert_eq | reflexivity
      | subst env1; read_elements | exact Hsize | simpl; lia
      | unfold byte_length; simpl; rewrite Hmult; lia ].
  cbn [ea_type ea_length ea_data cb hint].
  replace (bytes / ExternalArraySize type =? 0) with false by lia.
  rewrite andb_false_r.
  unfold byte_length. cbn [ea_type ea_length ea_data]. rewrite Hmult.
  rewrite (size_t_small size_bits (bytes + sizeof_cb_info)) by lia.
  rewrite int64_small by lia.
  subst env1. cbn [weak_handles external_memory trace objects callback_infos
                   using_smalloc_alloc_cb memory].
  rewrite (fresh_no_callback_handle _ _ _ Hfresh).
  rewrite (size_t_small size_bits (bytes + sizeof_cb_info)) by lia.
  rewrite int64_small by lia.
  eexists. exists cb_info.
  split; [reflexivity |].
  split; [reflexivity |].
  split; [simpl; lia |].
  split; [reflexivity |].
  apply onWrapperUnreachable_no_handle. exact Hfresh.
Qed.

(** ** [AllocDispose] has no exception *)

Lemma never_throws_bind {A B : Type} (m : M A) (k : A -> M B) :
  never_throws m -> (forall a, never_throws (k a)) -> never_throws (bind m k).
Proof.
  intros Hm Hk env e env' H. unfold bind in H.
  destruct (m env) as [[a | e0 | c | l s | | s] env0] eqn:Hrun;
    try discriminate.
  - exact (Hk a env0 e env' H).
  - exact (Hm env e0 env0 Hrun).
Qed.

Lemma never_throws_ret {A : Type} (a : A) : never_throws (ret a).
Proof. intros env e env' H. discriminate. Qed.

Lemma never_throws_assert (c : bool) (s : string) : never_throws (assert c s).
Proof. intros env e env' H. unfold assert in H. destruct c; discriminate. Qed.

Lemma never_throws_modify (f : Environment -> Environment) :
  never_throws (modify f).
Proof. intros env e env' H. discriminate. Qed.

Lemma never_throws_undefined {A : Type} (s : string) :
  never_throws (@undefined A s).
Proof. intros env e env' H. discriminate. Qed.

Lemma never_throws_get_env : never_throws get_env.
Proof. intros env e env' H. discriminate. Qed.

Lemma never_throws_the_object (obj : positive) : never_throws (the_object obj).
Proof. intros env e env' H. discriminate. Qed.

Create HintDb never_throws.

#[local] Hint Resolve never_throws_ret never_throws_assert never_throws_modify
  never_throws_undefined never_throws_get_env never_throws_the_object
  : never_throws.

Ltac never_throws_step :=
  repeat first
    [ apply never_throws_bind; [| intros ?]
    | match goal with
      | |- never_throws (if ?c then _ else _) => destruct c
      | |- never_throws (match ?x with _ => _ end) => destruct x
      end
    | solve [auto with never_throws] ].

Lemma TargetFreeCallback_never_throws (size_bits sizeof_cb_info cb_info : Z) :
  never_throws (TargetFreeCallback size_bits sizeof_cb_info cb_info).
Proof.
  unfold TargetFreeCallback, AdjustAmountOfExternalAllocatedMemory.
  never_throws_step.
Qed.

Lemma AllocDispose_never_throws (size_bits sizeof_cb_info : Z) (obj : positive) :
  never_throws (AllocDispose size_bits sizeof_cb_info obj).
Proof.
  unfold AllocDispose, AdjustAmountOfExternalAllocatedMemory,
    SetIndexedPropertiesToExternalArrayData, free.
  apply never_throws_bind; [auto with never_throws | intros env0].
  apply never_throws_bind; [auto with never_throws | intros obj_o].
  destruct (if using_smalloc_alloc_cb env0 then GetHiddenValue obj_o else None).
  - apply TargetFreeCallback_never_throws.
  - never_throws_step.
Qed.

(** ** Release happens once *)

Lemma count_releases_app (l1 l2 : list event) :
  count_releases (l1 ++ l2) = (count_releases l1 + count_releases l2)%nat.
Proof. unfold count_releases. rewrite List.filter_app, length_app. reflexivity. Qed.

Lemma count_decrements_app (l1 l2 : list event) :
  count_decrements (l1 ++ l2) = (count_decrements l1 + count_decrements l2)%nat.
Proof.
  unfold count_decrements. rewrite List.filter_app, length_app. reflexivity.
Qed.

(** What [dispose] adds to the trace after a successful allocation of a
    non-empty buffer: one release, by the policy of the request, and one
    decrement, by the amount the allocation accounted for; the collector
    then adds nothing. *)
Lemma allocate_dispose_unreachable
    (size_bits kMaxLength sizeof_cb_info : Z) (env env1 : Environment)
    (r : request) (buffer : ExternalArrayData) :
  platform size_bits kMaxLength sizeof_cb_info ->
  fresh_wrapper env (request_object r) ->
  allocate size_bits kMaxLength sizeof_cb_info r env = (Ok tt, env1) ->
  elements (get_object env1 (request_object r)) = Some buffer ->
  0 < byte_length buffer <= kMaxLength ->
  exists (env2 env3 : Environment) (added : list event),
    AllocDispose size_bits sizeof_cb_info (request_object r) env1 = (Ok tt, env2) /\
    trace env2 = trace env1 ++ added /\
    List.filter is_release added = [release_event r (ea_data buffer)] /\
    List.filter is_decrement added
      = [EvAdjust (- (byte_length buffer + overhead sizeof_cb_info r))] /\
    external_memory env1
      = external_memory env + (byte_length buffer + overhead sizeof_cb_info r) /\
    external_memory env2 = external_memory env /\
    onWrapperUnreachable size_bits sizeof_cb_info (request_object r) env2
      = (Ok tt, env3) /\
    trace env3 = trace env2 /\
    external_memory env3 = external_memory env2.
Proof.
  intros Hplat Hfresh Hrun Hbuf Hbytes.
  destruct (platform_bounds _ _ _ Hplat) as (Hw & Hhalf & H63 & Hmax & Hcb & Hsum).
  destruct r as [obj args1 args2 malloc_result
                | obj length fn hint_ type new_data new_info]; simpl in *.
  - destruct (Alloc_dispose_unreachable _ _ _ _ _ _ _ _ _ _
                Hplat Hfresh Hrun Hbuf ltac:(lia))
      as (env2 & env3 & Hd & Hm1 & Hm2 & Htr & _ & Hgc & Htr3 & Hm3 & _).
    exists env2, env3,
      [EvFree (ea_data buffer); EvAdjust (- byte_length buffer)].
    rewrite Z.add_0_r.
    rewrite Htr, <- app_assoc in Htr3 |- *. simpl.
    replace (- byte_length buffer <? 0) with true by lia.
    repeat split; auto.
  - destruct (Alloc_length_cb_dispose_unreachable _ _ _ _ _ _ _ _ _ _ _ _ _
                Hplat Hfresh Hrun Hbuf Hbytes)
      as (env2 & cb_info & Hd & Hm1 & Hm2 & Htr & Hgc).
    exists env2, env2,
      [EvAdjust (- (byte_length buffer + sizeof_cb_info));
       EvFreeCallback fn (ea_data buffer) hint_; EvDeleteInfo cb_info].
    rewrite Htr, <- !app_assoc. simpl.
    replace (- (byte_length buffer + sizeof_cb_info) <? 0) with true by lia.
    repeat split; auto.
Qed.

(** C1, as the code has it. After a successful allocation (default policy or
    free callback) of a non-empty buffer of at most [kMaxLength] bytes on a
    fresh wrapper, [dispose] followed by the weak callback for the same
    wrapper runs the release policy once and decrements the accountant once:
    [dispose] does both, and the collector's pass changes neither the trace
    nor the accountant. *)
Theorem dispose_then_unreachable_releases_once
    (size_bits kMaxLength sizeof_cb_info : Z) (env env1 : Environment)
    (r : request) (buffer : ExternalArrayData) :
  platform size_bits kMaxLength sizeof_cb_info ->
  fresh_wrapper env (request_object r) ->
  allocate size_bits kMaxLength sizeof_cb_info r env = (Ok tt, env1) ->
  elements (get_object env1 (request_object r)) = Some buffer ->
  0 < byte_length buffer <= kMaxLength ->
  exists env2 env3 : Environment,
    AllocDispose size_bits sizeof_cb_info (request_object r) env1 = (Ok tt, env2) /\
    onWrapperUnreachable size_bits sizeof_cb_info (request_object r) env2
      = (Ok tt, env3) /\
    count_releases (trace env3) = S (count_releases (trace env1)) /\
    count_decrements (trace env3) = S (count_decrements (trace env1)) /\
    trace env3 = trace env2 /\
    external_memory env3 = external_memory env2.
Proof.
  intros Hplat Hfresh Hrun Hbuf Hbytes.
  destruct (allocate_dispose_unreachable _ _ _ _ _ _ _
              Hplat Hfresh Hrun Hbuf Hbytes)
    as (env2 & env3 & added & Hd & Htr & Hrel & Hdec & _ & _ & Hgc & Htr3 & Hm3).
  exists env2, env3. repeat split; auto.
  - rewrite Htr3, Htr, count_releases_app. unfold count_releases at 2.
    rewrite Hrel. simpl. lia.
  - rewrite Htr3, Htr, count_decrements_app. unfold count_decrements at 2.
    rewrite Hdec. simpl. lia.
Qed.

Lemma platform_64 : platform 64 kMaxLength_node 24.
Proof.
  unfold platform, kMaxLength_node. vm_compute.
  repeat split; easy.
Qed.

Lemma fresh_wrapper_empty (obj : positive) : fresh_wrapper empty_environment obj.
Proof. split; [reflexivity | constructor]. Qed.

Lemma dispose_then_unreachable_releases_once_witness :
  exists env2 env3 : Environment,
    AllocDispose 64 24 1 allocated_wrapper = (Ok tt, env2) /\
    onWrapperUnreachable 64 24 1 env2 = (Ok tt, env3) /\
    count_releases (trace env3) = S (count_releases (trace allocated_wrapper)) /\
    count_decrements (trace env3)
      = S (count_decrements (trace allocated_wrapper)) /\
    trace env3 = trace env2 /\
    external_memory env3 = external_memory env2.
Proof.
  apply (dispose_then_unreachable_releases_once 64 kMaxLength_node 24
           empty_environment allocated_wrapper
           (ReqAlloc 1 (JSNumber 5) (Some kExternalIntArray) 1000)
           {| ea_data := 1000; ea_type := kExternalIntArray; ea_length := 5 |}).
  - exact platform_64.
  - apply fresh_wrapper_empty.
  - vm_compute. reflexivity.
  - vm_compute. reflexivity.
  - vm_compute. split; easy.
Defined.

(** C1 as stated fails in the reverse order. When the weak callback runs
    first on wrapper 1 and [dispose] second, the block at 1000 is freed
    twice and its 20 bytes leave the accountant twice. *)
Lemma unreachable_then_dispose_releases_twice :
  outcome_of (onWrapperUnreachable 64 24 1 allocated_wrapper) = Ok tt
  /\ outcome_of (AllocDispose 64 24 1 collected_wrapper) = Ok tt
  /\ trace (env_of (AllocDispose 64 24 1 collected_wrapper))
     = [EvMalloc 20 1000; EvAdjust 20;
        EvAdjust (-20); EvFree 1000;
        EvFree 1000; EvAdjust (-20)]
  /\ count_releases (trace (env_of (AllocDispose 64 24 1 collected_wrapper)))
     = 2%nat
  /\ count_decrements (trace (env_of (AllocDispose 64 24 1 collected_wrapper)))
     = 2%nat
  /\ external_memory (env_of (AllocDispose 64 24 1 collected_wrapper)) = -20.
Proof. vm_compute. repeat split; reflexivity. Qed.

(** ** [dispose] *)

(** C8, as the code has it. [AllocDispose] never ends with an exception.
    After a successful allocation (default policy or free callback) of a
    non-empty buffer of at most [kMaxLength] bytes on a fresh wrapper it
    returns, and what it added to the trace holds one release, by the policy
    of the request on the attached block, and one decrement, by the amount
    the allocation had added, so that the accountant is back at its value
    before the allocation; after the default path the wrapper presents the
    [NULL] block of length 0; the weak callback for the wrapper then changes
    neither the trace nor the accountant. *)
Theorem AllocDispose_releases_and_disarms
    (size_bits kMaxLength sizeof_cb_info : Z) (env env1 : Environment)
    (r : request) (buffer : ExternalArrayData) :
  platform size_bits kMaxLength sizeof_cb_info ->
  fresh_wrapper env (request_object r) ->
  allocate size_bits kMaxLength sizeof_cb_info r env = (Ok tt, env1) ->
  elements (get_object env1 (request_object r)) = Some buffer ->
  0 < byte_length buffer <= kMaxLength ->
  (forall obj : positive,
     never_throws (AllocDispose size_bits sizeof_cb_info obj)) /\
  exists (env2 env3 : Environment) (added : list event),
    AllocDispose size_bits sizeof_cb_info (request_object r) env1 = (Ok tt, env2) /\
    trace env2 = trace env1 ++ added /\
    List.filter is_release added = [release_event r (ea_data buffer)] /\
    List.filter is_decrement added
      = [EvAdjust (- (byte_length buffer + overhead sizeof_cb_info r))] /\
    external_memory env1
      = external_memory env + (byte_length buffer + overhead sizeof_cb_info r) /\
    external_memory env2 = external_memory env /\
    match r with
    | ReqAlloc obj _ _ _ =>
        GetIndexedPropertiesExternalArrayData (get_object env2 obj) = 0 /\
        GetIndexedPropertiesExternalArrayDataLength (get_object env2 obj) = 0
    | ReqAllocCb _ _ _ _ _ _ _ => True
    end /\
    onWrapperUnreachable size_bits sizeof_cb_info (request_object r) env2
      = (Ok tt, env3) /\
    trace env3 = trace env2 /\
    external_memory env3 = external_memory env2.
Proof.
  intros Hplat Hfresh Hrun Hbuf Hbytes.
  split; [intros obj; apply AllocDispose_never_throws |].
  destruct (allocate_dispose_unreachable _ _ _ _ _ _ _
              Hplat Hfresh Hrun Hbuf Hbytes)
    as (env2 & env3 & added & Hd & Htr & Hrel & Hdec & Hm1 & Hm2 & Hgc & Htr3 & Hm3).
  exists env2, env3, added. repeat split; auto.
  destruct r as [obj args1 args2 malloc_result | ]; [| exact I].
  simpl in *.
  destruct (Alloc_dispose_unreachable _ _ _ _ _ _ _ _ _ _
              Hplat Hfresh Hrun Hbuf ltac:(lia))
    as (env2' & _ & Hd' & _ & _ & _ & Hobj & _).
  rewrite Hd in Hd'. injection Hd' as <-.
  rewrite Hobj. split; reflexivity.
Qed.

Lemma AllocDispose_releases_and_disarms_witness :
  (forall obj : positive, never_throws (AllocDispose 64 24 obj)) /\
  exists (env2 env3 : Environment) (added : list event),
    AllocDispose 64 24 1 allocated_cb_wrapper = (Ok tt, env2) /\
    trace env2 = trace allocated_cb_wrapper ++ added /\
    List.filter is_release added = [EvFreeCallback 700 1000 800] /\
    List.filter is_decrement added = [EvAdjust (- (20 + 24))] /\
    external_memory allocated_cb_wrapper
      = external_memory empty_environment + (20 + 24) /\
    external_memory env2 = external_memory empty_environment /\
    True /\
    onWrapperUnreachable 64 24 1 env2 = (Ok tt, env3) /\
    trace env3 = trace env2 /\
    external_memory env3 = external_memory env2.
Proof.
  apply (AllocDispose_releases_and_disarms 64 kMaxLength_node 24
           empty_environment allocated_cb_wrapper
           (ReqAllocCb 1 5 700 800 kExternalIntArray (Some 1000) (Some 7000))
           {| ea_data := 1000; ea_type := kExternalIntArray; ea_length := 5 |}).
  - exact platform_64.
  - apply fresh_wrapper_empty.
  - vm_compute. reflexivity.
  - vm_compute. reflexivity.
  - vm_compute. split; easy.
Defined.

(** C8 as stated fails. [dispose] of wrapper 1 after its buffer was released
    returns normally and changes nothing, and [dispose] of the plain object 4
    does not end with an exception: neither fails with an invalid-state
    error. After [dispose] in the callback path the wrapper still reports
    external array data. *)
Lemma AllocDispose_no_InvalidState :
  AllocDispose 64 24 1 disposed_wrapper = (Ok tt, disposed_wrapper)
  /\ ~ (exists e : exception,
          outcome_of (AllocDispose 64 24 4 sample_environment) = Throw e)
  /\ outcome_of (AllocDispose 64 24 1 allocated_cb_wrapper) = Ok tt
  /\ HasExternalData 1 disposed_cb_wrapper = (Ok true, disposed_cb_wrapper).
Proof.
  split; [vm_compute; reflexivity |].
  split.
  { intros [e He].
    exact (AllocDispose_never_throws 64 24 4 sample_environment e
             (env_of (AllocDispose 64 24 4 sample_environment))
             (eq_trans (surjective_pairing _) (f_equal2 pair He eq_refl))). }
  split; vm_compute; reflexivity.
Qed.

(** ** The accountant over allocate/dispose pairs *)


(** Objects left alone or given external array data keep an environment
    well formed. *)
Lemma well_formed_objects (env env' : Environment) :
  well_formed env ->
  (forall obj : positive,
     objects env' !! obj = objects env !! obj \/
     exists o, objects env' !! obj = Some o /\ elements o <> None) ->
  well_formed env'.
Proof.
  intros Hwf Hobjs obj Hhid.
  destruct (Hobjs obj) as [Hsame | (o & Ho & Hel)].
  - unfold get_object in *. rewrite Hsame in *. apply Hwf. exact Hhid.
  - unfold get_object. rewrite Ho. exact Hel.
Qed.

Lemma well_formed_no_hidden (env : Environment) (obj : positive) :
  well_formed env ->
  elements (get_object env obj) = None ->
  smalloc_p (get_object env obj) = None.
Proof.
  intros Hwf Hnone.
  destruct (smalloc_p (get_object env obj)) as [p |] eqn:Hp; [| reflexivity].
  exfalso. apply (Hwf obj); [rewrite Hp; discriminate | exact Hnone].
Qed.

(** ** Allocations and disposals in any order *)

Lemma owed_frame (size_bits sizeof_cb_info : Z) (env env1 : Environment)
    (e : positive * option Z) :
  get_object env1 (fst e) = get_object env (fst e) ->
  owed size_bits sizeof_cb_info env1 e = owed size_bits sizeof_cb_info env e.
Proof. intros H. unfold owed. rewrite H. reflexivity. Qed.

Lemma total_owed_frame (size_bits sizeof_cb_info : Z) (env env1 : Environment)
    (live : list (positive * option Z)) :
  Forall (fun e => get_object env1 (fst e) = get_object env (fst e)) live ->
  total_owed size_bits sizeof_cb_info env1 live
    = total_owed size_bits sizeof_cb_info env live.
Proof.
  induction 1 as [| e live He _ IH]; simpl; [reflexivity |].
  rewrite IH, (owed_frame _ _ _ _ _ He). reflexivity.
Qed.

Lemma total_owed_app (size_bits sizeof_cb_info : Z) (env : Environment)
    (l1 l2 : list (positive * option Z)) :
  total_owed size_bits sizeof_cb_info env (l1 ++ l2)
    = total_owed size_bits sizeof_cb_info env l1
      + total_owed size_bits sizeof_cb_info env l2.
Proof. induction l1 as [| e l1 IH]; simpl; [reflexivity | rewrite IH; lia]. Qed.

(** A live wrapper stays live when its object, the callback flag and its
    record are left alone. *)
Lemma live_ok_frame (size_bits : Z) (env env1 : Environment)
    (e : positive * option Z) :
  live_ok size_bits env e ->
  get_object env1 (fst e) = get_object env (fst e) ->
  (using_smalloc_alloc_cb env = true -> using_smalloc_alloc_cb env1 = true) ->
  (forall c, snd e = Some c ->
             callback_infos env1 !! c = callback_infos env !! c) ->
  live_ok size_bits env1 e.
Proof.
  intros (buffer & Hobj & Hsize & Hcount & Hrest) Hsame Hflag Hrec.
  exists buffer. rewrite Hsame. repeat split; auto.
  destruct (snd e) as [c |]; [| exact Hrest].
  destruct Hrest as (Hb & Hu & info & Hinfo & Hp).
  repeat split; auto. exists info. rewrite (Hrec c eq_refl). auto.
Qed.

Lemma get_object_other (env env1 : Environment) (obj other : positive)
    (o : JSObject) :
  objects env1 = <[obj := o]> (objects env) -> other <> obj ->
  get_object env1 other = get_object env other.
Proof.
  intros H Hne. unfold get_object. rewrite H, lookup_insert_ne by congruence.
  reflexivity.
Qed.

(** A successful allocation makes its wrapper live, adds what it owes to the
    accountant and leaves the other objects and records alone. *)
Lemma allocate_step
    (size_bits kMaxLength sizeof_cb_info : Z) (r : request)
    (env env1 : Environment) :
  platform size_bits kMaxLength sizeof_cb_info ->
  well_formed env ->
  allocate size_bits kMaxLength sizeof_cb_info r env = (Ok tt, env1) ->
  elements (get_object env (request_object r)) = None /\
  live_ok size_bits env1 (request_object r, request_record r) /\
  external_memory env1
    = external_memory env
      + owed size_bits sizeof_cb_info env1 (request_object r, request_record r) /\
  well_formed env1 /\
  (forall o, o <> request_object r -> get_object env1 o = get_object env o) /\
  (using_smalloc_alloc_cb env = true -> using_smalloc_alloc_cb env1 = true) /\
  (forall c, request_record r <> Some c ->
             callback_infos env1 !! c = callback_infos env !! c).
Proof.
  intros Hplat Hwf Halloc.
  destruct (platform_bounds _ _ _ Hplat) as (Hw & Hhalf & H63 & Hmax & Hcb & Hsum).
  assert (Hw32 : 32 <= size_bits) by lia.
  destruct r as [obj args1 args2 malloc_result
                | obj length fn hint_ type new_data new_info]; simpl in *.
  - destruct (Alloc_Ok_inv _ _ _ _ _ _ _ _ Hw32 Halloc)
      as (data & length & type & Hnone & _ & Hsize & Hlen & Hmult & Hzero & Hnz & ->).
    pose proof (well_formed_no_hidden env obj Hwf Hnone) as Hhid.
    rewrite Hhid.
    split; [exact Hnone |].
    split.
    { eexists. split; [simpl; read_object |].
      simpl. unfold byte_length. simpl. rewrite Hmult.
      repeat split; auto; first [lia | apply Z.div_pos; lia]. }
    split.
    { unfold owed. simpl. erewrite get_object_lookup
        by (simpl; apply lookup_insert_eq).
      simpl. unfold byte_length. simpl. rewrite Hmult, int64_small; lia. }
    split.
    { apply (well_formed_objects env); [exact Hwf |]. intros o. simpl.
      destruct (decide (o = obj)) as [-> | Hne].
      - right. rewrite lookup_insert_eq.
        eexists; (split; [reflexivity | discriminate]).
      - left. rewrite lookup_insert_ne by congruence. reflexivity. }
    split.
    { intros o Hne. eapply get_object_other; [reflexivity | exact Hne]. }
    split; [auto |]. intros c _. reflexivity.
  - destruct (Alloc_length_cb_Ok_inv _ _ _ _ _ _ _ _ _ _ _ _ Hw32 Halloc)
      as (data & cb_info & bytes & -> & -> & Hnone & Hsize & Hb & Hmult & ->).
    pose proof (size_t_range size_bits (length * ExternalArraySize type)
                  ltac:(lia)) as Hrange.
    rewrite <- Hb in Hrange.
    split; [exact Hnone |].
    split.
    { eexists. split; [simpl; read_object |].
      simpl. unfold byte_length. simpl. rewrite Hmult.
      repeat split; auto;
        first [ lia | apply Z.div_pos; lia
              | eexists; split; [apply lookup_insert_eq | reflexivity] ]. }
    split.
    { unfold owed. simpl. erewrite get_object_lookup
        by (simpl; apply lookup_insert_eq).
      simpl. unfold byte_length. simpl. rewrite Hmult. reflexivity. }
    split.
    { apply (well_formed_objects env); [exact Hwf |]. intros o. simpl.
      destruct (decide (o = obj)) as [-> | Hne].
      - right. rewrite lookup_insert_eq.
        eexists; (split; [reflexivity | discriminate]).
      - left. rewrite !lookup_insert_ne by congruence. reflexivity. }
    split.
    { intros o Hne. unfold get_object. simpl.
      rewrite !lookup_insert_ne by congruence. reflexivity. }
    split; [auto |]. intros c Hc. apply lookup_insert_ne. congruence.
Qed.

(** A successful disposal of a live wrapper takes what it owes off the
    accountant and leaves the other objects and records alone. *)
Lemma dispose_step
    (size_bits kMaxLength sizeof_cb_info : Z) (obj : positive)
    (record : option Z) (env env' : Environment) :
  platform size_bits kMaxLength sizeof_cb_info ->
  well_formed env ->
  live_ok size_bits env (obj, record) ->
  AllocDispose size_bits sizeof_cb_info obj env = (Ok tt, env') ->
  external_memory env'
    = external_memory env - owed size_bits sizeof_cb_info env (obj, record) /\
  well_formed env' /\
  (forall o, o <> obj -> get_object env' o = get_object env o) /\
  using_smalloc_alloc_cb env' = using_smalloc_alloc_cb env /\
  (forall c, record <> Some c ->
             callback_infos env' !! c = callback_infos env !! c).
Proof.
  intros Hplat Hwf (buffer & Hobj & Hsize & Hcount & Hrest) Hrun.
  destruct (platform_bounds _ _ _ Hplat) as (Hw & Hhalf & H63 & Hmax & Hcb & Hsum).
  simpl in Hobj, Hrest.
  assert (Hel : elements (get_object env obj) = Some buffer)
    by (rewrite Hobj; reflexivity).
  assert (Hhid : smalloc_p (get_object env obj) = record)
    by (rewrite Hobj; reflexivity).
  unfold owed. simpl. rewrite Hel.
  destruct record as [cb_info |].
  - destruct Hrest as (Hbytes & Hflag & info & Hinfo & Hp).
    rewrite (AllocDispose_callback_run _ _ _ _ _ Hflag Hhid) in Hrun.
    rewrite (TargetFreeCallback_run size_bits sizeof_cb_info env cb_info info
               obj buffer ltac:(lia) Hinfo Hp Hel Hsize Hcount Hbytes) in Hrun.
    destruct ((ExternalArraySize (ea_type buffer) >? 1) && (ea_length buffer =? 0));
      [discriminate |].
    injection Hrun as <-. simpl.
    split; [lia |].
    split; [apply (well_formed_objects env); [exact Hwf | intros o; left; reflexivity] |].
    split; [intros o _; reflexivity |].
    split; [reflexivity |].
    intros c Hc. apply lookup_delete_ne. congruence.
  - rewrite (AllocDispose_default_run size_bits sizeof_cb_info env obj buffer
               Hw Hel Hhid Hsize Hcount Hrest) in Hrun.
    injection Hrun as <-. simpl.
    split; [destruct (byte_length buffer =? 0) eqn:Hz; lia |].
    split.
    { apply (well_formed_objects env); [exact Hwf |]. intros o. simpl.
      destruct (ea_data buffer =? 0); [left; reflexivity |].
      destruct (decide (o = obj)) as [-> | Hne].
      - right. rewrite lookup_insert_eq.
        eexists; (split; [reflexivity | discriminate]).
      - left. rewrite lookup_insert_ne by congruence. reflexivity. }
    split.
    { intros o Hne. unfold get_object. simpl.
      destruct (ea_data buffer =? 0); [reflexivity |].
      rewrite lookup_insert_ne by congruence. reflexivity. }
    split; [reflexivity |]. intros c _. reflexivity.
Qed.

Lemma filter_remove_entry (l1 l2 : list (positive * option Z))
    (obj : positive) (record : option Z) :
  obj ∉ (fst <$> l1) -> obj ∉ (fst <$> l2) ->
  filter (fun e => fst e <> obj) (l1 ++ (obj, record) :: l2) = l1 ++ l2.
Proof.
  intros H1 H2. rewrite filter_app.
  rewrite filter_cons_False by (simpl; intros H; apply H; reflexivity).
  assert (Hkeep : forall l : list (positive * option Z),
             obj ∉ (fst <$> l) -> filter (fun e => fst e <> obj) l = l).
  { intros l Hl. apply filter_all. apply Forall_forall. intros e He Heq.
    apply Hl. rewrite <- Heq. apply list_elem_of_fmap_2. exact He. }
  rewrite (Hkeep l1 H1), (Hkeep l2 H2). reflexivity.
Qed.

(** The accountant along any successful run: at the end it has lost what the
    wrappers live at the start owed. *)
Lemma run_operations_owed
    (size_bits kMaxLength sizeof_cb_info : Z) (ops : list operation) :
  platform size_bits kMaxLength sizeof_cb_info ->
  forall (live : list (positive * option Z)) (env env' : Environment),
    well_formed env ->
    NoDup (fst <$> live) ->
    Forall (live_ok size_bits env) live ->
    paired live ops ->
    run_operations size_bits kMaxLength sizeof_cb_info ops env = (Ok tt, env') ->
    external_memory env'
      = external_memory env - total_owed size_bits sizeof_cb_info env live.
Proof.
  intros Hplat.
  induction ops as [| op ops IH]; intros live env env' Hwf Hnodup Hlive Hpaired Hrun.
  - simpl in Hpaired. subst live. inversion Hrun. simpl. lia.
  - simpl in Hrun. apply bind_Ok_inv in Hrun as ([] & env1 & Hop & Hrest).
    destruct op as [r | obj]; simpl in Hop, Hpaired.
    + destruct Hpaired as [Hfreshrec Hpaired].
      destruct (allocate_step _ _ _ _ _ _ Hplat Hwf Hop)
        as (Hnone & Hnew & Hmem & Hwf1 & Hframe & Hflag & Hrecs).
      set (obj := request_object r) in *.
      assert (Hnotlive : obj ∉ (fst <$> live)).
      { intros Hin. apply list_elem_of_fmap_1 in Hin as (e & Hfst & He).
        rewrite Forall_forall in Hlive.
        destruct (Hlive e He) as (buffer & Hobj & _).
        rewrite <- Hfst in Hobj. rewrite Hobj in Hnone. discriminate. }
      assert (Hothers : Forall (fun e => get_object env1 (fst e)
                                          = get_object env (fst e)) live).
      { apply Forall_forall. intros e He. apply Hframe. intros Heq.
        apply Hnotlive. rewrite <- Heq. apply list_elem_of_fmap_2. exact He. }
      rewrite (IH ((obj, request_record r) :: live) env1 env' Hwf1).
      * simpl. rewrite (total_owed_frame _ _ _ _ _ Hothers). lia.
      * simpl. apply NoDup_cons. split; assumption.
      * constructor; [exact Hnew |].
        rewrite Forall_forall in Hlive, Hothers.
        apply Forall_forall. intros e He.
        apply (live_ok_frame size_bits env env1 e (Hlive e He) (Hothers e He) Hflag).
        intros c Hc. apply Hrecs. intros Hreq.
        apply (Hfreshrec c Hreq). rewrite <- Hc.
        apply list_elem_of_fmap_2. exact He.
      * exact Hpaired.
      * exact Hrest.
    + destruct Hpaired as [Hin Hpaired].
      apply list_elem_of_fmap_1 in Hin as ([obj' record] & Hfst & He).
      simpl in Hfst. subst obj'.
      destruct (list_elem_of_split _ _ He) as (l1 & l2 & ->).
      rewrite fmap_app, fmap_cons in Hnodup. simpl in Hnodup.
      apply NoDup_app in Hnodup as (Hnd1 & Hdisj & Hnd2).
      apply NoDup_cons in Hnd2 as [Hnot2 Hnd2].
      assert (Hnot1 : obj ∉ (fst <$> l1)).
      { intros H1. apply (Hdisj obj H1). apply elem_of_cons. left. reflexivity. }
      rewrite (filter_remove_entry l1 l2 obj record Hnot1 Hnot2) in Hpaired.
      apply Forall_app in Hlive as [Hlive1 Hlive2].
      apply Forall_cons in Hlive2 as [Hentry Hlive2].
      destruct (dispose_step _ _ _ _ _ _ _ Hplat Hwf Hentry Hop)
        as (Hmem & Hwf1 & Hframe & Hflag & Hrecs).
      assert (Hothers : forall l : list (positive * option Z),
                 obj ∉ (fst <$> l) ->
                 Forall (fun e => get_object env1 (fst e)
                                  = get_object env (fst e)) l).
      { intros l Hl. apply Forall_forall. intros e' He'. apply Hframe.
        intros Heq. apply Hl. rewrite <- Heq. apply list_elem_of_fmap_2.
        exact He'. }
      assert (Hkeep : forall l : list (positive * option Z),
                 obj ∉ (fst <$> l) -> Forall (live_ok size_bits env) l ->
                 Forall (live_ok size_bits env1) l).
      { intros l Hl Hok. pose proof (Hothers l Hl) as Hsame.
        rewrite Forall_forall in Hok, Hsame.
        apply Forall_forall. intros e' He'.
        apply (live_ok_frame size_bits env env1 e' (Hok e' He') (Hsame e' He')).
        - rewrite Hflag. auto.
        - intros c Hc. apply Hrecs. intros ->.
          destruct (Hok e' He') as (b' & _ & _ & _ & Hrest').
          rewrite Hc in Hrest'.
          destruct Hrest' as (_ & _ & info' & Hinfo' & Hp').
          destruct Hentry as (b & _ & _ & _ & Hrest0). simpl in Hrest0.
          destruct Hrest0 as (_ & _ & info & Hinfo & Hp).
          rewrite Hinfo in Hinfo'. injection Hinfo' as <-.
          rewrite Hp in Hp'. injection Hp' as Heq.
          apply Hl. rewrite Heq. apply list_elem_of_fmap_2. exact He'. }
      rewrite (IH (l1 ++ l2) env1 env' Hwf1).
      * rewrite !total_owed_app. simpl.
        rewrite (total_owed_frame _ _ _ _ _ (Hothers l1 Hnot1)).
        rewrite (total_owed_frame _ _ _ _ _ (Hothers l2 Hnot2)). lia.
      * rewrite fmap_app. apply NoDup_app. repeat split; auto.
        intros x H1 H2. apply (Hdisj x H1). apply elem_of_cons. right. exact H2.
      * apply Forall_app. split; [apply Hkeep | apply Hkeep]; assumption.
      * exact Hpaired.
      * exact Hrest.
Qed.




(** ** Pairs run one after the other *)

Lemma bind_assoc {A B C : Type} (m : M A) (k : A -> M B) (h : B -> M C) env :
  bind (bind m k) h env = bind m (fun a => bind (k a) h) env.
Proof.
  unfold bind. destruct (m env) as [[a | e | c | l s | | s] env1]; reflexivity.
Qed.

Lemma bind_ext {A B : Type} (m : M A) (k1 k2 : A -> M B) env :
  (forall a env1, k1 a env1 = k2 a env1) -> bind m k1 env = bind m k2 env.
Proof.
  intros H. unfold bind.
  destruct (m env) as [[a | e | c | l s | | s] env1]; auto.
Qed.

Lemma run_operations_of_pairs
    (size_bits kMaxLength sizeof_cb_info : Z) (rs : list request)
    (env : Environment) :
  run_operations size_bits kMaxLength sizeof_cb_info (operations_of_pairs rs) env
    = allocate_dispose_pairs size_bits kMaxLength sizeof_cb_info rs env.
Proof.
  revert env. induction rs as [| r rs IH]; intros env; [reflexivity |].
  simpl. unfold allocate_dispose. rewrite bind_assoc.
  apply bind_ext. intros [] env1. apply bind_ext. intros [] env2. apply IH.
Qed.

Lemma paired_operations_of_pairs (rs : list request) :
  paired [] (operations_of_pairs rs).
Proof.
  induction rs as [| r rs IH]; [reflexivity |]. simpl.
  split; [intros c _; apply not_elem_of_nil |].
  split; [apply elem_of_cons; left; reflexivity |].
  rewrite filter_cons_False by (simpl; intros H; apply H; reflexivity).
  exact IH.
Qed.

(** Allocate/dispose pairs run back to back are one case of the above. *)
Corollary allocate_dispose_pairs_balanced
    (size_bits kMaxLength sizeof_cb_info : Z) (rs : list request)
    (env env' : Environment) :
  platform size_bits kMaxLength sizeof_cb_info ->
  well_formed env ->
  allocate_dispose_pairs size_bits kMaxLength sizeof_cb_info rs env
    = (Ok tt, env') ->
  external_memory env' = external_memory env.
Proof.
  intros Hplat Hwf Hrun. rewrite <- run_operations_of_pairs in Hrun.
  rewrite (run_operations_owed _ _ _ (operations_of_pairs rs) Hplat
             [] env env' Hwf);
    [ simpl; lia | constructor | constructor
    | apply paired_operations_of_pairs | exact Hrun ].
Qed.

(** * Further properties of the code *)

(** ** [CopyOnto]: outcomes and effects *)

Lemma CopyOnto_scale_cases
    (size_bits source_size dest_size sl cl dl : Z) (env : Environment) :
  (exists e, CopyOnto_scale size_bits source_size dest_size sl cl dl env
               = (Throw e, env))
  \/ (exists l, CopyOnto_scale size_bits source_size dest_size sl cl dl env
                  = (Ok l, env)).
Proof.
  unfold CopyOnto_scale, ThrowTypeError, ThrowRangeError, throw, ret.
  repeat match goal with
         | |- context [if ?c then _ else _] => destruct c
         end; eauto.
Qed.

Lemma CopyOnto_check_cases
    (size_bits source_start dest_start sl cl dl : Z) (env : Environment) :
  (exists e, CopyOnto_check size_bits source_start dest_start sl cl dl env
               = (Throw e, env))
  \/ (CopyOnto_check size_bits source_start dest_start sl cl dl env = (Ok tt, env)
      /\ cl <= sl /\ cl <= dl /\ source_start <= sl /\ dest_start <= dl
      /\ size_t size_bits (source_start + cl) <= sl
      /\ size_t size_bits (dest_start + cl) <= dl).
Proof.
  unfold CopyOnto_check, ThrowRangeError, throw, ret.
  destruct (cl >? sl) eqn:H1; [eauto |].
  destruct (cl >? dl) eqn:H2; [eauto |].
  destruct (source_start >? sl) eqn:H3; [eauto |].
  destruct (dest_start >? dl) eqn:H4; [eauto |].
  destruct (size_t size_bits (source_start + cl) >? sl) eqn:H5; [eauto |].
  destruct (size_t size_bits (dest_start + cl) >? dl) eqn:H6; [eauto |].
  right. repeat split; lia.
Qed.

(** Every call of [CopyOnto] either throws and leaves the environment as it
    was, or passes all checks and is the [memmove]. *)
Lemma CopyOnto_cases
    (size_bits : Z) (args0 args1 args2 args3 args4 : Value) (env : Environment) :
  (exists e, CopyOnto size_bits args0 args1 args2 args3 args4 env = (Throw e, env))
  \/ exists (source dest : positive) (sb db : ExternalArrayData) (sl cl dl : Z),
       args0 = JSObjectRef source /\ args2 = JSObjectRef dest /\
       elements (get_object env source) = Some sb /\
       elements (get_object env dest) = Some db /\
       CopyOnto_scale size_bits
         (ExternalArraySize (ea_type sb)) (ExternalArraySize (ea_type db))
         (size_t size_bits (ea_length sb))
         (size_t size_bits (Uint32Value args4))
         (size_t size_bits (ea_length db)) env = (Ok (sl, cl, dl), env) /\
       cl <= sl /\ cl <= dl /\
       size_t size_bits (Uint32Value args1) <= sl /\
       size_t size_bits (Uint32Value args3) <= dl /\
       size_t size_bits (size_t size_bits (Uint32Value args1) + cl) <= sl /\
       size_t size_bits (size_t size_bits (Uint32Value args3) + cl) <= dl /\
       CopyOnto size_bits args0 args1 args2 args3 args4 env
         = memmove (ea_data db + size_t size_bits (Uint32Value args3))
             (ea_data sb + size_t size_bits (Uint32Value args1)) cl env.
Proof.
  unfold CopyOnto.
  destruct args0 as [| n0 | source]; simpl;
    try (left; eexists; reflexivity).
  destruct args2 as [| n2 | dest]; simpl;
    try (left; eexists; reflexivity).
  rewrite (bind_Ok _ _ _ _ _ (eq_refl : As_Object (JSObjectRef source) env = _)).
  rewrite (bind_Ok _ _ _ _ _ (eq_refl : As_Object (JSObjectRef dest) env = _)).
  rewrite (bind_Ok _ _ _ _ _ (the_object_run env source)).
  rewrite (bind_Ok _ _ _ _ _ (the_object_run env dest)).
  unfold HasIndexedPropertiesInExternalArrayData,
    GetIndexedPropertiesExternalArrayDataLength,
    GetIndexedPropertiesExternalArrayDataType,
    GetIndexedPropertiesExternalArrayData.
  destruct (elements (get_object env source)) as [sb |] eqn:Hsb; simpl;
    [| left; eexists; reflexivity].
  destruct (elements (get_object env dest)) as [db |] eqn:Hdb; simpl;
    [| left; eexists; reflexivity].
  destruct (CopyOnto_scale_cases size_bits
              (ExternalArraySize (ea_type sb)) (ExternalArraySize (ea_type db))
              (size_t size_bits (ea_length sb))
              (size_t size_bits (Uint32Value args4))
              (size_t size_bits (ea_length db)) env)
    as [[e He] | [[[sl cl] dl] Hl]].
  { left. exists e. unfold bind at 1. rewrite He. reflexivity. }
  rewrite (bind_Ok _ _ _ _ _ Hl).
  destruct (CopyOnto_check_cases size_bits
              (size_t size_bits (Uint32Value args1))
              (size_t size_bits (Uint32Value args3)) sl cl dl env)
    as [[e He] | (Hc & H1 & H2 & H3 & H4 & H5 & H6)].
  { left. exists e. unfold bind at 1. rewrite He. reflexivity. }
  right. exists source, dest, sb, db, sl, cl, dl.
  rewrite (bind_Ok _ _ _ _ _ Hc). repeat split; auto.
Qed.

(** X1. A call of [CopyOnto] that does not return normally has thrown an
    exception (it never stops at an assertion, a fatal error or undefined
    behaviour), and it has left the whole environment as it was. *)
Theorem CopyOnto_rejected_is_noop
    (size_bits : Z) (args0 args1 args2 args3 args4 : Value) (env : Environment) :
  outcome_of (CopyOnto size_bits args0 args1 args2 args3 args4 env) = Ok tt
  \/ exists e : exception,
       CopyOnto size_bits args0 args1 args2 args3 args4 env = (Throw e, env).
Proof.
  destruct (CopyOnto_cases size_bits args0 args1 args2 args3 args4 env)
    as [He | (source & dest & sb & db & sl & cl & dl & H)].
  - right. exact He.
  - left. destruct H as (_ & _ & _ & _ & _ & _ & _ & _ & _ & _ & _ & ->).
    reflexivity.
Qed.

(** X2. Whatever its arguments and its outcome, [CopyOnto] changes nothing
    but native memory: objects, callback records, weak handles, the
    accountant, the callback flag and the trace stay as they were. *)
Theorem CopyOnto_changes_only_memory
    (size_bits : Z) (args0 args1 args2 args3 args4 : Value) (env : Environment) :
  set_memory
    (fun _ => memory env)
    (env_of (CopyOnto size_bits args0 args1 args2 args3 args4 env))
  = env.
Proof.
  destruct (CopyOnto_cases size_bits args0 args1 args2 args3 args4 env)
    as [[e ->] | (source & dest & sb & db & sl & cl & dl & H)].
  - destruct env; reflexivity.
  - destruct H as (_ & _ & _ & _ & _ & _ & _ & _ & _ & _ & _ & ->).
    destruct env; reflexivity.
Qed.

Lemma CopyOnto_scale_Ok_inv
    (size_bits source_size dest_size sl0 cl0 dl0 sl cl dl : Z)
    (env env' : Environment) :
  CopyOnto_scale size_bits source_size dest_size sl0 cl0 dl0 env
    = (Ok (sl, cl, dl), env') ->
  (negb (source_size =? 1) && negb (dest_size =? 1) = true /\
   source_size <> 0 /\ dest_size <> 0 /\
   sl = size_t size_bits (sl0 * source_size) /\
   cl = size_t size_bits (cl0 * source_size) /\
   dl = size_t size_bits (dl0 * dest_size) /\
   sl0 <= sl /\ cl0 <= cl /\ dl0 <= dl)
  \/ (negb (source_size =? 1) && negb (dest_size =? 1) = false /\
      sl = sl0 /\ cl = cl0 /\ dl = dl0).
Proof.
  unfold CopyOnto_scale, ThrowTypeError, ThrowRangeError, throw, ret.
  destruct (negb (source_size =? 1) && negb (dest_size =? 1)).
  - destruct (source_size =? 0) eqn:H0; [discriminate |].
    destruct (dest_size =? 0) eqn:H0'; [discriminate |].
    destruct (size_t size_bits (sl0 * source_size) <? sl0) eqn:H1; [discriminate |].
    destruct (size_t size_bits (cl0 * source_size) <? cl0) eqn:H2; [discriminate |].
    destruct (size_t size_bits (dl0 * dest_size) <? dl0) eqn:H3; [discriminate |].
    intros H. inversion H; subst. left. repeat split; lia.
  - intros H. inversion H; subst. right. auto.
Qed.

(** The memory a successful [CopyOnto] leaves. *)
Lemma CopyOnto_Ok_memory
    (size_bits : Z) (env env' : Environment) (source dest : positive)
    (args1 args3 args4 : Value) (sb db : ExternalArrayData) :
  32 <= size_bits ->
  elements (get_object env source) = Some sb ->
  elements (get_object env dest) = Some db ->
  CopyOnto size_bits (JSObjectRef source) args1 (JSObjectRef dest) args3 args4 env
    = (Ok tt, env') ->
  forall a : Z,
    memory env' a
    = if (ea_data db + Uint32Value args3 <=? a)
         && (a <? ea_data db + Uint32Value args3 + moved_length size_bits sb db args4)
      then memory env (ea_data sb + Uint32Value args1
                       + (a - (ea_data db + Uint32Value args3)))
      else memory env a.
Proof.
  intros Hw Hsb Hdb Hrun a.
  destruct (CopyOnto_cases size_bits (JSObjectRef source) args1 (JSObjectRef dest)
              args3 args4 env)
    as [[e He] | (source' & dest' & sb' & db' & sl & cl & dl & H)].
  { rewrite He in Hrun. discriminate. }
  destruct H as (Hs & Hd & Hsb' & Hdb' & Hscale & _ & _ & _ & _ & _ & _ & Heq).
  injection Hs as <-. injection Hd as <-.
  rewrite Hsb in Hsb'. injection Hsb' as <-.
  rewrite Hdb in Hdb'. injection Hdb' as <-.
  rewrite Heq in Hrun. injection Hrun as <-.
  rewrite !size_t_Uint32Value in * by exact Hw.
  assert (Hcl : cl = moved_length size_bits sb db args4).
  { unfold moved_length.
    destruct (CopyOnto_scale_Ok_inv _ _ _ _ _ _ _ _ _ _ _ Hscale)
      as [(-> & _ & _ & _ & -> & _) | (-> & _ & -> & _)]; reflexivity. }
  rewrite <- Hcl. reflexivity.
Qed.

(** X3. After a successful [CopyOnto] between two attached buffers, the
    bytes of the destination range hold what the source range held before
    the call (also when the two ranges overlap), and every other byte of
    memory is as before. The ranges start at the given offsets, taken in
    bytes, and have [moved_length] bytes. *)
Theorem CopyOnto_moves_bytes
    (size_bits : Z) (env env' : Environment) (source dest : positive)
    (args1 args3 args4 : Value) (sb db : ExternalArrayData) :
  32 <= size_bits ->
  elements (get_object env source) = Some sb ->
  elements (get_object env dest) = Some db ->
  CopyOnto size_bits (JSObjectRef source) args1 (JSObjectRef dest) args3 args4 env
    = (Ok tt, env') ->
  forall a : Z,
    memory env' a
    = if (ea_data db + Uint32Value args3 <=? a)
         && (a <? ea_data db + Uint32Value args3 + moved_length size_bits sb db args4)
      then memory env (ea_data sb + Uint32Value args1
                       + (a - (ea_data db + Uint32Value args3)))
      else memory env a.
Proof.
  intros Hw Hsb Hdb Hrun.
  exact (CopyOnto_Ok_memory size_bits env env' source dest args1 args3 args4
           sb db Hw Hsb Hdb Hrun).
Qed.

Lemma CopyOnto_moves_bytes_witness :
  memory (env_of (CopyOnto 64 (JSObjectRef 2) (JSNumber 0) (JSObjectRef 3)
                    (JSNumber 2) (JSNumber 8) sample_environment)) 3005
  = if (3000 + 2 <=? 3005) && (3005 <? 3000 + 2 + 8)
    then memory sample_environment (2000 + 0 + (3005 - (3000 + 2)))
    else memory sample_environment 3005.
Proof.
  refine (CopyOnto_moves_bytes 64 sample_environment
            (env_of (CopyOnto 64 (JSObjectRef 2) (JSNumber 0) (JSObjectRef 3)
                       (JSNumber 2) (JSNumber 8) sample_environment))
            2 3 (JSNumber 0) (JSNumber 2) (JSNumber 8)
            {| ea_data := 2000; ea_type := kExternalUnsignedByteArray;
               ea_length := 40 |}
            {| ea_data := 3000; ea_type := kExternalUnsignedByteArray;
               ea_length := 10 |} _ _ _ _ 3005).
  - lia.
  - reflexivity.
  - reflexivity.
  - vm_compute. reflexivity.
Defined.

(** X4. A successful [CopyOnto] between buffers of recognised kinds, each
    shorter than half the range of [size_t], stays inside them: the range
    read lies in the source buffer, the range written in the destination
    buffer, and no byte outside the destination buffer changes. *)
Theorem CopyOnto_stays_in_bounds
    (size_bits : Z) (env env' : Environment) (source dest : positive)
    (args1 args3 args4 : Value) (sb db : ExternalArrayData) :
  32 <= size_bits ->
  elements (get_object env source) = Some sb ->
  elements (get_object env dest) = Some db ->
  0 < ExternalArraySize (ea_type sb) -> 0 <= ea_length sb ->
  0 < ExternalArraySize (ea_type db) -> 0 <= ea_length db ->
  byte_length sb < 2 ^ (size_bits - 1) ->
  byte_length db < 2 ^ (size_bits - 1) ->
  CopyOnto size_bits (JSObjectRef source) args1 (JSObjectRef dest) args3 args4 env
    = (Ok tt, env') ->
  0 <= moved_length size_bits sb db args4 /\
  Uint32Value args1 + moved_length size_bits sb db args4 <= byte_length sb /\
  Uint32Value args3 + moved_length size_bits sb db args4 <= byte_length db /\
  forall a : Z,
    ~ (ea_data db <= a < ea_data db + byte_length db) ->
    memory env' a = memory env a.
Proof.
  intros Hw Hsb Hdb Hss Hsc Hds Hdc Hsbytes Hdbytes Hrun.
  pose proof (pow2_half size_bits ltac:(lia)) as Hhalf.
  pose proof (Uint32Value_range args1) as H1.
  pose proof (Uint32Value_range args3) as H3.
  pose proof (Uint32Value_range args4) as H4.
  assert (Hbounds :
    0 <= moved_length size_bits sb db args4 /\
    Uint32Value args1 + moved_length size_bits sb db args4 <= byte_length sb /\
    Uint32Value args3 + moved_length size_bits sb db args4 <= byte_length db).
  { destruct (CopyOnto_cases size_bits (JSObjectRef source) args1
                (JSObjectRef dest) args3 args4 env)
      as [[e He] | (source' & dest' & sb' & db' & sl & cl & dl & H)].
    { rewrite He in Hrun. discriminate. }
    destruct H as (Hs & Hd & Hsb' & Hdb' & Hscale & C1 & C2 & C3 & C4 & C5 & C6 & _).
    injection Hs as <-. injection Hd as <-.
    rewrite Hsb in Hsb'. injection Hsb' as <-.
    rewrite Hdb in Hdb'. injection Hdb' as <-.
    rewrite !size_t_Uint32Value in * by exact Hw.
    unfold byte_length in *.
    set (ssz := ExternalArraySize (ea_type sb)) in *.
    set (dsz := ExternalArraySize (ea_type db)) in *.
    rewrite (size_t_small size_bits (ea_length sb)) in Hscale by nia.
    rewrite (size_t_small size_bits (ea_length db)) in Hscale by nia.
    unfold moved_length. fold ssz dsz.
    destruct (CopyOnto_scale_Ok_inv _ _ _ _ _ _ _ _ _ _ _ Hscale)
      as [(-> & _ & _ & Hsl & Hcl & Hdl & _) | (-> & Hsl & Hcl & Hdl)].
    - rewrite (size_t_small size_bits (ea_length sb * ssz)) in Hsl by lia.
      rewrite (size_t_small size_bits (ea_length db * dsz)) in Hdl by lia.
      rewrite <- Hcl.
      assert (0 <= cl) by (rewrite Hcl; apply size_t_range; lia).
      rewrite (size_t_small size_bits (Uint32Value args1 + cl)) in C5 by lia.
      rewrite (size_t_small size_bits (Uint32Value args3 + cl)) in C6 by lia.
      lia.
    - subst sl cl dl.
      rewrite (size_t_small size_bits (Uint32Value args1 + Uint32Value args4))
        in C5 by nia.
      rewrite (size_t_small size_bits (Uint32Value args3 + Uint32Value args4))
        in C6 by nia.
      nia. }
  destruct Hbounds as (B0 & B1 & B2). repeat split; auto.
  intros a Ha.
  rewrite (CopyOnto_Ok_memory size_bits env env' source dest args1 args3 args4
             sb db Hw Hsb Hdb Hrun a).
  destruct ((ea_data db + Uint32Value args3 <=? a)
            && (a <? ea_data db + Uint32Value args3
                     + moved_length size_bits sb db args4)) eqn:Hin;
    [| reflexivity].
  exfalso. apply Ha. lia.
Qed.

Lemma CopyOnto_stays_in_bounds_witness :
  0 <= 8 /\ 0 + 8 <= 40 /\ 2 + 8 <= 10 /\
  forall a : Z,
    ~ (3000 <= a < 3000 + 10) ->
    memory (env_of (CopyOnto 64 (JSObjectRef 2) (JSNumber 0) (JSObjectRef 3)
                      (JSNumber 2) (JSNumber 8) sample_environment)) a
    = memory sample_environment a.
Proof.
  apply (CopyOnto_stays_in_bounds 64 sample_environment
           (env_of (CopyOnto 64 (JSObjectRef 2) (JSNumber 0) (JSObjectRef 3)
                      (JSNumber 2) (JSNumber 8) sample_environment))
           2 3 (JSNumber 0) (JSNumber 2) (JSNumber 8)
           {| ea_data := 2000; ea_type := kExternalUnsignedByteArray;
              ea_length := 40 |}
           {| ea_data := 3000; ea_type := kExternalUnsignedByteArray;
              ea_length := 10 |}).
  - lia.
  - reflexivity.
  - reflexivity.
  - reflexivity.
  - simpl. lia.
  - reflexivity.
  - simpl. lia.
  - reflexivity.
  - reflexivity.
  - vm_compute. reflexivity.
Defined.

(** ** [CopyOnto]: the checks of the scaling block *)

Lemma CopyOnto_check_not_TypeError
    (size_bits source_start dest_start sl cl dl : Z) (env env' : Environment)
    (k : unit -> M unit) (message : string) :
  never_throws (k tt) ->
  bind (CopyOnto_check size_bits source_start dest_start sl cl dl) k env
    <> (Throw (TypeError message), env').
Proof.
  intros Hk.
  destruct (CopyOnto_check_cases size_bits source_start dest_start sl cl dl env)
    as [[e He] | [Hc _]].
  - unfold bind. rewrite He. revert He.
    unfold CopyOnto_check, ThrowRangeError, throw, ret.
    repeat match goal with
           | |- context [if ?c then _ else _] => destruct c
           end; intros H; inversion H; discriminate.
  - rewrite (bind_Ok _ _ _ _ _ Hc). apply Hk.
Qed.

(** X5. Between two attached buffers, [CopyOnto] throws "unknown source
    external array type" exactly when the source kind has width 0 and the
    destination width is not 1, and "unknown dest external array type"
    exactly when the destination kind has width 0 and the source width is
    neither 0 nor 1: next to a single-byte buffer an unrecognised kind is
    not rejected. *)
Theorem CopyOnto_unknown_kind_errors
    (size_bits : Z) (env : Environment) (source dest : positive)
    (args1 args3 args4 : Value) (sb db : ExternalArrayData) :
  elements (get_object env source) = Some sb ->
  elements (get_object env dest) = Some db ->
  (CopyOnto size_bits (JSObjectRef source) args1 (JSObjectRef dest) args3 args4 env
     = (Throw (TypeError "unknown source external array type"), env)
   <-> ExternalArraySize (ea_type sb) = 0 /\ ExternalArraySize (ea_type db) <> 1)
  /\
  (CopyOnto size_bits (JSObjectRef source) args1 (JSObjectRef dest) args3 args4 env
     = (Throw (TypeError "unknown dest external array type"), env)
   <-> ExternalArraySize (ea_type db) = 0 /\
       ExternalArraySize (ea_type sb) <> 0 /\
       ExternalArraySize (ea_type sb) <> 1).
Proof.
  intros Hsb Hdb.
  unfold CopyOnto. simpl.
  rewrite (bind_Ok _ _ _ _ _ (eq_refl : As_Object (JSObjectRef source) env = _)).
  rewrite (bind_Ok _ _ _ _ _ (eq_refl : As_Object (JSObjectRef dest) env = _)).
  rewrite (bind_Ok _ _ _ _ _ (the_object_run env source)).
  rewrite (bind_Ok _ _ _ _ _ (the_object_run env dest)).
  rewrite (has_elements_Some _ _ Hsb), (has_elements_Some _ _ Hdb). simpl.
  unfold GetIndexedPropertiesExternalArrayDataLength,
    GetIndexedPropertiesExternalArrayDataType,
    GetIndexedPropertiesExternalArrayData.
  rewrite Hsb, Hdb.
  set (ssz := ExternalArraySize (ea_type sb)).
  set (dsz := ExternalArraySize (ea_type db)).
  assert (Htail : forall (l : Z * Z * Z) (m : string) (env' : Environment),
            (let '(sl, cl, dl) := l in
             bind (CopyOnto_check size_bits (size_t size_bits (Uint32Value args1))
                     (size_t size_bits (Uint32Value args3)) sl cl dl)
               (fun _ => memmove (ea_data db + size_t size_bits (Uint32Value args3))
                           (ea_data sb + size_t size_bits (Uint32Value args1)) cl))
              env <> (Throw (TypeError m), env')).
  { intros [[sl cl] dl] m env'. apply CopyOnto_check_not_TypeError.
    apply never_throws_modify. }
  unfold bind at 1. unfold bind at 2.
  unfold CopyOnto_scale, ThrowTypeError, ThrowRangeError, throw, ret.
  destruct (ssz =? 1) eqn:Hs1; destruct (dsz =? 1) eqn:Hd1; simpl;
    try (split; (split; [intros H; exfalso; exact (Htail (_, _, _) _ _ H) | intros; lia])).
  destruct (ssz =? 0) eqn:Hs0.
  { split; (split; [intros H; try discriminate H; repeat split; lia
                   | intros; try lia; reflexivity]). }
  destruct (dsz =? 0) eqn:Hd0.
  { split; (split; [intros H; try discriminate H; repeat split; lia
                   | intros; try lia; reflexivity]). }
  repeat match goal with
         | |- context [if ?c then _ else _] => destruct c
         end;
    split; (split; [ intros H; try discriminate H;
                     exfalso; exact (Htail (_, _, _) _ _ H)
                   | intros; lia ]).
Qed.

Lemma CopyOnto_unknown_kind_errors_witness :
  (CopyOnto 64 (JSObjectRef 5) (JSNumber 0) (JSObjectRef 1) (JSNumber 0)
     (JSNumber 2) unknown_kind_environment
     = (Throw (TypeError "unknown source external array type"),
        unknown_kind_environment)
   <-> ExternalArraySize (kExternalOther 42) = 0
       /\ ExternalArraySize kExternalIntArray <> 1)
  /\
  (CopyOnto 64 (JSObjectRef 5) (JSNumber 0) (JSObjectRef 1) (JSNumber 0)
     (JSNumber 2) unknown_kind_environment
     = (Throw (TypeError "unknown dest external array type"),
        unknown_kind_environment)
   <-> ExternalArraySize kExternalIntArray = 0 /\
       ExternalArraySize (kExternalOther 42) <> 0 /\
       ExternalArraySize (kExternalOther 42) <> 1).
Proof.
  apply (CopyOnto_unknown_kind_errors 64 unknown_kind_environment 5 1
           (JSNumber 0) (JSNumber 0) (JSNumber 2)
           {| ea_data := 4000; ea_type := kExternalOther 42; ea_length := 4 |}
           {| ea_data := 1000; ea_type := kExternalIntArray; ea_length := 10 |}).
  - reflexivity.
  - reflexivity.
Defined.

(** X6. With a [size_t] of at least 36 bits, lengths below 2^32 and the
    widths of any two element kinds, the scaling block of [CopyOnto] never
    reports an overflow: it yields the lengths or an unknown-kind error. *)
Theorem CopyOnto_scale_never_overflows
    (size_bits : Z) (source_type dest_type : ExternalArrayType)
    (sl cl dl : Z) (env env' : Environment) (message : string) :
  36 <= size_bits ->
  0 <= sl < 2 ^ 32 -> 0 <= cl < 2 ^ 32 -> 0 <= dl < 2 ^ 32 ->
  CopyOnto_scale size_bits (ExternalArraySize source_type)
    (ExternalArraySize dest_type) sl cl dl env
    <> (Throw (RangeError message), env').
Proof.
  intros Hw Hsl Hcl Hdl.
  assert (H36 : 2 ^ 36 <= 2 ^ size_bits) by (apply Z.pow_le_mono_r; lia).
  assert (Hs : 0 <= ExternalArraySize source_type <= 8)
    by (destruct source_type; simpl; lia).
  assert (Hd : 0 <= ExternalArraySize dest_type <= 8)
    by (destruct dest_type; simpl; lia).
  unfold CopyOnto_scale, ThrowTypeError, ThrowRangeError, throw, ret.
  rewrite !size_t_small by nia.
  destruct (negb (ExternalArraySize source_type =? 1)
            && negb (ExternalArraySize dest_type =? 1)); [| discriminate].
  destruct (ExternalArraySize source_type =? 0) eqn:H0; [discriminate |].
  destruct (ExternalArraySize dest_type =? 0) eqn:H0'; [discriminate |].
  replace (sl * ExternalArraySize source_type <? sl) with false by nia.
  replace (cl * ExternalArraySize source_type <? cl) with false by nia.
  replace (dl * ExternalArraySize dest_type <? dl) with false by nia.
  discriminate.
Qed.

Lemma CopyOnto_scale_never_overflows_witness :
  CopyOnto_scale 64 (ExternalArraySize kExternalDoubleArray)
    (ExternalArraySize kExternalIntArray) 4294967295 4294967295 4294967295
    sample_environment
    <> (Throw (RangeError "copy_length * source_size overflow"),
        sample_environment).
Proof.
  apply CopyOnto_scale_never_overflows; lia.
Defined.

(** ** [SliceOnto]: outcomes and effects *)

(** Every call of [SliceOnto] either stops at an assertion with the
    environment as it was, or attaches a buffer to [dest] and returns
    [source]. *)
Lemma SliceOnto_cases
    (size_bits : Z) (source dest : positive) (args2 args3 : Value)
    (env : Environment) :
  (exists c, SliceOnto size_bits source dest args2 args3 env = (AssertFail c, env))
  \/ exists sb : ExternalArrayData,
       elements (get_object env source) = Some sb /\
       elements (get_object env dest) = None /\
       ExternalArraySize (ea_type sb) <> 0 /\
       size_t size_bits (Uint32Value args2) <= size_t size_bits (Uint32Value args3)
         <= size_t size_bits (ea_length sb) /\
       SliceOnto size_bits source dest args2 args3 env
         = (Ok source,
            set_objects
              <[dest :=
                  {| elements :=
                       Some {| ea_data := ea_data sb
                                          + size_t size_bits (Uint32Value args2);
                               ea_type := ea_type sb;
                               ea_length :=
                                 if ExternalArraySize (ea_type sb) >? 1
                                 then size_t size_bits
                                        (size_t size_bits
                                           (size_t size_bits (Uint32Value args3)
                                            - size_t size_bits (Uint32Value args2))
                                         * ExternalArraySize (ea_type sb))
                                 else size_t size_bits
                                        (size_t size_bits (Uint32Value args3)
                                         - size_t size_bits (Uint32Value args2)) |};
                     smalloc_p := smalloc_p (get_object env dest) |}]> env).
Proof.
  unfold SliceOnto.
  rewrite (bind_Ok _ _ _ _ _ (the_object_run env source)).
  rewrite (bind_Ok _ _ _ _ _ (the_object_run env dest)).
  unfold HasIndexedPropertiesInExternalArrayData,
    GetIndexedPropertiesExternalArrayDataLength,
    GetIndexedPropertiesExternalArrayDataType,
    GetIndexedPropertiesExternalArrayData.
  destruct (elements (get_object env source)) as [sb |] eqn:Hsb;
    [| left; eexists; reflexivity].
  destruct (elements (get_object env dest)) as [db |] eqn:Hdb;
    [left; eexists; reflexivity |].
  unfold bind at 1. unfold assert at 1. unfold bind at 1. unfold assert at 1.
  simpl.
  unfold bind at 1. unfold assert at 1.
  destruct (ExternalArraySize (ea_type sb) =? 0) eqn:H0; simpl;
    [left; eexists; reflexivity |].
  set (start := size_t size_bits (Uint32Value args2)).
  set (end_ := size_t size_bits (Uint32Value args3)).
  destruct (ExternalArraySize (ea_type sb) >? 1) eqn:Hwide.
  - unfold bind at 1. unfold bind at 1. unfold assert at 1.
    destruct (size_t size_bits (size_t size_bits (end_ - start)
                                * ExternalArraySize (ea_type sb))
              >=? size_t size_bits (end_ - start));
      [| left; eexists; reflexivity].
    simpl. unfold bind, assert, ret.
    destruct (negb (ea_data sb =? 0)
              || (size_t size_bits (size_t size_bits (end_ - start)
                                    * ExternalArraySize (ea_type sb)) =? 0));
      [| left; eexists; reflexivity].
    destruct (end_ <=? size_t size_bits (ea_length sb)) eqn:He;
      [| left; eexists; reflexivity].
    destruct (start <=? end_) eqn:Hs; [| left; eexists; reflexivity].
    right. exists sb. rewrite Hwide. repeat split; try lia; reflexivity.
  - unfold bind, assert, ret.
    destruct (negb (ea_data sb =? 0) || (size_t size_bits (end_ - start) =? 0));
      [| left; eexists; reflexivity].
    destruct (end_ <=? size_t size_bits (ea_length sb)) eqn:He;
      [| left; eexists; reflexivity].
    destruct (start <=? end_) eqn:Hs; [| left; eexists; reflexivity].
    right. exists sb. rewrite Hwide. repeat split; try lia; reflexivity.
Qed.

(** X7. [SliceOnto] from an attached source with single-byte elements and a
    non-[NULL] block onto a destination without external array data, with
    [start <= end <= the source's length]: it returns the source, and the
    destination now presents [end - start] elements of the source's kind at
    [source_data + start]. Nothing is copied, accounted or registered: the
    rest of the environment is as before. *)
Theorem SliceOnto_single_byte_attaches
    (size_bits : Z) (env : Environment) (source dest : positive)
    (args2 args3 : Value) (buffer : ExternalArrayData) :
  32 <= size_bits ->
  elements (get_object env source) = Some buffer ->
  elements (get_object env dest) = None ->
  ExternalArraySize (ea_type buffer) = 1 ->
  Uint32Value args2 <= Uint32Value args3 <= ea_length buffer ->
  ea_length buffer < 2 ^ size_bits ->
  ea_data buffer <> 0 ->
  SliceOnto size_bits source dest args2 args3 env
    = (Ok source,
       set_objects
         <[dest := {| elements :=
                        Some {| ea_data := ea_data buffer + Uint32Value args2;
                                ea_type := ea_type buffer;
                                ea_length := Uint32Value args3 - Uint32Value args2 |};
                      smalloc_p := smalloc_p (get_object env dest) |}]> env).
Proof. apply SliceOnto_single_byte. Qed.

Lemma SliceOnto_single_byte_attaches_witness :
  SliceOnto 64 2 4 (JSNumber 4) (JSNumber 12) sample_environment
    = (Ok 2%positive,
       set_objects
         <[4%positive :=
             {| elements :=
                  Some {| ea_data := 2000 + 4;
                          ea_type := kExternalUnsignedByteArray;
                          ea_length := 12 - 4 |};
                smalloc_p := smalloc_p (get_object sample_environment 4) |}]>
         sample_environment).
Proof.
  apply (SliceOnto_single_byte_attaches 64 sample_environment 2 4
           (JSNumber 4) (JSNumber 12)
           {| ea_data := 2000; ea_type := kExternalUnsignedByteArray;
              ea_length := 40 |}).
  - lia.
  - reflexivity.
  - reflexivity.
  - reflexivity.
  - vm_compute. split; easy.
  - reflexivity.
  - simpl. lia.
Defined.

(** X8. Whatever its arguments, [SliceOnto] ends in one of two ways: it
    stops at a failed assertion with the environment untouched (it never
    throws to the caller), or it returns the source after giving the
    destination a buffer of the source's kind at [source_data + start], the
    offset taken unscaled; then nothing but the destination object has
    changed. *)
Theorem SliceOnto_effects
    (size_bits : Z) (source dest : positive) (args2 args3 : Value)
    (env : Environment) :
  (exists c : string,
     SliceOnto size_bits source dest args2 args3 env = (AssertFail c, env))
  \/ exists sb buffer : ExternalArrayData,
       elements (get_object env source) = Some sb /\
       ea_type buffer = ea_type sb /\
       ea_data buffer = ea_data sb + size_t size_bits (Uint32Value args2) /\
       SliceOnto size_bits source dest args2 args3 env
         = (Ok source,
            set_objects
              <[dest := {| elements := Some buffer;
                           smalloc_p := smalloc_p (get_object env dest) |}]> env).
Proof.
  destruct (SliceOnto_cases size_bits source dest args2 args3 env)
    as [Hfail | (sb & Hsb & _ & _ & _ & Hrun)].
  - left. exact Hfail.
  - right. exists sb. eexists. split; [exact Hsb |].
    split; [| split; [| exact Hrun]]; reflexivity.
Qed.

(** ** A slice and its source *)

Lemma CopyOnto_check_Ok_intro
    (size_bits source_start dest_start sl cl dl : Z) (env : Environment) :
  cl <= sl -> cl <= dl -> source_start <= sl -> dest_start <= dl ->
  size_t size_bits (source_start + cl) <= sl ->
  size_t size_bits (dest_start + cl) <= dl ->
  CopyOnto_check size_bits source_start dest_start sl cl dl env = (Ok tt, env).
Proof.
  intros H1 H2 H3 H4 H5 H6. unfold CopyOnto_check.
  replace (cl >? sl) with false by lia.
  replace (cl >? dl) with false by lia.
  replace (source_start >? sl) with false by lia.
  replace (dest_start >? dl) with false by lia.
  replace (size_t size_bits (source_start + cl) >? sl) with false by lia.
  replace (size_t size_bits (dest_start + cl) >? dl) with false by lia.
  reflexivity.
Qed.

(** [CopyOnto] between attached buffers whose lengths pass the scaling block
    and the six checks is the [memmove]. *)
Lemma CopyOnto_passes
    (size_bits : Z) (env : Environment) (source dest : positive)
    (args1 args3 args4 : Value) (sb db : ExternalArrayData) (sl cl dl : Z) :
  elements (get_object env source) = Some sb ->
  elements (get_object env dest) = Some db ->
  CopyOnto_scale size_bits
    (ExternalArraySize (ea_type sb)) (ExternalArraySize (ea_type db))
    (size_t size_bits (ea_length sb))
    (size_t size_bits (Uint32Value args4))
    (size_t size_bits (ea_length db)) env = (Ok (sl, cl, dl), env) ->
  CopyOnto_check size_bits (size_t size_bits (Uint32Value args1))
    (size_t size_bits (Uint32Value args3)) sl cl dl env = (Ok tt, env) ->
  CopyOnto size_bits (JSObjectRef source) args1 (JSObjectRef dest) args3 args4 env
    = memmove (ea_data db + size_t size_bits (Uint32Value args3))
        (ea_data sb + size_t size_bits (Uint32Value args1)) cl env.
Proof.
  intros Hsb Hdb Hscale Hcheck.
  unfold CopyOnto. simpl.
  rewrite (bind_Ok _ _ _ _ _ (eq_refl : As_Object (JSObjectRef source) env = _)).
  rewrite (bind_Ok _ _ _ _ _ (eq_refl : As_Object (JSObjectRef dest) env = _)).
  rewrite (bind_Ok _ _ _ _ _ (the_object_run env source)).
  rewrite (bind_Ok _ _ _ _ _ (the_object_run env dest)).
  rewrite (has_elements_Some _ _ Hsb), (has_elements_Some _ _ Hdb). simpl.
  unfold GetIndexedPropertiesExternalArrayDataLength,
    GetIndexedPropertiesExternalArrayDataType,
    GetIndexedPropertiesExternalArrayData.
  rewrite Hsb, Hdb.
  rewrite (bind_Ok _ _ _ _ _ Hscale).
  rewrite (bind_Ok _ _ _ _ _ Hcheck). reflexivity.
Qed.

(** X9. A slice aliases its source. After [SliceOnto] from a source with
    single-byte elements, shorter than half the range of [size_t], any
    [CopyOnto] into the slice that succeeds is the [CopyOnto] into the
    source at the offset moved up by the start of the slice: that call
    succeeds too and leaves the same environment. *)
Theorem CopyOnto_slice_is_CopyOnto_source
    (size_bits : Z) (env env1 env2 : Environment) (source dest other : positive)
    (args2 args3 : Value) (args1' args3' args4' : Value)
    (sb : ExternalArrayData) :
  32 <= size_bits ->
  elements (get_object env source) = Some sb ->
  ExternalArraySize (ea_type sb) = 1 ->
  0 <= ea_length sb < 2 ^ (size_bits - 1) ->
  SliceOnto size_bits source dest args2 args3 env = (Ok source, env1) ->
  CopyOnto size_bits (JSObjectRef other) args1' (JSObjectRef dest) args3' args4'
    env1 = (Ok tt, env2) ->
  CopyOnto size_bits (JSObjectRef other) args1' (JSObjectRef source)
    (JSNumber (Uint32Value args2 + Uint32Value args3')) args4' env1
    = (Ok tt, env2).
Proof.
  intros Hw Hsb Hbyte Hlen Hslice Hcopy.
  pose proof (pow2_half size_bits ltac:(lia)) as Hhalf.
  pose proof (pow2_32_le size_bits Hw) as H32.
  pose proof (Uint32Value_range args2) as R2.
  pose proof (Uint32Value_range args3) as R3.
  pose proof (Uint32Value_range args3') as R3'.
  pose proof (Uint32Value_range args4') as R4'.
  destruct (SliceOnto_cases size_bits source dest args2 args3 env)
    as [[c Hc] | (sb' & Hsb' & Hdnone & _ & Hrange & Hrun)].
  { rewrite Hc in Hslice. discriminate. }
  rewrite Hsb in Hsb'. injection Hsb' as <-.
  rewrite Hrun in Hslice. injection Hslice as <-.
  rewrite Hbyte in *. simpl in *.
  rewrite !size_t_Uint32Value in * by exact Hw.
  rewrite (size_t_small size_bits (ea_length sb)) in Hrange by lia.
  rewrite (size_t_small size_bits (Uint32Value args3 - Uint32Value args2))
    in * by lia.
  set (slice := {| ea_data := ea_data sb + Uint32Value args2;
                   ea_type := ea_type sb;
                   ea_length := Uint32Value args3 - Uint32Value args2 |}) in *.
  set (env1 := set_objects _ env) in *.
  assert (Hne : source <> dest).
  { intros ->. rewrite Hsb in Hdnone. discriminate. }
  assert (Hdest1 : elements (get_object env1 dest) = Some slice).
  { subst env1. unfold get_object. simpl. rewrite lookup_insert_eq. reflexivity. }
  assert (Hsrc1 : elements (get_object env1 source) = Some sb).
  { subst env1. unfold get_object. simpl.
    rewrite lookup_insert_ne by congruence. exact Hsb. }
  destruct (CopyOnto_cases size_bits (JSObjectRef other) args1'
              (JSObjectRef dest) args3' args4' env1)
    as [[e He] | (o' & d' & xb & db & sl & cl & dl & H)].
  { rewrite He in Hcopy. discriminate. }
  destruct H as (Ho & Hd & Hxb & Hdb & Hscale & C1 & C2 & C3 & C4 & C5 & C6 & Heq).
  injection Ho as <-. injection Hd as <-.
  rewrite Hdest1 in Hdb. injection Hdb as <-.
  rewrite Heq in Hcopy.
  assert (Hside : ExternalArraySize (ea_type xb) = 1 \/
                  ExternalArraySize (ea_type slice) = 1)
    by (right; exact Hbyte).
  rewrite (CopyOnto_scale_one_byte_side _ _ _ _ _ _ _ Hside) in Hscale.
  injection Hscale as <- <- <-.
  rewrite !size_t_Uint32Value in * by exact Hw.
  simpl in C2, C4, C6.
  rewrite (size_t_small size_bits (Uint32Value args3 - Uint32Value args2))
    in C2, C4, C6 by lia.
  rewrite (size_t_small size_bits (Uint32Value args3' + Uint32Value args4'))
    in C6 by lia.
  assert (Hshift : Uint32Value (JSNumber (Uint32Value args2 + Uint32Value args3'))
                   = Uint32Value args2 + Uint32Value args3').
  { simpl. apply Z.mod_small. lia. }
  rewrite (CopyOnto_passes size_bits env1 other source args1'
             (JSNumber (Uint32Value args2 + Uint32Value args3')) args4'
             xb sb
             (size_t size_bits (ea_length xb)) (Uint32Value args4')
             (ea_length sb) Hxb Hsrc1).
  - rewrite Hshift, !size_t_Uint32Value by exact Hw.
    rewrite (size_t_small size_bits (Uint32Value args2 + Uint32Value args3'))
      by lia.
    rewrite <- Hcopy. simpl. rewrite Z.add_assoc. reflexivity.
  - rewrite !size_t_Uint32Value by exact Hw.
    rewrite (size_t_small size_bits (ea_length sb)) by lia.
    apply CopyOnto_scale_one_byte_side. right. exact Hbyte.
  - rewrite Hshift, !size_t_Uint32Value by exact Hw.
    rewrite (size_t_small size_bits (Uint32Value args2 + Uint32Value args3'))
      by lia.
    apply CopyOnto_check_Ok_intro; try lia.
    rewrite size_t_small by lia. lia.
Qed.

Lemma CopyOnto_slice_is_CopyOnto_source_witness :
  CopyOnto 64 (JSObjectRef 3) (JSNumber 0) (JSObjectRef 2)
    (JSNumber (Uint32Value (JSNumber 4) + Uint32Value (JSNumber 2)))
    (JSNumber 5) sliced_environment
  = (Ok tt,
     env_of (CopyOnto 64 (JSObjectRef 3) (JSNumber 0) (JSObjectRef 4)
               (JSNumber 2) (JSNumber 5) sliced_environment)).
Proof.
  apply (CopyOnto_slice_is_CopyOnto_source 64 sample_environment
           sliced_environment
           (env_of (CopyOnto 64 (JSObjectRef 3) (JSNumber 0) (JSObjectRef 4)
                      (JSNumber 2) (JSNumber 5) sliced_environment))
           2 4 3 (JSNumber 4) (JSNumber 12) (JSNumber 0) (JSNumber 2) (JSNumber 5)
           {| ea_data := 2000; ea_type := kExternalUnsignedByteArray;
              ea_length := 40 |}).
  - lia.
  - reflexivity.
  - reflexivity.
  - vm_compute. split; easy.
  - vm_compute. reflexivity.
  - vm_compute. reflexivity.
Defined.

(** X10. A slice is released like an owning buffer. After [SliceOnto] of a
    non-empty range of a single-byte source, [AllocDispose] on the
    destination calls [free] on [source_data + start], a pointer into the
    source's block, and takes the [end - start] bytes of the slice off the
    accountant, to which [SliceOnto] had added nothing; the source still
    presents its buffer. *)
Theorem AllocDispose_slice_frees_into_source
    (size_bits sizeof_cb_info : Z) (env : Environment) (source dest : positive)
    (args2 args3 : Value) (sb : ExternalArrayData) :
  32 <= size_bits <= 64 ->
  elements (get_object env source) = Some sb ->
  get_object env dest = plain_object ->
  ExternalArraySize (ea_type sb) = 1 ->
  Uint32Value args2 < Uint32Value args3 <= ea_length sb ->
  ea_length sb < 2 ^ (size_bits - 1) ->
  0 < ea_data sb ->
  exists env1 env2 : Environment,
    SliceOnto size_bits source dest args2 args3 env = (Ok source, env1) /\
    external_memory env1 = external_memory env /\
    trace env1 = trace env /\
    AllocDispose size_bits sizeof_cb_info dest env1 = (Ok tt, env2) /\
    trace env2
      = (trace env ++ [EvFree (ea_data sb + Uint32Value args2)])
        ++ [EvAdjust (- (Uint32Value args3 - Uint32Value args2))] /\
    external_memory env2
      = external_memory env - (Uint32Value args3 - Uint32Value args2) /\
    elements (get_object env2 source) = Some sb.
Proof.
  intros Hw Hsb Hplain Hbyte Hrange Hlen Hdata.
  pose proof (pow2_half size_bits ltac:(lia)) as Hhalf.
  pose proof (Uint32Value_range args2) as R2.
  assert (Hdnone : elements (get_object env dest) = None)
    by (rewrite Hplain; reflexivity).
  assert (Hne : source <> dest).
  { intros ->. rewrite Hsb in Hdnone. discriminate. }
  eexists. eexists. split.
  { apply (SliceOnto_single_byte size_bits env source dest args2 args3 sb);
      auto; lia. }
  split; [reflexivity |]. split; [reflexivity |].
  rewrite Hplain. simpl.
  set (slice := {| ea_data := ea_data sb + Uint32Value args2;
                   ea_type := ea_type sb;
                   ea_length := Uint32Value args3 - Uint32Value args2 |}).
  erewrite (AllocDispose_default_run size_bits sizeof_cb_info _ dest slice).
  - unfold byte_length. simpl. rewrite Hbyte, Z.mul_1_r.
    replace (ea_data sb + Uint32Value args2 =? 0) with false by lia.
    replace (Uint32Value args3 - Uint32Value args2 =? 0) with false by lia.
    split; [reflexivity |]. simpl.
    split; [reflexivity |]. split; [lia |].
    unfold get_object. simpl.
    rewrite !lookup_insert_ne by congruence. exact Hsb.
  - exact Hw.
  - read_elements.
  - read_elements.
  - simpl. lia.
  - simpl. lia.
  - unfold byte_length. simpl. rewrite Hbyte. lia.
Qed.

Lemma AllocDispose_slice_frees_into_source_witness :
  exists env1 env2 : Environment,
    SliceOnto 64 2 4 (JSNumber 4) (JSNumber 12) sample_environment
      = (Ok 2%positive, env1) /\
    external_memory env1 = external_memory sample_environment /\
    trace env1 = trace sample_environment /\
    AllocDispose 64 24 4 env1 = (Ok tt, env2) /\
    trace env2
      = (trace sample_environment
         ++ [EvFree (2000 + Uint32Value (JSNumber 4))])
        ++ [EvAdjust (- (Uint32Value (JSNumber 12) - Uint32Value (JSNumber 4)))] /\
    external_memory env2
      = external_memory sample_environment
        - (Uint32Value (JSNumber 12) - Uint32Value (JSNumber 4)) /\
    elements (get_object env2 2)
      = Some {| ea_data := 2000; ea_type := kExternalUnsignedByteArray;
                ea_length := 40 |}.
Proof.
  apply (AllocDispose_slice_frees_into_source 64 24 sample_environment 2 4
           (JSNumber 4) (JSNumber 12)
           {| ea_data := 2000; ea_type := kExternalUnsignedByteArray;
              ea_length := 40 |}).
  - lia.
  - reflexivity.
  - reflexivity.
  - reflexivity.
  - vm_compute. split; easy.
  - reflexivity.
  - simpl. lia.
Defined.

(** ** [Alloc]: what a call attaches *)

(** [alloc(obj, n[, type])] on a wrapper without external array data, when
    the byte length does not wrap, is [Alloc(env, obj, n * width, type)]. *)
Lemma Alloc_to_Alloc_length
    (size_bits kMaxLength : Z) (env : Environment) (obj : positive)
    (args1 : Value) (args2 : option ExternalArrayType) (malloc_result : Z) :
  32 <= size_bits ->
  elements (get_object env obj) = None ->
  let type := default kExternalUnsignedByteArray args2 in
  let bytes := Uint32Value args1 * ExternalArraySize type in
  0 < ExternalArraySize type ->
  bytes < 2 ^ size_bits ->
  Alloc size_bits kMaxLength obj args1 args2 malloc_result env
    = Alloc_length kMaxLength obj bytes type malloc_result env.
Proof.
  intros Hw Hnone type bytes Hsize Hbytes.
  pose proof (Uint32Value_range args1) as Hn.
  unfold Alloc. rewrite (bind_Ok _ _ _ _ _ (the_object_run env obj)).
  rewrite (has_elements_None _ Hnone).
  rewrite size_t_Uint32Value by lia.
  subst bytes type. destruct args2 as [t |]; simpl in *.
  - rewrite (Z.mul_comm (ExternalArraySize t)).
    rewrite (size_t_small size_bits (Uint32Value args1 * ExternalArraySize t))
      by nia.
    unfold bind at 1. unfold bind at 1. unfold assert.
    replace (Uint32Value args1 * ExternalArraySize t >=? Uint32Value args1)
      with true by nia.
    reflexivity.
  - rewrite Z.mul_1_r. reflexivity.
Qed.

(** [alloc(obj, n[, type])] on a wrapper without external array data, for a
    recognised kind and a byte length within [kMaxLength] that does not
    wrap: when the length is 0 or [malloc] succeeds the call returns with
    the buffer attached. *)
Lemma Alloc_run
    (size_bits kMaxLength : Z) (env : Environment) (obj : positive)
    (args1 : Value) (args2 : option ExternalArrayType) (malloc_result : Z) :
  32 <= size_bits <= 64 ->
  kMaxLength < 2 ^ (size_bits - 1) ->
  elements (get_object env obj) = None ->
  let type := default kExternalUnsignedByteArray args2 in
  let bytes := Uint32Value args1 * ExternalArraySize type in
  0 < ExternalArraySize type ->
  bytes <= kMaxLength ->
  (bytes <> 0 -> malloc_result <> 0) ->
  Alloc size_bits kMaxLength obj args1 args2 malloc_result env
    = (Ok tt,
       {| objects :=
            <[obj := {| elements :=
                          Some {| ea_data := if bytes =? 0 then 0 else malloc_result;
                                  ea_type := type;
                                  ea_length := Uint32Value args1 |};
                        smalloc_p := smalloc_p (get_object env obj) |}]>
              (objects env);
          callback_infos := callback_infos env;
          weak_handles :=
            weak_handles env
            ++ [WeakTarget obj (if bytes =? 0 then 0 else malloc_result)];
          external_memory := external_memory env + bytes;
          using_smalloc_alloc_cb := using_smalloc_alloc_cb env;
          memory := memory env;
          trace := (trace env ++
                    (if bytes =? 0 then [] else [EvMalloc bytes malloc_result]))
                   ++ [EvAdjust bytes] |}).
Proof.
  intros Hw Hmax Hnone type bytes Hsize Hbytes Hmalloc.
  pose proof (pow2_half size_bits ltac:(lia)) as Hhalf.
  pose proof (pow2_le_63 size_bits ltac:(lia)) as H63.
  pose proof (Uint32Value_range args1) as Hn.
  assert (Hb0 : 0 <= bytes) by (subst bytes; nia).
  assert (Hdiv : bytes / ExternalArraySize type = Uint32Value args1)
    by (subst bytes; apply Z.div_mul; lia).
  unfold bytes, type.
  rewrite Alloc_to_Alloc_length by (fold type; fold bytes; auto; lia).
  fold type. fold bytes.
  unfold Alloc_length, bind at 1, assert at 1.
  replace (bytes <=? kMaxLength) with true by lia.
  unfold bind at 1, assert at 1.
  replace (ExternalArraySize type >? 0) with true by lia.
  destruct (bytes =? 0) eqn:Hz.
  - rewrite Alloc_data_run by (assumption || lia).
    rewrite Hdiv, int64_small, app_nil_r by lia. reflexivity.
  - unfold bind at 1, malloc. unfold bind at 1.
    replace (malloc_result =? 0) with false by lia. simpl.
    rewrite Alloc_data_run by (assumption || lia).
    rewrite Hdiv, int64_small by lia. reflexivity.
Qed.

(** X11. What [alloc] attaches can be read back. After [alloc(obj, n[,
    type])] on a wrapper without external array data, with a recognised
    kind, a byte length [n * width] above 0 and within [kMaxLength], and a
    successful [malloc], the wrapper presents [n] elements of that kind at
    the pointer [malloc] returned for [n * width] bytes, the accountant has
    grown by [n * width], and one weak handle with that pointer is
    registered on the wrapper. *)
Theorem Alloc_attaches_requested_buffer
    (size_bits kMaxLength : Z) (env : Environment) (obj : positive)
    (args1 : Value) (args2 : option ExternalArrayType) (malloc_result : Z) :
  32 <= size_bits <= 64 ->
  kMaxLength < 2 ^ (size_bits - 1) ->
  elements (get_object env obj) = None ->
  let type := default kExternalUnsignedByteArray args2 in
  let bytes := Uint32Value args1 * ExternalArraySize type in
  0 < bytes <= kMaxLength ->
  malloc_result <> 0 ->
  exists env1 : Environment,
    Alloc size_bits kMaxLength obj args1 args2 malloc_result env = (Ok tt, env1) /\
    elements (get_object env1 obj)
      = Some {| ea_data := malloc_result; ea_type := type;
                ea_length := Uint32Value args1 |} /\
    HasExternalData obj env1 = (Ok true, env1) /\
    external_memory env1 = external_memory env + bytes /\
    weak_handles env1 = weak_handles env ++ [WeakTarget obj malloc_result] /\
    trace env1 = trace env ++ [EvMalloc bytes malloc_result; EvAdjust bytes].
Proof.
  intros Hw Hmax Hnone type bytes Hbytes Hmalloc.
  pose proof (Uint32Value_range args1) as Hn.
  assert (Hsize : 0 < ExternalArraySize type).
  { destruct (ExternalArraySize_cases type) as [H | [H | [H | [H | H]]]];
      subst bytes; rewrite H in *; lia. }
  eexists. split.
  { apply Alloc_run; auto; subst bytes type; lia. }
  fold type. fold bytes.
  replace (bytes =? 0) with false by lia.
  split; [read_elements |].
  split.
  { unfold HasExternalData.
    rewrite (bind_Ok _ _ _ _ _ (the_object_run _ obj)).
    erewrite has_elements_Some by read_elements. reflexivity. }
  split; [reflexivity |]. split; [reflexivity |].
  simpl. rewrite <- app_assoc. reflexivity.
Qed.

Lemma Alloc_attaches_requested_buffer_witness :
  exists env1 : Environment,
    Alloc 64 kMaxLength_node 4 (JSNumber 6) (Some kExternalShortArray) 5000
      sample_environment = (Ok tt, env1) /\
    elements (get_object env1 4)
      = Some {| ea_data := 5000; ea_type := kExternalShortArray;
                ea_length := Uint32Value (JSNumber 6) |} /\
    HasExternalData 4 env1 = (Ok true, env1) /\
    external_memory env1
      = external_memory sample_environment
        + Uint32Value (JSNumber 6) * ExternalArraySize kExternalShortArray /\
    weak_handles env1 = weak_handles sample_environment ++ [WeakTarget 4 5000] /\
    trace env1
      = trace sample_environment
        ++ [EvMalloc (Uint32Value (JSNumber 6)
                      * ExternalArraySize kExternalShortArray) 5000;
            EvAdjust (Uint32Value (JSNumber 6)
                      * ExternalArraySize kExternalShortArray)].
Proof.
  apply (Alloc_attaches_requested_buffer 64 kMaxLength_node sample_environment 4
           (JSNumber 6) (Some kExternalShortArray) 5000).
  - lia.
  - reflexivity.
  - reflexivity.
  - vm_compute. split; easy.
  - lia.
Defined.

(** X12. [alloc] of zero elements of a recognised kind never calls [malloc]:
    whatever [malloc] would return, the wrapper gets the [NULL] block with 0
    elements of the kind, the accountant keeps its value, and the only
    event is the adjustment by 0. *)
Theorem Alloc_zero_elements
    (size_bits kMaxLength : Z) (env : Environment) (obj : positive)
    (args1 : Value) (args2 : option ExternalArrayType) (malloc_result : Z) :
  32 <= size_bits <= 64 ->
  0 <= kMaxLength < 2 ^ (size_bits - 1) ->
  elements (get_object env obj) = None ->
  let type := default kExternalUnsignedByteArray args2 in
  0 < ExternalArraySize type ->
  Uint32Value args1 = 0 ->
  exists env1 : Environment,
    Alloc size_bits kMaxLength obj args1 args2 malloc_result env = (Ok tt, env1) /\
    elements (get_object env1 obj)
      = Some {| ea_data := 0; ea_type := type; ea_length := 0 |} /\
    external_memory env1 = external_memory env /\
    trace env1 = trace env ++ [EvAdjust 0].
Proof.
  intros Hw Hmax Hnone type Hsize Hzero.
  eexists. split.
  { apply Alloc_run; auto; fold type; try rewrite Hzero; lia. }
  fold type. rewrite Hzero. simpl.
  split; [read_elements |].
  split; [lia |].
  rewrite app_nil_r; reflexivity.
Qed.

Lemma Alloc_zero_elements_witness :
  exists env1 : Environment,
    Alloc 64 kMaxLength_node 4 (JSNumber 0) (Some kExternalDoubleArray) 5000
      sample_environment = (Ok tt, env1) /\
    elements (get_object env1 4)
      = Some {| ea_data := 0; ea_type := kExternalDoubleArray; ea_length := 0 |} /\
    external_memory env1 = external_memory sample_environment /\
    trace env1 = trace sample_environment ++ [EvAdjust 0].
Proof.
  apply (Alloc_zero_elements 64 kMaxLength_node sample_environment 4
           (JSNumber 0) (Some kExternalDoubleArray) 5000).
  - lia.
  - vm_compute. split; easy.
  - reflexivity.
  - reflexivity.
  - reflexivity.
Defined.

(** X13. [dispose] does not make a wrapper allocatable again. After a
    successful [alloc] and a [dispose] on the default path the wrapper still
    has external array data (the empty [NULL] array [AllocDispose] sets, or
    the one a zero-length [alloc] attached), so [hasExternalData] answers
    true and every further [alloc] on it throws the TypeError and changes
    nothing. *)
Theorem Alloc_rejected_after_dispose
    (size_bits kMaxLength sizeof_cb_info : Z) (env env1 : Environment)
    (obj : positive) (args1 : Value) (args2 : option ExternalArrayType)
    (malloc_result : Z) :
  32 <= size_bits <= 64 ->
  kMaxLength < 2 ^ (size_bits - 1) ->
  smalloc_p (get_object env obj) = None ->
  Alloc size_bits kMaxLength obj args1 args2 malloc_result env = (Ok tt, env1) ->
  exists env2 : Environment,
    AllocDispose size_bits sizeof_cb_info obj env1 = (Ok tt, env2) /\
    HasExternalData obj env2 = (Ok true, env2) /\
    forall args1' args2' malloc_result',
      Alloc size_bits kMaxLength obj args1' args2' malloc_result' env2
        = (Throw (TypeError "object already has external array data"), env2).
Proof.
  intros Hw Hmax Hhidden Hrun.
  apply Alloc_Ok_inv in Hrun
    as (data & length & type & Hnone & Htype & Hsize & Hlen & Hmult & _ & _ & ->);
    [| lia].
  set (buffer := {| ea_data := data; ea_type := type;
                    ea_length := length / ExternalArraySize type |}).
  eexists. split.
  { apply (AllocDispose_default_run _ _ _ _ buffer); simpl.
    - exact Hw.
    - read_elements.
    - rewrite <- Hhidden. read_elements.
    - exact Hsize.
    - apply Z.div_pos; lia.
    - unfold byte_length. simpl. lia. }
  match goal with
  | |- HasExternalData obj ?e = _ /\ _ =>
      assert (Hattached : exists b, elements (get_object e obj) = Some b)
  end.
  { simpl. destruct (data =? 0).
    - eexists. read_elements.
    - eexists. read_elements. }
  destruct Hattached as [b Hb].
  split.
  - unfold HasExternalData.
    rewrite (bind_Ok _ _ _ _ _ (the_object_run _ obj)).
    rewrite (has_elements_Some _ _ Hb). reflexivity.
  - intros args1' args2' malloc_result'.
    unfold Alloc. rewrite (bind_Ok _ _ _ _ _ (the_object_run _ obj)).
    rewrite (has_elements_Some _ _ Hb). reflexivity.
Qed.

Lemma Alloc_rejected_after_dispose_witness :
  exists env2 : Environment,
    AllocDispose 64 24 1 allocated_wrapper = (Ok tt, env2) /\
    HasExternalData 1 env2 = (Ok true, env2) /\
    forall args1' args2' malloc_result',
      Alloc 64 kMaxLength_node 1 args1' args2' malloc_result' env2
        = (Throw (TypeError "object already has external array data"), env2).
Proof.
  apply (Alloc_rejected_after_dispose 64 kMaxLength_node 24 empty_environment
           allocated_wrapper 1 (JSNumber 5) (Some kExternalIntArray) 1000).
  - lia.
  - reflexivity.
  - reflexivity.
  - reflexivity.
Defined.

(** X14. When [malloc] returns [NULL] for a non-empty request, [alloc] ends
    in the fatal "Out Of Memory" report of the sized [Alloc]; the wrapper,
    the accountant and the weak handles are as before the call, and the only
    event is the failed [malloc]. *)
Theorem Alloc_out_of_memory_is_fatal
    (size_bits kMaxLength : Z) (env : Environment) (obj : positive)
    (args1 : Value) (args2 : option ExternalArrayType) :
  32 <= size_bits <= 64 ->
  kMaxLength < 2 ^ (size_bits - 1) ->
  elements (get_object env obj) = None ->
  let type := default kExternalUnsignedByteArray args2 in
  let bytes := Uint32Value args1 * ExternalArraySize type in
  0 < bytes <= kMaxLength ->
  Alloc size_bits kMaxLength obj args1 args2 0 env
    = (Fatal
         "node::smalloc::Alloc(v8::Handle<v8::Object>, size_t, v8::ExternalArrayType)"
         "Out Of Memory",
       log (EvMalloc bytes 0) env).
Proof.
  intros Hw Hmax Hnone type bytes Hbytes.
  pose proof (pow2_half size_bits ltac:(lia)) as Hhalf.
  pose proof (Uint32Value_range args1) as Hn.
  assert (Hsize : 0 < ExternalArraySize type).
  { destruct (ExternalArraySize_cases type) as [H | [H | [H | [H | H]]]];
      subst bytes; rewrite H in *; lia. }
  unfold bytes, type.
  rewrite Alloc_to_Alloc_length by (fold type; fold bytes; auto; lia).
  apply Alloc_length_out_of_memory; assumption.
Qed.

Lemma Alloc_out_of_memory_is_fatal_witness :
  Alloc 64 kMaxLength_node 4 (JSNumber 6) (Some kExternalIntArray) 0
    sample_environment
    = (Fatal
         "node::smalloc::Alloc(v8::Handle<v8::Object>, size_t, v8::ExternalArrayType)"
         "Out Of Memory",
       log (EvMalloc (Uint32Value (JSNumber 6)
                      * ExternalArraySize kExternalIntArray) 0)
         sample_environment).
Proof.
  apply (Alloc_out_of_memory_is_fatal 64 kMaxLength_node sample_environment 4
           (JSNumber 6) (Some kExternalIntArray)).
  - lia.
  - reflexivity.
  - reflexivity.
  - vm_compute. split; easy.
Defined.

(** X15. [Alloc(env, obj, data, length, type)] takes its length in bytes,
    adds all of them to the accountant and attaches [length / width] whole
    elements; [AllocDispose] takes back the bytes of the attached elements.
    After the pair the accountant stands [length mod width] above where it
    started: it balances exactly when the width divides the length. *)
Theorem Alloc_data_dispose_leaves_remainder
    (size_bits sizeof_cb_info : Z) (env : Environment) (obj : positive)
    (data length : Z) (type : ExternalArrayType) :
  32 <= size_bits <= 64 ->
  elements (get_object env obj) = None ->
  smalloc_p (get_object env obj) = None ->
  0 < ExternalArraySize type ->
  0 <= length < 2 ^ (size_bits - 1) ->
  exists env1 env2 : Environment,
    Alloc_data obj data length type env = (Ok tt, env1) /\
    external_memory env1 = external_memory env + length /\
    AllocDispose size_bits sizeof_cb_info obj env1 = (Ok tt, env2) /\
    external_memory env2
      = external_memory env + length mod ExternalArraySize type.
Proof.
  intros Hw Hnone Hhidden Hsize Hlen.
  pose proof (pow2_le_63 size_bits ltac:(lia)) as H63.
  pose proof (Z.mod_eq length (ExternalArraySize type) ltac:(lia)) as Hmod.
  pose proof (Z.mod_pos_bound length (ExternalArraySize type) Hsize) as Hrem.
  assert (Hcount : 0 <= length / ExternalArraySize type)
    by (apply Z.div_pos; lia).
  set (buffer := {| ea_data := data; ea_type := type;
                    ea_length := length / ExternalArraySize type |}).
  assert (Hbl : byte_length buffer = length - length mod ExternalArraySize type)
    by (unfold byte_length; simpl; lia).
  eexists. eexists.
  split; [apply Alloc_data_run; [assumption | lia] |].
  rewrite int64_small by lia.
  split; [reflexivity |].
  split.
  { apply (AllocDispose_default_run _ _ _ _ buffer).
    - exact Hw.
    - read_elements.
    - rewrite <- Hhidden. read_elements.
    - exact Hsize.
    - exact Hcount.
    - lia. }
  simpl. destruct (byte_length buffer =? 0) eqn:Hz; lia.
Qed.

Lemma Alloc_data_dispose_leaves_remainder_witness :
  exists env1 env2 : Environment,
    Alloc_data 4 5000 10 kExternalIntArray sample_environment = (Ok tt, env1) /\
    external_memory env1 = external_memory sample_environment + 10 /\
    AllocDispose 64 24 4 env1 = (Ok tt, env2) /\
    external_memory env2
      = external_memory sample_environment
        + 10 mod ExternalArraySize kExternalIntArray.
Proof.
  apply (Alloc_data_dispose_leaves_remainder 64 24 sample_environment 4
           5000 10 kExternalIntArray).
  - lia.
  - reflexivity.
  - reflexivity.
  - reflexivity.
  - vm_compute. split; easy.
Defined.

(** ** The callback path *)

(** [Alloc(env, obj, length, fn, hint, type)] on a wrapper without external
    array data, when [new] succeeds twice and nothing wraps. *)
Lemma Alloc_length_cb_run
    (size_bits kMaxLength sizeof_cb_info : Z) (env : Environment)
    (obj : positive) (length fn hint_ : Z) (type : ExternalArrayType)
    (data cb_info : Z) :
  32 <= size_bits ->
  elements (get_object env obj) = None ->
  0 < ExternalArraySize type ->
  0 <= length <= kMaxLength ->
  length * ExternalArraySize type < 2 ^ size_bits ->
  Alloc_length_cb size_bits kMaxLength sizeof_cb_info obj length fn hint_ type
    (Some data) (Some cb_info) env
    = (Ok tt,
       {| objects :=
            <[obj := {| elements :=
                          Some {| ea_data := data; ea_type := type;
                                  ea_length := length |};
                        smalloc_p := Some cb_info |}]>
              (<[obj := {| elements := None; smalloc_p := Some cb_info |}]>
                 (objects env));
          callback_infos :=
            <[cb_info := {| hint := hint_; cb := fn; p_obj := Some obj |}]>
              (callback_infos env);
          weak_handles := weak_handles env ++ [WeakTargetFree obj cb_info];
          external_memory :=
            external_memory env
            + int64 (size_t size_bits
                       (length * ExternalArraySize type + sizeof_cb_info));
          using_smalloc_alloc_cb := true;
          memory := memory env;
          trace :=
            ((trace env ++ [EvNewArray (length * ExternalArraySize type) data])
             ++ [EvNewInfo cb_info])
            ++ [EvAdjust
                  (int64 (size_t size_bits
                            (length * ExternalArraySize type
                             + sizeof_cb_info)))] |}).
Proof.
  intros Hw Hnone Hsize Hlen Hbytes.
  unfold Alloc_length_cb.
  rewrite (size_t_small size_bits (length * ExternalArraySize type)) by nia.
  unfold bind at 1, assert at 1.
  replace (length <=? kMaxLength) with true by lia.
  unfold bind at 1, assert at 1.
  replace (ExternalArraySize type >? 0) with true by lia.
  unfold bind at 1, assert at 1.
  replace (length * ExternalArraySize type >=? length) with true by nia.
  unfold bind at 1. unfold new_array.
  unfold Alloc_data_cb.
  rewrite (bind_Ok _ _ _ _ _ (the_object_run _ obj)).
  rewrite get_object_log.
  rewrite (has_elements_None _ Hnone).
  replace (ExternalArraySize type =? 0) with false by lia.
  rewrite Z.div_mul by lia.
  unfold bind, assert, new_CallbackInfo, SetHiddenValue,
    AdjustAmountOfExternalAllocatedMemory, SetWeak,
    SetIndexedPropertiesToExternalArrayData, modify.
  simpl. unfold get_object. simpl.
  rewrite lookup_insert_eq. simpl.
  unfold get_object in Hnone. rewrite Hnone.
  reflexivity.
Qed.

(** X16. On the callback path the length given to [Alloc] counts elements
    and [kMaxLength] bounds that count, not the bytes. When [new] succeeds
    the wrapper presents [length] elements of the kind over a block of
    [length * width] bytes, its hidden value is the address of a record
    that names the function, the hint and the wrapper, a weak handle with
    that record is registered, and the accountant has grown by the bytes of
    the block and of the record. *)
Theorem Alloc_length_cb_attaches_elements
    (size_bits kMaxLength sizeof_cb_info : Z) (env : Environment)
    (obj : positive) (length fn hint_ : Z) (type : ExternalArrayType)
    (data cb_info : Z) :
  32 <= size_bits <= 64 ->
  0 <= sizeof_cb_info ->
  elements (get_object env obj) = None ->
  0 < ExternalArraySize type ->
  0 <= length <= kMaxLength ->
  length * ExternalArraySize type + sizeof_cb_info < 2 ^ (size_bits - 1) ->
  exists env1 : Environment,
    Alloc_length_cb size_bits kMaxLength sizeof_cb_info obj length fn hint_ type
      (Some data) (Some cb_info) env = (Ok tt, env1) /\
    get_object env1 obj
      = {| elements := Some {| ea_data := data; ea_type := type;
                               ea_length := length |};
           smalloc_p := Some cb_info |} /\
    callback_infos env1 !! cb_info
      = Some {| hint := hint_; cb := fn; p_obj := Some obj |} /\
    weak_handles env1 = weak_handles env ++ [WeakTargetFree obj cb_info] /\
    using_smalloc_alloc_cb env1 = true /\
    external_memory env1
      = external_memory env
        + (length * ExternalArraySize type + sizeof_cb_info) /\
    trace env1
      = trace env
        ++ [EvNewArray (length * ExternalArraySize type) data;
            EvNewInfo cb_info;
            EvAdjust (length * ExternalArraySize type + sizeof_cb_info)].
Proof.
  intros Hw Hcb Hnone Hsize Hlen Hbytes.
  pose proof (pow2_half size_bits ltac:(lia)) as Hhalf.
  pose proof (pow2_le_63 size_bits ltac:(lia)) as H63.
  assert (H0 : 0 <= length * ExternalArraySize type) by nia.
  eexists. split.
  { apply Alloc_length_cb_run; auto; lia. }
  rewrite (size_t_small size_bits
             (length * ExternalArraySize type + sizeof_cb_info)) by lia.
  rewrite int64_small by lia.
  split; [read_object |].
  split; [simpl; apply lookup_insert_eq |].
  split; [reflexivity |]. split; [reflexivity |]. split; [reflexivity |].
  simpl. rewrite <- !app_assoc. reflexivity.
Qed.

Lemma Alloc_length_cb_attaches_elements_witness :
  exists env1 : Environment,
    Alloc_length_cb 64 kMaxLength_node 24 4 kMaxLength_node 700 800
      kExternalDoubleArray (Some 5000) (Some 7000) sample_environment
      = (Ok tt, env1) /\
    get_object env1 4
      = {| elements := Some {| ea_data := 5000; ea_type := kExternalDoubleArray;
                               ea_length := kMaxLength_node |};
           smalloc_p := Some 7000 |} /\
    callback_infos env1 !! 7000
      = Some {| hint := 800; cb := 700; p_obj := Some 4%positive |} /\
    weak_handles env1
      = weak_handles sample_environment ++ [WeakTargetFree 4 7000] /\
    using_smalloc_alloc_cb env1 = true /\
    external_memory env1
      = external_memory sample_environment
        + (kMaxLength_node * ExternalArraySize kExternalDoubleArray + 24) /\
    trace env1
      = trace sample_environment
        ++ [EvNewArray (kMaxLength_node * ExternalArraySize kExternalDoubleArray)
              5000;
            EvNewInfo 7000;
            EvAdjust (kMaxLength_node * ExternalArraySize kExternalDoubleArray
                      + 24)].
Proof.
  apply (Alloc_length_cb_attaches_elements 64 kMaxLength_node 24
           sample_environment 4 kMaxLength_node 700 800 kExternalDoubleArray
           5000 7000).
  - lia.
  - lia.
  - reflexivity.
  - reflexivity.
  - vm_compute. split; easy.
  - reflexivity.
Defined.

(** ** Release by the collector alone *)

Lemma fresh_keeps_handles (hs : list weak_handle) (obj : positive) (h0 : weak_handle) :
  weak_object h0 = obj ->
  Forall (fun h => weak_object h <> obj) hs ->
  filter (fun h => weak_object h = obj) (hs ++ [h0]) = [h0] /\
  filter (fun h => weak_object h <> obj) (hs ++ [h0]) = hs.
Proof.
  intros Hobj Hfresh. rewrite !filter_app. split.
  - rewrite (filter_none (fun h => weak_object h = obj)) by exact Hfresh.
    rewrite filter_cons_True by exact Hobj. rewrite filter_nil. reflexivity.
  - rewrite (filter_all (fun h => weak_object h <> obj)) by exact Hfresh.
    rewrite filter_cons_False by (intros Hne; apply Hne; exact Hobj).
    rewrite filter_nil, app_nil_r. reflexivity.
Qed.

(** The default path: the weak callback of a wrapper that was allocated and
    not disposed. *)
Lemma Alloc_unreachable
    (size_bits kMaxLength sizeof_cb_info : Z) (env env1 : Environment)
    (obj : positive) (args1 : Value) (args2 : option ExternalArrayType)
    (malloc_result : Z) (buffer : ExternalArrayData) :
  platform size_bits kMaxLength sizeof_cb_info ->
  fresh_wrapper env obj ->
  Alloc size_bits kMaxLength obj args1 args2 malloc_result env = (Ok tt, env1) ->
  elements (get_object env1 obj) = Some buffer ->
  0 < byte_length buffer ->
  onWrapperUnreachable size_bits sizeof_cb_info obj env1
    = (Ok tt,
       {| objects := objects env1;
          callback_infos := callback_infos env1;
          weak_handles := weak_handles env;
          external_memory := external_memory env1 + - byte_length buffer;
          using_smalloc_alloc_cb := using_smalloc_alloc_cb env1;
          memory := memory env1;
          trace := (trace env1 ++ [EvAdjust (- byte_length buffer)])
                   ++ [EvFree (ea_data buffer)] |}) /\
  external_memory env1 = external_memory env + byte_length buffer.
Proof.
  intros Hplat [Hhid Hfresh] Hrun Hbuf Hnonempty.
  destruct (platform_bounds _ _ _ Hplat) as (Hw & Hhalf & H63 & Hmax & Hcb & Hsum).
  assert (Hw32 : 32 <= size_bits) by lia.
  destruct (Alloc_Ok_inv _ _ _ _ _ _ _ _ Hw32 Hrun)
    as (data & length & type & Hnone & _ & Hsize & Hlen & Hmult & Hzero & Hnz & ->).
  erewrite get_object_lookup in Hbuf by (simpl; apply lookup_insert_eq).
  simpl in Hbuf. injection Hbuf as <-. unfold byte_length in *. simpl in *.
  rewrite Hmult in Hnonempty |- *.
  destruct (Hnz ltac:(lia)) as [Hdata _].
  rewrite int64_small by lia.
  split; [| reflexivity].
  rewrite onWrapperUnreachable_run.
  cbn [weak_handles set_weak_handles].
  destruct (fresh_keeps_handles (weak_handles env) obj (WeakTarget obj data)
              eq_refl Hfresh) as [Hdue Hrest].
  rewrite Hdue.
  unfold set_weak_handles.
  cbn [weak_handles objects callback_infos external_memory
       using_smalloc_alloc_cb memory trace].
  rewrite Hrest.
  cbn [run_weak_callbacks run_weak_callback]. unfold bind.
  erewrite (TargetCallback_run size_bits _ obj data
              {| ea_data := data; ea_type := type;
                 ea_length := length / ExternalArraySize type |}).
  - unfold byte_length. simpl. rewrite Hmult.
    replace (data =? 0) with false by lia.
    replace (length >? 0) with true by lia.
    reflexivity.
  - lia.
  - read_elements.
  - exact Hsize.
  - simpl. apply Z.div_pos; lia.
  - unfold byte_length. simpl. rewrite Hmult. lia.
Qed.

(** The callback path: the weak callback of a wrapper that was allocated and
    not disposed. *)
Lemma Alloc_length_cb_unreachable
    (size_bits kMaxLength sizeof_cb_info : Z) (env env1 : Environment)
    (obj : positive) (length fn hint_ : Z) (type : ExternalArrayType)
    (new_data new_info : option Z) (buffer : ExternalArrayData) :
  platform size_bits kMaxLength sizeof_cb_info ->
  fresh_wrapper env obj ->
  Alloc_length_cb size_bits kMaxLength sizeof_cb_info obj length fn hint_ type
    new_data new_info env = (Ok tt, env1) ->
  elements (get_object env1 obj) = Some buffer ->
  0 < byte_length buffer <= kMaxLength ->
  exists cb_info : Z,
    onWrapperUnreachable size_bits sizeof_cb_info obj env1
      = (Ok tt,
         {| objects := objects env1;
            callback_infos := delete cb_info (callback_infos env1);
            weak_handles := weak_handles env;
            external_memory :=
              external_memory env1 + - (byte_length buffer + sizeof_cb_info);
            using_smalloc_alloc_cb := using_smalloc_alloc_cb env1;
            memory := memory env1;
            trace :=
              ((trace env1
                ++ [EvAdjust (- (byte_length buffer + sizeof_cb_info))])
               ++ [EvFreeCallback fn (ea_data buffer) hint_])
              ++ [EvDeleteInfo cb_info] |}) /\
    external_memory env1
      = external_memory env + (byte_length buffer + sizeof_cb_info).
Proof.
  intros Hplat [_ Hfresh] Hrun Hbuf Hbytes.
  destruct (platform_bounds _ _ _ Hplat) as (Hw & Hhalf & H63 & Hmax & Hcb & Hsum).
  assert (Hw32 : 32 <= size_bits) by lia.
  destruct (Alloc_length_cb_Ok_inv _ _ _ _ _ _ _ _ _ _ _ _ Hw32 Hrun)
    as (data & cb_info & bytes & -> & -> & Hnone & Hsize & Hb & Hmult & ->).
  erewrite get_object_lookup in Hbuf by (simpl; apply lookup_insert_eq).
  simpl in Hbuf. injection Hbuf as <-. unfold byte_length in Hbytes.
  simpl in Hbytes. rewrite Hmult in Hbytes.
  assert (Hcount : 0 < bytes / ExternalArraySize type) by nia.
  exists cb_info.
  rewrite onWrapperUnreachable_run.
  cbn [weak_handles set_weak_handles].
  destruct (fresh_keeps_handles (weak_handles env) obj
              (WeakTargetFree obj cb_info) eq_refl Hfresh) as [Hdue Hrest].
  rewrite Hdue.
  unfold set_weak_handles.
  cbn [weak_handles objects callback_infos external_memory
       using_smalloc_alloc_cb memory trace].
  rewrite Hrest.
  set (env1 := {| objects := _ |}).
  cbn [run_weak_callbacks run_weak_callback]. unfold TargetFreeCallback_weak.
  unfold bind at 1.
  rewrite (TargetFreeCallback_run size_bits sizeof_cb_info env1 cb_info
             {| hint := hint_; cb := fn; p_obj := Some obj |} obj
             {| ea_data := data; ea_type := type;
                ea_length := bytes / ExternalArraySize type |});
    [ | lia | subst env1; simpl; apply lookup_insert_eq | reflexivity
      | subst env1; read_elements | exact Hsize | simpl; lia
      | unfold byte_length; simpl; rewrite Hmult; lia ].
  cbn [ea_type ea_length ea_data cb hint].
  replace (bytes / ExternalArraySize type =? 0) with false by lia.
  rewrite andb_false_r.
  unfold byte_length. cbn [ea_type ea_length ea_data]. rewrite Hmult.
  rewrite (size_t_small size_bits (bytes + sizeof_cb_info)) by lia.
  rewrite int64_small by lia.
  subst env1. cbn [weak_handles external_memory trace objects callback_infos
                   using_smalloc_alloc_cb memory].
  rewrite (filter_all (fun h => h <> WeakTargetFree obj cb_info)).
  2:{ eapply Forall_impl; [exact Hfresh |].
      intros h Hh ->. apply Hh. reflexivity. }
  rewrite (size_t_small size_bits (bytes + sizeof_cb_info)) by lia.
  rewrite int64_small by lia.
  split; reflexivity.
Qed.

(** X17. Release by the collector alone. A wrapper that was allocated on
    either path with a non-empty buffer and is found unreachable without
    having been disposed: its weak callback runs, the release policy is
    invoked once with the block, the accountant is decremented once and
    is back at its value before the allocation, and no weak handle on the
    wrapper remains. The wrapper itself is not touched: it still presents
    the released block. *)
Theorem unreachable_without_dispose_releases_once
    (size_bits kMaxLength sizeof_cb_info : Z) (env env1 : Environment)
    (r : request) (buffer : ExternalArrayData) :
  platform size_bits kMaxLength sizeof_cb_info ->
  fresh_wrapper env (request_object r) ->
  allocate size_bits kMaxLength sizeof_cb_info r env = (Ok tt, env1) ->
  elements (get_object env1 (request_object r)) = Some buffer ->
  0 < byte_length buffer <= kMaxLength ->
  exists (env2 : Environment) (added : list event),
    onWrapperUnreachable size_bits sizeof_cb_info (request_object r) env1
      = (Ok tt, env2) /\
    trace env2 = trace env1 ++ added /\
    List.filter is_release added = [release_event r (ea_data buffer)] /\
    List.filter is_decrement added
      = [EvAdjust (- (byte_length buffer + overhead sizeof_cb_info r))] /\
    external_memory env2 = external_memory env /\
    weak_handles env2 = weak_handles env /\
    elements (get_object env2 (request_object r)) = Some buffer.
Proof.
  intros Hplat Hfresh Hrun Hbuf Hbytes.
  destruct (platform_bounds _ _ _ Hplat) as (Hw & Hhalf & H63 & Hmax & Hcb & Hsum).
  destruct r as [obj args1 args2 malloc_result
                | obj length fn hint_ type new_data new_info]; simpl in *.
  - destruct (Alloc_unreachable _ _ _ _ _ _ _ _ _ _
                Hplat Hfresh Hrun Hbuf ltac:(lia)) as [Hgc Hm1].
    eexists. exists [EvAdjust (- byte_length buffer); EvFree (ea_data buffer)].
    split; [exact Hgc |].
    rewrite Z.add_0_r. simpl.
    replace (- byte_length buffer <? 0) with true by lia.
    rewrite <- app_assoc.
    repeat split; auto; lia.
  - destruct (Alloc_length_cb_unreachable _ _ _ _ _ _ _ _ _ _ _ _ _
                Hplat Hfresh Hrun Hbuf Hbytes) as (cb_info & Hgc & Hm1).
    eexists.
    exists [EvAdjust (- (byte_length buffer + sizeof_cb_info));
            EvFreeCallback fn (ea_data buffer) hint_; EvDeleteInfo cb_info].
    split; [exact Hgc |].
    simpl.
    replace (- (byte_length buffer + sizeof_cb_info) <? 0) with true by lia.
    rewrite <- !app_assoc.
    repeat split; auto; lia.
Qed.

Lemma unreachable_without_dispose_releases_once_witness :
  exists (env2 : Environment) (added : list event),
    onWrapperUnreachable 64 24 1 allocated_cb_wrapper = (Ok tt, env2) /\
    trace env2 = trace allocated_cb_wrapper ++ added /\
    List.filter is_release added = [EvFreeCallback 700 1000 800] /\
    List.filter is_decrement added = [EvAdjust (- (5 * 4 + 24))] /\
    external_memory env2 = external_memory empty_environment /\
    weak_handles env2 = weak_handles empty_environment /\
    elements (get_object env2 1)
      = Some {| ea_data := 1000; ea_type := kExternalIntArray; ea_length := 5 |}.
Proof.
  apply (unreachable_without_dispose_releases_once 64 kMaxLength_node 24
           empty_environment allocated_cb_wrapper
           (ReqAllocCb 1 5 700 800 kExternalIntArray (Some 1000) (Some 7000))
           {| ea_data := 1000; ea_type := kExternalIntArray; ea_length := 5 |}).
  - exact platform_64.
  - apply fresh_wrapper_empty.
  - reflexivity.
  - reflexivity.
  - vm_compute. split; easy.
Defined.

(** X18. The default path has no guard in the order collector, then
    [dispose]. When the weak callback of an allocated, non-empty wrapper has
    run and [dispose] is called on the wrapper afterwards, the block is
    passed to [free] a second time and its bytes are taken from the
    accountant a second time, which ends below its value before the
    allocation by the bytes of the buffer. *)
Theorem unreachable_then_dispose_frees_again
    (size_bits kMaxLength sizeof_cb_info : Z) (env env1 : Environment)
    (obj : positive) (args1 : Value) (args2 : option ExternalArrayType)
    (malloc_result : Z) (buffer : ExternalArrayData) :
  platform size_bits kMaxLength sizeof_cb_info ->
  fresh_wrapper env obj ->
  Alloc size_bits kMaxLength obj args1 args2 malloc_result env = (Ok tt, env1) ->
  elements (get_object env1 obj) = Some buffer ->
  0 < byte_length buffer ->
  exists env2 env3 : Environment,
    onWrapperUnreachable size_bits sizeof_cb_info obj env1 = (Ok tt, env2) /\
    AllocDispose size_bits sizeof_cb_info obj env2 = (Ok tt, env3) /\
    trace env3
      = trace env1
        ++ [EvAdjust (- byte_length buffer); EvFree (ea_data buffer);
            EvFree (ea_data buffer); EvAdjust (- byte_length buffer)] /\
    external_memory env3 = external_memory env - byte_length buffer.
Proof.
  intros Hplat Hfresh Hrun Hbuf Hnonempty.
  destruct (platform_bounds _ _ _ Hplat) as (Hw & Hhalf & H63 & Hmax & Hcb & Hsum).
  destruct (Alloc_unreachable _ _ _ _ _ _ _ _ _ _
              Hplat Hfresh Hrun Hbuf Hnonempty) as [Hgc Hm1].
  assert (Hw32 : 32 <= size_bits) by lia.
  destruct (Alloc_Ok_inv _ _ _ _ _ _ _ _ Hw32 Hrun)
    as (data & length & type & Hnone & _ & Hsize & Hlen & Hmult & Hzero & Hnz & ->).
  destruct Hfresh as [Hhid _].
  pose proof Hbuf as Hbuf'.
  erewrite get_object_lookup in Hbuf' by (simpl; apply lookup_insert_eq).
  simpl in Hbuf'. injection Hbuf' as <-.
  set (buffer := {| ea_data := data; ea_type := type;
                    ea_length := length / ExternalArraySize type |}) in *.
  assert (Hbl : byte_length buffer = length)
    by (unfold byte_length; simpl; exact Hmult).
  destruct (Hnz ltac:(lia)) as [Hdata _].
  eexists. eexists.
  split; [exact Hgc |].
  split.
  { apply (AllocDispose_default_run _ _ _ _ buffer).
    - exact Hw.
    - exact Hbuf.
    - unfold get_object. cbn [objects]. rewrite lookup_insert_eq. exact Hhid.
    - exact Hsize.
    - simpl. apply Z.div_pos; lia.
    - lia. }
  cbn [trace external_memory ea_data buffer].
  replace (data =? 0) with false by lia.
  replace (byte_length buffer =? 0) with false by lia.
  split; [rewrite <- !app_assoc; reflexivity |].
  cbn [external_memory] in Hm1. lia.
Qed.

Lemma unreachable_then_dispose_frees_again_witness :
  exists env2 env3 : Environment,
    onWrapperUnreachable 64 24 1 allocated_wrapper = (Ok tt, env2) /\
    AllocDispose 64 24 1 env2 = (Ok tt, env3) /\
    trace env3
      = trace allocated_wrapper
        ++ [EvAdjust (- (5 * 4)); EvFree 1000; EvFree 1000;
            EvAdjust (- (5 * 4))] /\
    external_memory env3 = external_memory empty_environment - 5 * 4.
Proof.
  apply (unreachable_then_dispose_frees_again 64 kMaxLength_node 24
           empty_environment allocated_wrapper 1 (JSNumber 5)
           (Some kExternalIntArray) 1000
           {| ea_data := 1000; ea_type := kExternalIntArray; ea_length := 5 |}).
  - exact platform_64.
  - apply fresh_wrapper_empty.
  - reflexivity.
  - reflexivity.
  - reflexivity.
Defined.

(** X19. On the default path [dispose] is idempotent. For a wrapper without
    hidden callback record whose buffer has a block or covers no bytes, the
    first [AllocDispose] releases and leaves the empty [NULL] array, and a
    second one returns without any event or change. *)
Theorem AllocDispose_default_twice
    (size_bits sizeof_cb_info : Z) (env : Environment) (obj : positive)
    (buffer : ExternalArrayData) :
  32 <= size_bits <= 64 ->
  elements (get_object env obj) = Some buffer ->
  smalloc_p (get_object env obj) = None ->
  0 < ExternalArraySize (ea_type buffer) ->
  0 <= ea_length buffer ->
  byte_length buffer < 2 ^ (size_bits - 1) ->
  (ea_data buffer = 0 -> byte_length buffer = 0) ->
  exists env1 : Environment,
    AllocDispose size_bits sizeof_cb_info obj env = (Ok tt, env1) /\
    AllocDispose size_bits sizeof_cb_info obj env1 = (Ok tt, env1).
Proof.
  intros Hw Hbuf Hhid Hsize Hcount Hbytes Hnull.
  pose proof (pow2_half size_bits ltac:(lia)) as Hhalf.
  eexists. split.
  { apply (AllocDispose_default_run _ _ _ _ buffer); assumption. }
  destruct (ea_data buffer =? 0) eqn:Hdata.
  - rewrite (Hnull ltac:(lia)). cbn [Z.eqb].
    erewrite (AllocDispose_default_run _ _ _ _ buffer);
      [ | exact Hw | exact Hbuf | exact Hhid | exact Hsize | exact Hcount
        | exact Hbytes ].
    rewrite Hdata, (Hnull ltac:(lia)). cbn [Z.eqb].
    cbn [objects callback_infos weak_handles external_memory
         using_smalloc_alloc_cb memory trace].
    rewrite !app_nil_r. reflexivity.
  - erewrite (AllocDispose_default_run _ _ _ _
                {| ea_data := 0; ea_type := kExternalUnsignedByteArray;
                   ea_length := 0 |});
      [ | exact Hw | read_elements | read_elements | simpl; lia | simpl; lia
        | unfold byte_length; simpl; lia ].
    unfold byte_length at 1 2. cbn [ea_data ea_length ea_type Z.mul Z.eqb].
    cbn [objects callback_infos weak_handles external_memory
         using_smalloc_alloc_cb memory trace].
    rewrite !app_nil_r. reflexivity.
Qed.

Lemma AllocDispose_default_twice_witness :
  exists env1 : Environment,
    AllocDispose 64 24 1 sample_environment = (Ok tt, env1) /\
    AllocDispose 64 24 1 env1 = (Ok tt, env1).
Proof.
  apply (AllocDispose_default_twice 64 24 sample_environment 1
           {| ea_data := 1000; ea_type := kExternalIntArray; ea_length := 10 |}).
  - lia.
  - reflexivity.
  - reflexivity.
  - reflexivity.
  - simpl. lia.
  - reflexivity.
  - simpl. lia.
Defined.

(** X20. On the callback path a second [dispose] reads the deleted record.
    [TargetFreeCallback] deletes the [CallbackInfo] and leaves the wrapper
    as it was: after the first [AllocDispose] the wrapper still presents
    the block that was handed to the callback and still carries the address
    of the record as its hidden value, and a second [AllocDispose] reads
    the record after its [delete]. *)
Theorem AllocDispose_callback_twice
    (size_bits sizeof_cb_info : Z) (env : Environment) (obj : positive)
    (cb_info : Z) (info : CallbackInfo) (buffer : ExternalArrayData) :
  32 <= size_bits ->
  using_smalloc_alloc_cb env = true ->
  get_object env obj = {| elements := Some buffer; smalloc_p := Some cb_info |} ->
  callback_infos env !! cb_info = Some info ->
  p_obj info = Some obj ->
  0 < ExternalArraySize (ea_type buffer) ->
  0 < ea_length buffer ->
  byte_length buffer < 2 ^ size_bits ->
  exists env1 : Environment,
    AllocDispose size_bits sizeof_cb_info obj env = (Ok tt, env1) /\
    trace env1
      = trace env
        ++ [EvAdjust (- int64 (size_t size_bits
                                 (byte_length buffer + sizeof_cb_info)));
            EvFreeCallback (cb info) (ea_data buffer) (hint info);
            EvDeleteInfo cb_info] /\
    get_object env1 obj
      = {| elements := Some buffer; smalloc_p := Some cb_info |} /\
    callback_infos env1 !! cb_info = None /\
    AllocDispose size_bits sizeof_cb_info obj env1
      = (Undefined "cb_info read after delete", env1).
Proof.
  intros Hw Hflag Hobj Hinfo Hpobj Hsize Hcount Hbytes.
  assert (Hel : elements (get_object env obj) = Some buffer)
    by (rewrite Hobj; reflexivity).
  assert (Hhid : smalloc_p (get_object env obj) = Some cb_info)
    by (rewrite Hobj; reflexivity).
  eexists. split.
  { rewrite (AllocDispose_callback_run _ _ _ _ _ Hflag Hhid).
    rewrite (TargetFreeCallback_run _ _ _ _ _ _ _
               Hw Hinfo Hpobj Hel Hsize ltac:(lia) Hbytes).
    replace (ea_length buffer =? 0) with false by lia.
    rewrite andb_false_r. reflexivity. }
  split; [cbn [trace]; rewrite <- !app_assoc; reflexivity |].
  split; [exact Hobj |].
  split; [cbn [callback_infos]; apply lookup_delete_eq |].
  rewrite (AllocDispose_callback_run _ _ _ _ cb_info);
    [ | exact Hflag | exact Hhid ].
  unfold TargetFreeCallback, bind, get_env.
  cbn [callback_infos]. rewrite lookup_delete_eq. reflexivity.
Qed.

Lemma AllocDispose_callback_twice_witness :
  exists env1 : Environment,
    AllocDispose 64 24 1 allocated_cb_wrapper = (Ok tt, env1) /\
    trace env1
      = trace allocated_cb_wrapper
        ++ [EvAdjust
              (- int64 (size_t 64
                          (byte_length
                             {| ea_data := 1000; ea_type := kExternalIntArray;
                                ea_length := 5 |} + 24)));
            EvFreeCallback 700 1000 800;
            EvDeleteInfo 7000] /\
    get_object env1 1
      = {| elements := Some {| ea_data := 1000; ea_type := kExternalIntArray;
                               ea_length := 5 |};
           smalloc_p := Some 7000 |} /\
    callback_infos env1 !! 7000 = None /\
    AllocDispose 64 24 1 env1 = (Undefined "cb_info read after delete", env1).
Proof.
  apply (AllocDispose_callback_twice 64 24 allocated_cb_wrapper 1 7000
           {| hint := 800; cb := 700; p_obj := Some 1%positive |}
           {| ea_data := 1000; ea_type := kExternalIntArray; ea_length := 5 |}).
  - lia.
  - reflexivity.
  - reflexivity.
  - reflexivity.
  - reflexivity.
  - reflexivity.
  - reflexivity.
  - reflexivity.
Defined.

(** X21. A callback-path buffer of zero elements of a kind wider than one
    byte can be attached and can never be released. [Alloc] with a
    callback accepts length 0 (its check is [length * type_size >= length]),
    but [TargetFreeCallback] checks [len * array_size > len] strictly, which
    0 fails: both [dispose] and the weak callback stop at that assertion
    before the callback is invoked, the record deleted or the accountant
    adjusted. *)
Theorem zero_length_callback_buffer_never_released
    (size_bits kMaxLength sizeof_cb_info : Z) (env env1 : Environment)
    (obj : positive) (fn hint_ : Z) (type : ExternalArrayType)
    (new_data new_info : option Z) :
  32 <= size_bits ->
  1 < ExternalArraySize type ->
  Alloc_length_cb size_bits kMaxLength sizeof_cb_info obj 0 fn hint_ type
    new_data new_info env = (Ok tt, env1) ->
  exists cb_info : Z,
    new_info = Some cb_info /\
    AllocDispose size_bits sizeof_cb_info obj env1
      = (AssertFail "len * array_size > len", env1) /\
    TargetFreeCallback_weak size_bits sizeof_cb_info cb_info env1
      = (AssertFail "len * array_size > len", env1).
Proof.
  intros Hw Hwide Hrun.
  destruct (Alloc_length_cb_Ok_inv _ _ _ _ _ _ _ _ _ _ _ _ Hw Hrun)
    as (data & cb_info & bytes & -> & -> & Hnone & Hsize & Hb & Hmult & ->).
  assert (Hzero : bytes = 0).
  { rewrite Hb. simpl. apply size_t_small.
    pose proof (Z.pow_pos_nonneg 2 size_bits ltac:(lia) ltac:(lia)). lia. }
  clear Hb Hmult. subst bytes. rewrite Z.div_0_l in * by lia.
  set (env1 := {| objects := _ |}) in *.
  assert (Hweak :
    TargetFreeCallback size_bits sizeof_cb_info cb_info env1
      = (AssertFail "len * array_size > len", env1)).
  { rewrite (TargetFreeCallback_run size_bits sizeof_cb_info env1 cb_info
               {| hint := hint_; cb := fn; p_obj := Some obj |} obj
               {| ea_data := data; ea_type := type; ea_length := 0 |});
      [ | lia | subst env1; simpl; apply lookup_insert_eq | reflexivity
        | subst env1; read_elements | exact Hsize | simpl; lia
        | unfold byte_length; simpl;
          apply (Z.pow_pos_nonneg 2 size_bits); lia ].
    cbn [ea_type ea_length].
    replace (ExternalArraySize type >? 1) with true by lia.
    reflexivity. }
  exists cb_info. split; [reflexivity |]. split.
  - rewrite (AllocDispose_callback_run _ _ env1 obj cb_info);
      [exact Hweak | reflexivity | subst env1; read_elements].
  - exact Hweak.
Qed.

Lemma zero_length_callback_buffer_never_released_witness :
  exists cb_info : Z,
    Some 7000 = Some cb_info /\
    AllocDispose 64 24 4
      (env_of (Alloc_length_cb 64 kMaxLength_node 24 4 0 700 800
                 kExternalIntArray (Some 5000) (Some 7000) sample_environment))
      = (AssertFail "len * array_size > len",
         env_of (Alloc_length_cb 64 kMaxLength_node 24 4 0 700 800
                   kExternalIntArray (Some 5000) (Some 7000)
                   sample_environment)) /\
    TargetFreeCallback_weak 64 24 cb_info
      (env_of (Alloc_length_cb 64 kMaxLength_node 24 4 0 700 800
                 kExternalIntArray (Some 5000) (Some 7000) sample_environment))
      = (AssertFail "len * array_size > len",
         env_of (Alloc_length_cb 64 kMaxLength_node 24 4 0 700 800
                   kExternalIntArray (Some 5000) (Some 7000)
                   sample_environment)).
Proof.
  apply (zero_length_callback_buffer_never_released 64 kMaxLength_node 24
           sample_environment
           (env_of (Alloc_length_cb 64 kMaxLength_node 24 4 0 700 800
                      kExternalIntArray (Some 5000) (Some 7000)
                      sample_environment))
           4 700 800 kExternalIntArray (Some 5000) (Some 7000)).
  - lia.
  - reflexivity.
  - reflexivity.
Defined.

(** ** What the heap profiler is told *)

(** X22. [WrapperInfo] reports the element count as the size in bytes. The
    [RetainedAllocInfo] of a wrapper with a non-empty buffer of a
    recognised kind reads the environment only, hashes to the block
    pointer, and answers [GetSizeInBytes] with the number of elements;
    that is the number of bytes the buffer covers exactly when the
    elements are one byte wide. *)
Theorem WrapperInfo_size_counts_elements
    (class_id : Z) (env : Environment) (wrapper : positive)
    (buffer : ExternalArrayData) :
  elements (get_object env wrapper) = Some buffer ->
  0 < ExternalArraySize (ea_type buffer) ->
  0 < ea_length buffer ->
  exists info : RetainedAllocInfo,
    WrapperInfo class_id wrapper env = (Ok info, env) /\
    GetHash info = ea_data buffer /\
    GetSizeInBytes info = ea_length buffer /\
    (GetSizeInBytes info = byte_length buffer
     <-> ExternalArraySize (ea_type buffer) = 1).
Proof.
  intros Hbuf Hsize Hcount.
  exists (RetainedAllocInfo_new (get_object env wrapper)).
  split.
  { unfold WrapperInfo.
    rewrite (bind_Ok _ _ _ _ _ (the_object_run env wrapper)). reflexivity. }
  unfold GetHash, GetSizeInBytes, RetainedAllocInfo_new,
    GetIndexedPropertiesExternalArrayData,
    GetIndexedPropertiesExternalArrayDataLength, byte_length.
  rewrite Hbuf. cbn [data_ length_].
  split; [reflexivity |]. split; [reflexivity |].
  split; intros H; nia.
Qed.

Lemma WrapperInfo_size_counts_elements_witness :
  exists info : RetainedAllocInfo,
    WrapperInfo 0 1 sample_environment = (Ok info, sample_environment) /\
    GetHash info = 1000 /\
    GetSizeInBytes info = 10 /\
    (GetSizeInBytes info
       = byte_length {| ea_data := 1000; ea_type := kExternalIntArray;
                        ea_length := 10 |}
     <-> ExternalArraySize kExternalIntArray = 1).
Proof.
  apply (WrapperInfo_size_counts_elements 0 sample_environment 1
           {| ea_data := 1000; ea_type := kExternalIntArray; ea_length := 10 |}).
  - reflexivity.
  - reflexivity.
  - reflexivity.
Defined.

(** X23. For the heap profiler a slice is the same retained object as its
    source exactly when it starts at offset 0. After a successful
    [SliceOnto] the [RetainedAllocInfo] of the source and of the slice are
    equivalent, and have the same hash, if and only if the start argument
    is 0, whatever the two lengths are. *)
Theorem SliceOnto_info_equivalent_iff_start_zero
    (label_ size_bits : Z) (source dest : positive) (args2 args3 : Value)
    (env env1 : Environment) (v : positive) :
  32 <= size_bits ->
  SliceOnto size_bits source dest args2 args3 env = (Ok v, env1) ->
  let source_info := RetainedAllocInfo_new (get_object env1 source) in
  let dest_info := RetainedAllocInfo_new (get_object env1 dest) in
  IsEquivalent label_ source_info (SmallocInfo dest_info)
    = (Uint32Value args2 =? 0) /\
  (GetHash source_info = GetHash dest_info <-> Uint32Value args2 = 0).
Proof.
  intros Hw Hrun source_info dest_info.
  pose proof (Uint32Value_range args2) as Hstart.
  destruct (SliceOnto_cases size_bits source dest args2 args3 env)
    as [[c Hfail] | (sb & Hsb & Hdb & _ & _ & Hok)].
  { rewrite Hfail in Hrun. discriminate. }
  rewrite Hok in Hrun. injection Hrun as _ <-.
  assert (Hne : source <> dest).
  { intros ->. rewrite Hsb in Hdb. discriminate. }
  assert (Hs : data_ source_info = ea_data sb).
  { subst source_info.
    unfold RetainedAllocInfo_new, GetIndexedPropertiesExternalArrayData.
    cbn [data_]. unfold get_object, set_objects. cbn [objects].
    rewrite lookup_insert_ne by congruence.
    unfold get_object in Hsb. rewrite Hsb. reflexivity. }
  assert (Hd : data_ dest_info = ea_data sb + Uint32Value args2).
  { subst dest_info.
    unfold RetainedAllocInfo_new, GetIndexedPropertiesExternalArrayData.
    cbn [data_]. unfold get_object, set_objects. cbn [objects].
    rewrite lookup_insert_eq. cbn [elements ea_data default from_option].
    rewrite size_t_Uint32Value by lia. reflexivity. }
  unfold IsEquivalent, GetHash, GetLabel.
  rewrite Z.eqb_refl, Hs, Hd. cbn [andb].
  split; [| lia].
  destruct (Uint32Value args2 =? 0) eqn:Hz; lia.
Qed.

Lemma SliceOnto_info_equivalent_iff_start_zero_witness :
  IsEquivalent 0 (RetainedAllocInfo_new (get_object sliced_environment 2))
    (SmallocInfo (RetainedAllocInfo_new (get_object sliced_environment 4)))
    = (Uint32Value (JSNumber 4) =? 0) /\
  (GetHash (RetainedAllocInfo_new (get_object sliced_environment 2))
     = GetHash (RetainedAllocInfo_new (get_object sliced_environment 4))
   <-> Uint32Value (JSNumber 4) = 0).
Proof.
  apply (SliceOnto_info_equivalent_iff_start_zero 0 64 2 4 (JSNumber 4)
           (JSNumber 12) sample_environment sliced_environment 2).
  - lia.
  - reflexivity.
Defined.

(** ** Empty buffers on the default path *)

(** X24. An empty buffer of the default path is released without any
    effect. After [alloc] of zero elements on a fresh wrapper, [dispose]
    returns with the environment unchanged, and the weak callback, when the
    wrapper is found unreachable, frees nothing and adjusts nothing: only
    the weak handle leaves the registry. *)
Theorem zero_length_default_buffer_releases_nothing
    (size_bits kMaxLength sizeof_cb_info : Z) (env : Environment)
    (obj : positive) (args1 : Value) (args2 : option ExternalArrayType)
    (malloc_result : Z) :
  32 <= size_bits <= 64 ->
  0 <= kMaxLength < 2 ^ (size_bits - 1) ->
  elements (get_object env obj) = None ->
  fresh_wrapper env obj ->
  0 < ExternalArraySize (default kExternalUnsignedByteArray args2) ->
  Uint32Value args1 = 0 ->
  exists env1 env2 : Environment,
    Alloc size_bits kMaxLength obj args1 args2 malloc_result env = (Ok tt, env1) /\
    AllocDispose size_bits sizeof_cb_info obj env1 = (Ok tt, env1) /\
    onWrapperUnreachable size_bits sizeof_cb_info obj env1 = (Ok tt, env2) /\
    trace env2 = trace env1 /\
    external_memory env2 = external_memory env1 /\
    objects env2 = objects env1 /\
    weak_handles env2 = weak_handles env.
Proof.
  intros Hw Hmax Hnone [Hhid Hfresh] Hsize Hzero.
  pose proof (pow2_half size_bits ltac:(lia)) as Hhalf.
  set (type := default kExternalUnsignedByteArray args2) in *.
  set (buffer := {| ea_data := 0; ea_type := type; ea_length := 0 |}).
  eexists. eexists. split.
  { apply Alloc_run; auto; fold type; try rewrite Hzero; lia. }
  fold type. rewrite Hzero, !Z.mul_0_l. cbn [Z.eqb]. fold buffer.
  set (env1 := {| objects := _ |}).
  assert (Hbuf : elements (get_object env1 obj) = Some buffer)
    by (subst env1; read_elements).
  split.
  { rewrite (AllocDispose_default_run _ _ _ _ buffer);
      [ | exact Hw | exact Hbuf | subst env1; rewrite <- Hhid; read_elements
        | exact Hsize | simpl; lia | unfold byte_length; simpl; lia ].
    unfold byte_length. cbn [ea_data ea_length buffer Z.mul Z.eqb].
    subst env1.
    cbn [objects callback_infos weak_handles external_memory
         using_smalloc_alloc_cb memory trace].
    rewrite !app_nil_r. reflexivity. }
  rewrite onWrapperUnreachable_run.
  destruct (fresh_keeps_handles (weak_handles env) obj (WeakTarget obj 0)
              eq_refl Hfresh) as [Hdue Hrest].
  subst env1. cbn [weak_handles]. rewrite Hdue.
  unfold set_weak_handles.
  cbn [weak_handles objects callback_infos external_memory
       using_smalloc_alloc_cb memory trace].
  rewrite Hrest.
  set (env1 := {| objects := _ |}).
  cbn [run_weak_callbacks run_weak_callback]. unfold bind.
  rewrite (TargetCallback_run size_bits env1 obj 0 buffer);
    [ | exact Hw | subst env1; read_elements | exact Hsize | simpl; lia
      | unfold byte_length; simpl; lia ].
  cbn [Z.eqb negb andb]. unfold ret.
  split; [reflexivity |]. subst env1. cbn. auto.
Qed.

Lemma zero_length_default_buffer_releases_nothing_witness :
  exists env1 env2 : Environment,
    Alloc 64 kMaxLength_node 1 (JSNumber 0) (Some kExternalIntArray) 1000
      empty_environment = (Ok tt, env1) /\
    AllocDispose 64 24 1 env1 = (Ok tt, env1) /\
    onWrapperUnreachable 64 24 1 env1 = (Ok tt, env2) /\
    trace env2 = trace env1 /\
    external_memory env2 = external_memory env1 /\
    objects env2 = objects env1 /\
    weak_handles env2 = weak_handles empty_environment.
Proof.
  apply (zero_length_default_buffer_releases_nothing 64 kMaxLength_node 24
           empty_environment 1 (JSNumber 0) (Some kExternalIntArray) 1000).
  - lia.
  - vm_compute. split; easy.
  - reflexivity.
  - apply fresh_wrapper_empty.
  - reflexivity.
  - reflexivity.
Defined.

